(** * Tool catalogue, server configuration, event streaming and approval
      of the Responses starter app: a shallow embedding and its properties.

    The development follows the TypeScript sources:
    - [config/mcp-servers]      : [McpServerConfig], [getEnabledServers],
                                  [validateServerConfig];
    - [stores/useToolsStore]    : [StoreState], [updateMcpServer],
                                  [toggleMcpServer];
    - [lib/tools/tools]         : [getTools];
    - the two [POST] routes that answer a turn with an event stream;
    - [components/mcp-approval] : the approve / decline buttons. *)

From Stdlib Require Import ZArith Ascii String DecimalString.
From stdpp Require Import base option list strings gmap.

Set Warnings "-register-all".

Open Scope string_scope.
Open Scope list_scope.

(* ================================================================== *)
(** * JavaScript values *)
(* ================================================================== *)

(** Values as the code sees them: what [JSON.parse] produces, plus
    [undefined].  Numbers are the integer-valued ones (indices, counters,
    token counts); objects keep their properties in insertion order.
    Strings are sequences of code units below 256. *)
Inductive value : Type :=
| Undefined
| Null
| Bool (b : bool)
| Num (n : Z)
| Str (s : string)
| Arr (items : list value)
| Obj (props : list (string * value)).

(** Own properties of an object, in insertion order. *)
Definition object := list (string * value).

Fixpoint obj_lookup (k : string) (o : object) : option value :=
  match o with
  | [] => None
  | (k', v) :: rest => if String.eqb k k' then Some v else obj_lookup k rest
  end.

(** [o.k] on an object: a missing property reads as [undefined]. *)
Definition obj_get (k : string) (o : object) : value :=
  match obj_lookup k o with
  | Some v => v
  | None => Undefined
  end.

(** [o.k = v]: an existing property keeps its place, a new one goes last. *)
Fixpoint obj_set (k : string) (v : value) (o : object) : object :=
  match o with
  | [] => [(k, v)]
  | (k', v') :: rest =>
      if String.eqb k k' then (k', v) :: rest else (k', v') :: obj_set k v rest
  end.

(** [{ ...dst, ...src }] applied to an object under construction. *)
Definition obj_spread (src : object) (dst : object) : object :=
  fold_left (fun o kv => obj_set (fst kv) (snd kv) o) src dst.

(** [v.k] on any value that is neither [null] nor [undefined]: only objects
    have the properties the code reads. *)
Definition get (k : string) (v : value) : value :=
  match v with
  | Obj o => obj_get k o
  | _ => Undefined
  end.

(** [v?.k] *)
Definition get_opt (k : string) (v : value) : value :=
  match v with
  | Undefined | Null => Undefined
  | _ => get k v
  end.

(** ToBoolean. *)
Definition truthy (v : value) : bool :=
  match v with
  | Undefined | Null => false
  | Bool b => b
  | Num n => negb (n =? 0)%Z
  | Str s => negb (String.eqb s "")
  | Arr _ | Obj _ => true
  end.

(** [a || b] *)
Definition js_or (a b : value) : value := if truthy a then a else b.

(** An optional string field ([string | undefined]) read as a value. *)
Definition of_opt (o : option string) : value :=
  match o with
  | Some s => Str s
  | None => Undefined
  end.

Definition str_truthy (s : string) : bool := negb (String.eqb s "").

Definition opt_truthy (o : option string) : bool := truthy (of_opt o).

(* ------------------------------------------------------------------ *)
(** ** String methods *)

(** White space and line terminators removed by [String.prototype.trim],
    among the code units below 256: TAB, LF, VT, FF, CR, SP, NBSP. *)
Definition is_white (c : ascii) : bool :=
  let n := nat_of_ascii c in
  ((9 <=? n)%nat && (n <=? 13)%nat) || (n =? 32)%nat || (n =? 160)%nat.

Fixpoint trimStart (s : string) : string :=
  match s with
  | EmptyString => EmptyString
  | String c rest => if is_white c then trimStart rest else s
  end.

Fixpoint string_rev_onto (s acc : string) : string :=
  match s with
  | EmptyString => acc
  | String c rest => string_rev_onto rest (String c acc)
  end.

Definition string_rev (s : string) : string := string_rev_onto s EmptyString.

Definition trimEnd (s : string) : string := string_rev (trimStart (string_rev s)).

Definition trim (s : string) : string := trimEnd (trimStart s).

(** [s.split(sep)] for a one-character separator. *)
Fixpoint split (sep : ascii) (s : string) : list string :=
  match s with
  | EmptyString => [EmptyString]
  | String c rest =>
      if Ascii.eqb c sep then EmptyString :: split sep rest
      else match split sep rest with
           | piece :: pieces => String c piece :: pieces
           | [] => [String c EmptyString]
           end
  end.

(** [s.startsWith(p)] *)
Definition startsWith (s p : string) : bool := String.prefix p s.

(** Decimal rendering of an integer, as in a template literal. *)
Definition string_of_Z (n : Z) : string := NilZero.string_of_int (Z.to_int n).

(* ================================================================== *)
(** * Server configuration ([config/mcp-servers]) *)
(* ================================================================== *)

Inductive McpServerType : Type := docker | query_api | remote_pipedream.

Record McpAuthConfig : Type := {
  github_token : option string;
  github_toolsets : option string;
  github_read_only : option bool;
  query_api_key : option string;
  supabase_url : option string;
  supabase_anon_key : option string;
  supabase_service_role_key : option string;
  pipedream_api_key : option string;
  custom_headers : option (list (string * string))
}.

Record McpServerConfig : Type := {
  id : string;
  name : string;
  description : string;
  type : McpServerType;
  server_url : option string;
  docker_image : option string;
  app_slug : option string;
  enabled : bool;
  skip_approval : bool;
  allowed_tools : string;
  auth_config : McpAuthConfig;
  required_env_vars : list string;
  optional_env_vars : list string
}.

Definition McpServerType_eqb (a b : McpServerType) : bool :=
  match a, b with
  | docker, docker | query_api, query_api
  | remote_pipedream, remote_pipedream => true
  | _, _ => false
  end.

Definition getServerById (i : string) (servers : list McpServerConfig)
  : option McpServerConfig :=
  find (fun server => String.eqb (id server) i) servers.

Definition getEnabledServers (servers : list McpServerConfig)
  : list McpServerConfig :=
  List.filter (fun server => enabled server) servers.

Record Validation : Type := {
  valid : bool;
  errors : list string
}.

(** [errors.push(msg)] under a condition. *)
Definition push_if (c : bool) (msg : string) (errs : list string) : list string :=
  if c then errs ++ [msg] else errs.

(** The body of the [required_env_vars.forEach] callback. *)
Definition check_env_var (server : McpServerConfig) (errs : list string)
  (envVar : string) : list string :=
  let errs :=
    push_if (McpServerType_eqb (type server) docker
             && String.eqb envVar "GITHUB_PERSONAL_ACCESS_TOKEN"
             && negb (opt_truthy (github_token (auth_config server))))
            (envVar +:+ " is required for GitHub server") errs in
  push_if (McpServerType_eqb (type server) query_api
           && String.eqb envVar "QUERY_API_KEY"
           && negb (opt_truthy (query_api_key (auth_config server))))
          (envVar +:+ " is required for Supabase server") errs.

Definition validateServerConfig (server : McpServerConfig) : Validation :=
  let errs := [] in
  let errs :=
    push_if (negb (str_truthy (trim (name server))))
            "Server name is required" errs in
  let errs :=
    push_if (McpServerType_eqb (type server) docker
             && negb (opt_truthy (docker_image server)))
            "Docker image is required for Docker-based servers" errs in
  let errs :=
    push_if (McpServerType_eqb (type server) query_api
             && negb (opt_truthy (server_url server)))
            "Server URL is required for query API servers" errs in
  let errs :=
    match type server with
    | remote_pipedream =>
        let errs :=
          push_if (negb (opt_truthy (server_url server)))
                  "Server URL is required for Pipedream servers" errs in
        push_if (negb (opt_truthy (app_slug server)))
                "App slug is required for Pipedream servers" errs
    | _ => errs
    end in
  let errs := fold_left (check_env_var server) (required_env_vars server) errs in
  {| valid := (List.length errs =? 0)%nat; errors := errs |}.

(* ================================================================== *)
(** * The tools store ([stores/useToolsStore]) *)
(* ================================================================== *)

(** The vector store selected for file search.  The declared type of its id
    is [string]; a persisted store can hold [null] there, which is what
    [getTools] guards against, hence the option. *)
Record VectorStore : Type := {
  vs_id : option string;
  vs_name : string
}.

Record UserLocation : Type := {
  country : option string;
  city : option string;
  region : option string
}.

Record WebSearchConfig : Type := {
  user_location : option UserLocation
}.

(** Legacy single-server configuration. *)
Module McpConfig.
Record t : Type := {
  server_label : string;
  server_url : string;
  allowed_tools : string;
  skip_approval : bool
}.
End McpConfig.

Record StoreState : Type := {
  fileSearchEnabled : bool;
  webSearchEnabled : bool;
  functionsEnabled : bool;
  codeInterpreterEnabled : bool;
  vectorStore : option VectorStore;
  webSearchConfig : WebSearchConfig;
  mcpEnabled : bool;
  mcpConfig : McpConfig.t;
  mcpServers : list McpServerConfig
}.

(** [Partial<McpServerConfig>]: every key may be missing; a key of an
    optional field may also be present and hold [undefined]. *)
Module Partial.
Record McpServerConfig : Type := {
  id : option string;
  name : option string;
  description : option string;
  type : option McpServerType;
  server_url : option (option string);
  docker_image : option (option string);
  app_slug : option (option string);
  enabled : option bool;
  skip_approval : option bool;
  allowed_tools : option string;
  auth_config : option McpAuthConfig;
  required_env_vars : option (list string);
  optional_env_vars : option (list string)
}.
End Partial.

(** One key of [{ ...server, ...updates }]. *)
Definition override {A : Type} (old : A) (new : option A) : A :=
  match new with
  | Some a => a
  | None => old
  end.

(** [{ ...server, ...updates }] *)
Definition merge (server : McpServerConfig) (updates : Partial.McpServerConfig)
  : McpServerConfig :=
  {| id := override (id server) (Partial.id updates);
     name := override (name server) (Partial.name updates);
     description := override (description server) (Partial.description updates);
     type := override (type server) (Partial.type updates);
     server_url := override (server_url server) (Partial.server_url updates);
     docker_image := override (docker_image server) (Partial.docker_image updates);
     app_slug := override (app_slug server) (Partial.app_slug updates);
     enabled := override (enabled server) (Partial.enabled updates);
     skip_approval := override (skip_approval server) (Partial.skip_approval updates);
     allowed_tools := override (allowed_tools server) (Partial.allowed_tools updates);
     auth_config := override (auth_config server) (Partial.auth_config updates);
     required_env_vars :=
       override (required_env_vars server) (Partial.required_env_vars updates);
     optional_env_vars :=
       override (optional_env_vars server) (Partial.optional_env_vars updates) |}.

(** [{ ...server, enabled: !server.enabled }] *)
Definition flip_enabled (server : McpServerConfig) : McpServerConfig :=
  {| id := id server;
     name := name server;
     description := description server;
     type := type server;
     server_url := server_url server;
     docker_image := docker_image server;
     app_slug := app_slug server;
     enabled := negb (enabled server);
     skip_approval := skip_approval server;
     allowed_tools := allowed_tools server;
     auth_config := auth_config server;
     required_env_vars := required_env_vars server;
     optional_env_vars := optional_env_vars server |}.

(** [set({ mcpServers: servers })]: the other keys of the state stay. *)
Definition setMcpServers (servers : list McpServerConfig) (state : StoreState)
  : StoreState :=
  {| fileSearchEnabled := fileSearchEnabled state;
     webSearchEnabled := webSearchEnabled state;
     functionsEnabled := functionsEnabled state;
     codeInterpreterEnabled := codeInterpreterEnabled state;
     vectorStore := vectorStore state;
     webSearchConfig := webSearchConfig state;
     mcpEnabled := mcpEnabled state;
     mcpConfig := mcpConfig state;
     mcpServers := servers |}.

Definition updateMcpServer (serverId : string) (updates : Partial.McpServerConfig)
  (state : StoreState) : StoreState :=
  setMcpServers
    (List.map (fun server =>
                 if String.eqb (id server) serverId
                 then merge server updates else server)
              (mcpServers state))
    state.

Definition toggleMcpServer (serverId : string) (state : StoreState) : StoreState :=
  setMcpServers
    (List.map (fun server =>
                 if String.eqb (id server) serverId
                 then flip_enabled server else server)
              (mcpServers state))
    state.

(* ================================================================== *)
(** * The tool catalogue ([lib/tools/tools]) *)
(* ================================================================== *)

(** What [getTools] can touch: the store it reads with [getState] and the
    console it writes to. *)
Inductive LogLevel : Type := Log | Warn | Error.

Record LogEntry : Type := {
  level : LogLevel;
  text : string;
  args : list value
}.

Record World : Type := {
  store : StoreState;
  console : list LogEntry
}.

(** Computations over the world. *)
Definition M (A : Type) : Type := World -> A * World.

#[global] Instance M_ret : MRet M := fun A a w => (a, w).
#[global] Instance M_bind : MBind M :=
  fun A B f m w => let (a, w') := m w in f a w'.

(** [useToolsStore.getState()] *)
Definition getState : M StoreState := fun w => (store w, w).

Definition console_write (l : LogLevel) (msg : string) (vs : list value) : M unit :=
  fun w =>
    (tt, {| store := store w;
            console := console w ++ [ {| level := l; text := msg; args := vs |} ] |}).

Definition console_log : string -> list value -> M unit := console_write Log.
Definition console_warn : string -> list value -> M unit := console_write Warn.

(** An entry of the function registry [config/tools-list], which the
    catalogue imports. *)
Record ToolSpec : Type := {
  tool_name : string;
  tool_description : string;
  tool_parameters : object
}.

(** [x !== ""] for an optional string: [undefined] differs from [""]. *)
Definition neq_empty (o : option string) : bool :=
  match o with
  | Some s => negb (String.eqb s "")
  | None => true
  end.

(** The [user_location] object of the store, as it is handed over. *)
Definition user_location_value (loc : UserLocation) : value :=
  Obj [ ("type", Str "approximate");
        ("country", of_opt (country loc));
        ("city", of_opt (city loc));
        ("region", of_opt (region loc)) ].

(** [if (webSearchEnabled) { ... tools.push(webSearchTool) }] *)
Definition webSearchBlock (st : StoreState) (tools : list value) : list value :=
  if webSearchEnabled st then
    let webSearchTool : object := [ ("type", Str "web_search") ] in
    let webSearchTool :=
      match user_location (webSearchConfig st) with
      | Some loc =>
          if neq_empty (country loc) || neq_empty (region loc)
             || neq_empty (city loc)
          then obj_set "user_location" (user_location_value loc) webSearchTool
          else webSearchTool
      | None => webSearchTool
      end in
    tools ++ [Obj webSearchTool]
  else tools.

(** [vectorStore?.id ? [vectorStore.id] : []] *)
Definition validVectorStoreIds (st : StoreState) : list value :=
  match vectorStore st with
  | Some vs => if opt_truthy (vs_id vs) then [of_opt (vs_id vs)] else []
  | None => []
  end.

(** [if (fileSearchEnabled) { ... }] *)
Definition fileSearchBlock (st : StoreState) (tools : list value) : M (list value) :=
  if fileSearchEnabled st then
    let ids := validVectorStoreIds st in
    if (0 <? List.length ids)%nat then
      let fileSearchTool :=
        Obj [ ("type", Str "file_search"); ("vector_store_ids", Arr ids) ] in
      console_log "Added file search tool with vector store IDs:" [Arr ids];;
      mret (tools ++ [fileSearchTool])
    else
      console_warn
        "File search enabled but no valid vector store IDs found. Skipping file search tool."
        [];;
      mret tools
  else mret tools.

(** [if (codeInterpreterEnabled) { tools.push(...) }] *)
Definition codeInterpreterBlock (st : StoreState) (tools : list value) : list value :=
  if codeInterpreterEnabled st then
    tools ++ [ Obj [ ("type", Str "code_interpreter");
                     ("container", Obj [ ("type", Str "auto") ]) ] ]
  else tools.

(** The descriptor built from one entry of the function registry. *)
Definition functionTool (tool : ToolSpec) : value :=
  Obj [ ("type", Str "function");
        ("name", Str (tool_name tool));
        ("description", Str (tool_description tool));
        ("parameters",
          Obj [ ("type", Str "object");
                ("properties", Obj (obj_spread (tool_parameters tool) []));
                ("required", Arr (List.map (fun kv => Str (fst kv))
                                           (tool_parameters tool)));
                ("additionalProperties", Bool false) ]);
        ("strict", Bool true) ].

(** [if (functionsEnabled) { tools.push(...toolsList.map(...)) }] *)
Definition functionsBlock (toolsList : list ToolSpec) (st : StoreState)
  (tools : list value) : list value :=
  if functionsEnabled st then tools ++ List.map functionTool toolsList else tools.

(** [s.split(",").map((t) => t.trim()).filter((t) => t)] *)
Definition tool_names (s : string) : value :=
  Arr (List.map Str
         (List.filter str_truthy (List.map trim (split "," s)))).

(** The settings both kinds of server descriptor share:
    [require_approval] and [allowed_tools]. *)
Definition commonSettings (skip : bool) (allowed : string) (mcpTool : object)
  : object :=
  let mcpTool :=
    if skip then obj_set "require_approval" (Str "never") mcpTool else mcpTool in
  if str_truthy (trim allowed)
  then obj_set "allowed_tools" (tool_names allowed) mcpTool
  else mcpTool.

(** Legacy single server: [if (mcpEnabled && server_url && server_label)]. *)
Definition legacyMcpBlock (st : StoreState) (tools : list value) : list value :=
  let cfg := mcpConfig st in
  if mcpEnabled st && str_truthy (McpConfig.server_url cfg)
     && str_truthy (McpConfig.server_label cfg)
  then
    let mcpTool : object :=
      [ ("type", Str "mcp");
        ("server_label", Str (McpConfig.server_label cfg));
        ("server_url", Str (McpConfig.server_url cfg)) ] in
    tools ++ [ Obj (commonSettings (McpConfig.skip_approval cfg)
                                   (McpConfig.allowed_tools cfg) mcpTool) ]
  else tools.

(** [...(cond && { k: v })] inside an object literal: spreads one property
    when the condition holds, nothing otherwise. *)
Definition spread_if (c : bool) (k : string) (v : value) (o : object) : object :=
  if c then obj_spread [(k, v)] o else o.

Definition bool_toString (b : bool) : string := if b then "true" else "false".

(** The [env] object of a docker server. *)
Definition docker_env (auth : McpAuthConfig) : object :=
  let env : object :=
    [ ("GITHUB_PERSONAL_ACCESS_TOKEN", of_opt (github_token auth)) ] in
  let env :=
    spread_if (opt_truthy (github_toolsets auth))
              "GITHUB_TOOLSETS" (of_opt (github_toolsets auth)) env in
  match github_read_only auth with
  | Some b => obj_spread [ ("GITHUB_READ_ONLY", Str (bool_toString b)) ] env
  | None => env
  end.

(** The [env] object of a query-API server. *)
Definition query_api_env (auth : McpAuthConfig) : object :=
  let env : object := [ ("QUERY_API_KEY", of_opt (query_api_key auth)) ] in
  let env :=
    spread_if (opt_truthy (supabase_url auth))
              "SUPABASE_URL" (of_opt (supabase_url auth)) env in
  let env :=
    spread_if (opt_truthy (supabase_anon_key auth))
              "SUPABASE_ANON_KEY" (of_opt (supabase_anon_key auth)) env in
  spread_if (opt_truthy (supabase_service_role_key auth))
            "SUPABASE_SERVICE_ROLE_KEY"
            (of_opt (supabase_service_role_key auth)) env.

(** [...server.auth_config.custom_headers] *)
Definition custom_headers_props (auth : McpAuthConfig) : object :=
  match custom_headers auth with
  | Some hs => List.map (fun kv => (fst kv, Str (snd kv))) hs
  | None => []
  end.

(** The [headers] object of a Pipedream server. *)
Definition pipedream_headers (server : McpServerConfig) : object :=
  let auth := auth_config server in
  let headers : object := [ ("X-App-Slug", of_opt (app_slug server)) ] in
  let headers :=
    match pipedream_api_key auth with
    | Some key =>
        spread_if (str_truthy key) "Authorization" (Str ("Bearer " +:+ key)) headers
    | None => headers
    end in
  obj_spread (custom_headers_props auth) headers.

(** The body of [enabledServers.forEach]: the descriptor of one server. *)
Definition serverTool (server : McpServerConfig) : object :=
  let mcpTool : object :=
    [ ("type", Str "mcp"); ("server_label", Str (name server)) ] in
  let mcpTool :=
    match type server with
    | docker =>
        let mcpTool := obj_set "docker_image" (of_opt (docker_image server)) mcpTool in
        if opt_truthy (github_token (auth_config server))
        then obj_set "env" (Obj (docker_env (auth_config server))) mcpTool
        else mcpTool
    | query_api =>
        let mcpTool := obj_set "server_url" (of_opt (server_url server)) mcpTool in
        if opt_truthy (query_api_key (auth_config server))
        then obj_set "env" (Obj (query_api_env (auth_config server))) mcpTool
        else mcpTool
    | remote_pipedream =>
        let mcpTool := obj_set "server_url" (of_opt (server_url server)) mcpTool in
        obj_set "headers" (Obj (pipedream_headers server)) mcpTool
    end in
  commonSettings (skip_approval server) (allowed_tools server) mcpTool.

(** Multi-server support: one [tools.push] per enabled server. *)
Definition serversBlock (st : StoreState) (tools : list value) : list value :=
  fold_left (fun tools server => tools ++ [Obj (serverTool server)])
            (getEnabledServers (mcpServers st)) tools.

Definition getTools (toolsList : list ToolSpec) : M (list value) :=
  st ← getState;
  let tools := [] in
  let tools := webSearchBlock st tools in
  tools ← fileSearchBlock st tools;
  let tools := codeInterpreterBlock st tools in
  let tools := functionsBlock toolsList st tools in
  let tools := legacyMcpBlock st tools in
  let tools := serversBlock st tools in
  console_log "Generated tools:" [Arr tools];;
  console_log "Total tools count:" [Num (Z.of_nat (List.length tools))];;
  mret tools.

(* ================================================================== *)
(** * The event stream of a turn (the [POST] routes) *)
(* ================================================================== *)

(** An upstream stream event: its discriminant and its other properties. *)
Record Event : Type := {
  ev_type : string;
  ev_rest : object
}.

(** The event object itself ([eventData], [event]). *)
Definition event_value (e : Event) : value :=
  Obj (("type", Str (ev_type e)) :: ev_rest e).

(** What a route enqueues: a [data: <json>] frame or the [data: [DONE]]
    sentinel. *)
Inductive Frame : Type :=
| Data (payload : value)
| Done.

(** [data: ${JSON.stringify({ event, data })}\n\n] *)
Definition sse (event_name : value) (data : value) : Frame :=
  Data (Obj [ ("event", event_name); ("data", data) ]).

(** What a [catch] clause receives: an [Error] with its message, or
    something else. *)
Inductive Thrown : Type :=
| ErrorObject (message : string)
| OtherThrown.

(** [error instanceof Error ? error.message : 'Unknown error'] *)
Definition errorMessage (err : Thrown) : string :=
  match err with
  | ErrorObject m => m
  | OtherThrown => "Unknown error"
  end.

(** How the upstream iterator ends: exhausted, or throwing. *)
Inductive StreamEnd : Type :=
| EndOfStream
| Throws (err : Thrown).

Record Upstream : Type := {
  events : list Event;
  ending : StreamEnd
}.

(** What happens before the response stream exists: reading the request and
    opening the upstream stream either throws or yields the stream. *)
Inductive Attempt : Type :=
| SetupThrows (err : Thrown)
| Opened (up : Upstream).

Inductive Termination : Type :=
| Closed
| Errored (err : Thrown).

Inductive Response : Type :=
| EventStream (status : Z) (frames : list Frame) (term : Termination)
| JsonBody (status : Z) (body : value).

(* ------------------------------------------------------------------ *)
(** ** [JSON.stringify] and the wire format *)

Definition quote_char : ascii := ascii_of_nat 34.
Definition newline : string := String (ascii_of_nat 10) EmptyString.

Definition hex_digit (n : nat) : ascii :=
  List.nth n [ "0"; "1"; "2"; "3"; "4"; "5"; "6"; "7"; "8"; "9";
               "a"; "b"; "c"; "d"; "e"; "f" ]%char "0"%char.

Definition escape_char (c : ascii) : string :=
  let n := nat_of_ascii c in
  if (n =? 34)%nat then String "\" (String quote_char EmptyString)
  else if (n =? 92)%nat then "\\"
  else if (n =? 8)%nat then "\b"
  else if (n =? 9)%nat then "\t"
  else if (n =? 10)%nat then "\n"
  else if (n =? 12)%nat then "\f"
  else if (n =? 13)%nat then "\r"
  else if (n <? 32)%nat then
    "\u00" +:+ String (hex_digit (n / 16)) (String (hex_digit (n mod 16)) EmptyString)
  else String c EmptyString.

Fixpoint escape (s : string) : string :=
  match s with
  | EmptyString => EmptyString
  | String c rest => escape_char c +:+ escape rest
  end.

Definition quote (s : string) : string :=
  String quote_char (escape s +:+ String quote_char EmptyString).

Fixpoint join (sep : string) (parts : list string) : string :=
  match parts with
  | [] => EmptyString
  | [p] => p
  | p :: rest => p +:+ sep +:+ join sep rest
  end.

(** [JSON.stringify(v)]: [None] is the [undefined] result.  Properties
    holding [undefined] are left out; an [undefined] array item is [null]. *)
Fixpoint JSON_stringify (v : value) : option string :=
  match v with
  | Undefined => None
  | Null => Some "null"
  | Bool b => Some (bool_toString b)
  | Num n => Some (string_of_Z n)
  | Str s => Some (quote s)
  | Arr items =>
      let fix go (vs : list value) : list string :=
        match vs with
        | [] => []
        | x :: rest =>
            match JSON_stringify x with
            | Some s => s
            | None => "null"
            end :: go rest
        end in
      Some ("[" +:+ join "," (go items) +:+ "]")
  | Obj props =>
      let fix go (ps : list (string * value)) : list string :=
        match ps with
        | [] => []
        | (k, x) :: rest =>
            match JSON_stringify x with
            | Some s => (quote k +:+ ":" +:+ s) :: go rest
            | None => go rest
            end
        end in
      Some ("{" +:+ join "," (go props) +:+ "}")
  end.

(** The text of a frame on the wire. *)
Definition render (f : Frame) : string :=
  match f with
  | Data payload =>
      "data: " +:+ default "undefined" (JSON_stringify payload) +:+ newline +:+ newline
  | Done => "data: [DONE]" +:+ newline +:+ newline
  end.

Definition sentinel : string := "data: [DONE]" +:+ newline +:+ newline.

(** The frames of a response that is an event stream. *)
Definition frames_of (r : Response) : list Frame :=
  match r with
  | EventStream _ fs _ => fs
  | JsonBody _ _ => []
  end.



(* ------------------------------------------------------------------ *)
(** ** The route that translates events *)

(** Two of the route files hold this handler with the same stream code;
    they differ only in how they list the tools sent upstream, which the
    frames do not depend on. *)

Module Translating.


(** The body of [for await (const event of stream)]: always one
    [controller.enqueue].  [now] is what [Date.now()] returns there. *)
Definition translate (now : Z) (event : Event) : Frame :=
  let eventData := event_value event in
  let t := ev_type event in
  if String.eqb t "response.output_item.added" then
    sse (Str "response.output_item.added") eventData
  else if String.eqb t "response.output_item.done" then
    sse (Str "response.output_item.done") (Obj [ ("finish_reason", Str "stop") ])
  else if String.eqb t "response.content_part.added" then
    sse (Str "response.content_part.added") eventData
  else if String.eqb t "response.content_part.done" then
    sse (Str "response.content_part.done") eventData
  else if startsWith t "response.reasoning" then
    sse (Str t) eventData
  else if startsWith t "response.function_call" then
    sse (Str "response.tool_calls.delta") (Obj [ ("tool_calls", eventData) ])
  else if String.eqb t "response.completed" then
    sse (Str "response.completed")
        (Obj [ ("usage", js_or (get "usage" eventData) (Obj [])) ])
  else if String.eqb t "response.failed" then
    sse (Str "error")
        (Obj [ ("error", Str "Response failed");
               ("details",
                 js_or (get_opt "message" (get "error" eventData))
                       (Str "Unknown error")) ])
  else if truthy (js_or (get "delta" eventData) (get "text" eventData)) then
    sse (Str "response.output_text.delta")
        (Obj [ ("delta",
                 js_or (js_or (get "delta" eventData) (get "text" eventData))
                       (Str ""));
               ("item_id", Str ("msg_" +:+ string_of_Z now)) ])
  else
    sse (Str t) eventData.

(** The loop over the upstream events; [clock i] is the time at which the
    [i]-th event of the turn is handled. *)
Fixpoint pump (clock : nat -> Z) (i : nat) (evs : list Event) : list Frame :=
  match evs with
  | [] => []
  | event :: rest => translate (clock i) event :: pump clock (S i) rest
  end.

Definition errorFrame (what : string) (err : Thrown) : Frame :=
  sse (Str "error")
      (Obj [ ("error", Str what); ("details", Str (errorMessage err)) ]).

(** [start(controller)] of the readable stream. *)
Definition start (clock : nat -> Z) (up : Upstream) : list Frame :=
  pump clock 0 (events up)
  ++ match ending up with
     | EndOfStream => [Done]
     | Throws err => [errorFrame "Streaming failed" err]
     end.

Definition POST (clock : nat -> Z) (a : Attempt) : Response :=
  match a with
  | Opened up => EventStream 200 (start clock up) Closed
  | SetupThrows err =>
      EventStream 500 [errorFrame "Internal server error" err; Done] Closed
  end.

End Translating.

(* ------------------------------------------------------------------ *)
(** ** The route that forwards every event *)

(** Checking the request's tools and opening the upstream stream happen
    before the response stream exists: a throw there is a [SetupThrows]. *)

Module Forwarding.

(** The body of [for await (const event of events)]. *)
Definition forward (event : Event) : Frame :=
  sse (Str (ev_type event)) (event_value event).

Definition start (up : Upstream) : list Frame * Termination :=
  (List.map forward (events up),
   match ending up with
   | EndOfStream => Closed
   | Throws err => Errored err
   end).

Definition POST (a : Attempt) : Response :=
  match a with
  | Opened up => let (fs, term) := start up in EventStream 200 fs term
  | SetupThrows err =>
      JsonBody 500 (Obj [ ("error", Str (errorMessage err)) ])
  end.

End Forwarding.

(* ================================================================== *)
(** * Approval ([components/mcp-approval]) *)
(* ================================================================== *)

Record McpApprovalRequestItem : Type := {
  item_id : string;
  item_name : string;
  item_server_label : string
}.

(** A call of the [onRespond] callback the component is given. *)
Inductive Respond : Type :=
| onRespond (approve : bool) (request_id : string).

(** The component's state: [const [disabled, setDisabled] = useState(false)]. *)
Record McpApproval : Type := {
  disabled : bool
}.

Definition mounted : McpApproval := {| disabled := false |}.

(** [handle(approve)]: [setDisabled(true); onRespond(approve, item.id)]. *)
Definition handle (item : McpApprovalRequestItem) (approve : bool)
  (st : McpApproval) : McpApproval * list Respond :=
  ({| disabled := true |}, [onRespond approve (item_id item)]).

(** A click on Approve ([true]) or Decline ([false]).  Both buttons carry
    [disabled={disabled}]: a disabled button does not run its handler. *)
Definition click (item : McpApprovalRequestItem) (approve : bool)
  (st : McpApproval) : McpApproval * list Respond :=
  if disabled st then (st, []) else handle item approve st.

Fixpoint clicks (item : McpApprovalRequestItem) (cs : list bool)
  (st : McpApproval) : McpApproval * list Respond :=
  match cs with
  | [] => (st, [])
  | c :: rest =>
      let (st1, out1) := click item c st in
      let (st2, out2) := clicks item rest st1 in
      (st2, out1 ++ out2)
  end.

(* ------------------------------------------------------------------ *)
(** ** The approval gate behind [onRespond] *)

Inductive DecisionState : Type := pending | approved | declined.

Record ApprovalRequest : Type := {
  call_id : string;
  request_server_label : string;
  request_tool_name : string;
  request_arguments : value;
  decision : DecisionState
}.

Definition decide_request (d : DecisionState) (r : ApprovalRequest)
  : ApprovalRequest :=
  {| call_id := call_id r;
     request_server_label := request_server_label r;
     request_tool_name := request_tool_name r;
     request_arguments := request_arguments r;
     decision := d |}.

(** What a resolution hands back: the resolved request, for the dispatch
    that follows, or a diagnostic. *)
Inductive GateOutput : Type :=
| Resolved (r : ApprovalRequest)
| Diagnostic (msg : string).

(** Modelled from the spec: the approval gate and its entry points
    [enqueue] and [resolveApproval]; the code that receives [onRespond] is
    not among the sources.  The gate holds the requests keyed by call id.
    A request goes from [pending] to [approved] or [declined] and is
    returned for downstream dispatch; a decision on a request that is
    already resolved is a no-op reported as a diagnostic warning; a decision
    for a call id that is not in the gate is a no-op. *)
Definition resolveApproval (callId : string) (approve : bool)
  (gate : gmap string ApprovalRequest)
  : gmap string ApprovalRequest * list GateOutput :=
  match gate !! callId with
  | Some r =>
      match decision r with
      | pending =>
          let r' := decide_request (if approve then approved else declined) r in
          (<[callId := r']> gate, [Resolved r'])
      | _ => (gate, [Diagnostic "approval request already resolved"])
      end
  | None => (gate, [])
  end.

(** Modelled from the spec: [enqueue] adds a request to the pending set. *)
Definition enqueue (r : ApprovalRequest) (gate : gmap string ApprovalRequest)
  : gmap string ApprovalRequest :=
  <[call_id r := decide_request pending r]> gate.

(** The tool dispatches a list of gate outputs gives rise to: one per
    request resolved as approved. *)
Definition dispatches (out : list GateOutput) : list ApprovalRequest :=
  List.flat_map
    (fun o =>
       match o with
       | Resolved r =>
           match decision r with
           | approved => [r]
           | _ => []
           end
       | Diagnostic _ => []
       end) out.

(** The state transitions a list of gate outputs records. *)
Definition transitions (out : list GateOutput) : list ApprovalRequest :=
  List.flat_map
    (fun o =>
       match o with
       | Resolved r => [r]
       | Diagnostic _ => []
       end) out.

(** The gate driven by the calls a component made. *)
Fixpoint respond_all (calls : list Respond) (gate : gmap string ApprovalRequest)
  : gmap string ApprovalRequest * list GateOutput :=
  match calls with
  | [] => (gate, [])
  | onRespond approve i :: rest =>
      let (g1, out1) := resolveApproval i approve gate in
      let (g2, out2) := respond_all rest g1 in
      (g2, out1 ++ out2)
  end.

(* ================================================================== *)
(** * Further functions of the sources *)
(* ================================================================== *)

(* ------------------------------------------------------------------ *)
(** ** More of [config/mcp-servers] and of the store *)

Definition empty_auth : McpAuthConfig :=
  {| github_token := None; github_toolsets := None; github_read_only := None;
     query_api_key := None; supabase_url := None; supabase_anon_key := None;
     supabase_service_role_key := None; pipedream_api_key := None;
     custom_headers := None |}.

(** The three Pipedream entries of [defaultMcpServers] differ in their id,
    name, description and app slug only. *)
Definition default_pipedream (i n d slug : string) : McpServerConfig :=
  {| id := i;
     name := n;
     description := d;
     type := remote_pipedream;
     server_url := Some "https://remote.mcp.pipedream.net";
     docker_image := None;
     app_slug := Some slug;
     enabled := false;
     skip_approval := false;
     allowed_tools := "";
     auth_config :=
       {| github_token := None; github_toolsets := None;
          github_read_only := None; query_api_key := None;
          supabase_url := None; supabase_anon_key := None;
          supabase_service_role_key := None; pipedream_api_key := Some "";
          custom_headers := Some [ ("X-App-Slug", slug) ] |};
     required_env_vars := [];
     optional_env_vars := ["PIPEDREAM_API_KEY"] |}.

Definition defaultMcpServers : list McpServerConfig :=
  [ {| id := "github-official";
       name := "GitHub Official";
       description :=
         "Official GitHub MCP server for repository management, issues, PRs, and more";
       type := docker;
       server_url := None;
       docker_image := Some "ghcr.io/github/github-mcp-server";
       app_slug := None;
       enabled := false;
       skip_approval := false;
       allowed_tools := "";
       auth_config :=
         {| github_token := Some ""; github_toolsets := Some "";
            github_read_only := Some false; query_api_key := None;
            supabase_url := None; supabase_anon_key := None;
            supabase_service_role_key := None; pipedream_api_key := None;
            custom_headers := None |};
       required_env_vars := ["GITHUB_PERSONAL_ACCESS_TOKEN"];
       optional_env_vars := ["GITHUB_TOOLSETS"; "GITHUB_READ_ONLY"] |};
    {| id := "supabase";
       name := "Supabase";
       description := "Query and manage Supabase databases with SQL operations";
       type := query_api;
       server_url := Some "supabase-mcp-server";
       docker_image := None;
       app_slug := None;
       enabled := false;
       skip_approval := false;
       allowed_tools := "";
       auth_config :=
         {| github_token := None; github_toolsets := None;
            github_read_only := None; query_api_key := Some "";
            supabase_url := Some ""; supabase_anon_key := Some "";
            supabase_service_role_key := Some ""; pipedream_api_key := None;
            custom_headers := None |};
       required_env_vars := ["QUERY_API_KEY"];
       optional_env_vars :=
         ["SUPABASE_URL"; "SUPABASE_ANON_KEY"; "SUPABASE_SERVICE_ROLE_KEY"] |};
    default_pipedream "outlook" "Microsoft Outlook"
      "Access and manage Outlook emails, calendar, and contacts" "office365_mail";
    default_pipedream "teams" "Microsoft Teams"
      "Interact with Microsoft Teams channels, messages, and meetings"
      "microsoft_teams";
    default_pipedream "gmail" "Gmail"
      "Access and manage Gmail emails, labels, and threads" "gmail" ].

(** [resetMcpServers: () => set({ mcpServers: defaultMcpServers })] *)
Definition resetMcpServers (state : StoreState) : StoreState :=
  setMcpServers defaultMcpServers state.

(** An update object with no key. *)
Definition no_updates : Partial.McpServerConfig :=
  {| Partial.id := None; Partial.name := None; Partial.description := None;
     Partial.type := None; Partial.server_url := None;
     Partial.docker_image := None; Partial.app_slug := None;
     Partial.enabled := None; Partial.skip_approval := None;
     Partial.allowed_tools := None; Partial.auth_config := None;
     Partial.required_env_vars := None; Partial.optional_env_vars := None |}.

(* ------------------------------------------------------------------ *)
(** ** The server forms ([components/mcp-multi-config]) *)

(** The two fields the form edits through [handleUpdate(field, value)]. *)
Inductive ServerField : Type :=
| allowed_tools_field (v : string)
| skip_approval_field (v : bool).

(** [{ [field]: value }] *)
Definition field_updates (f : ServerField) : Partial.McpServerConfig :=
  match f with
  | allowed_tools_field v =>
      {| Partial.id := None; Partial.name := None; Partial.description := None;
         Partial.type := None; Partial.server_url := None;
         Partial.docker_image := None; Partial.app_slug := None;
         Partial.enabled := None; Partial.skip_approval := None;
         Partial.allowed_tools := Some v; Partial.auth_config := None;
         Partial.required_env_vars := None; Partial.optional_env_vars := None |}
  | skip_approval_field v =>
      {| Partial.id := None; Partial.name := None; Partial.description := None;
         Partial.type := None; Partial.server_url := None;
         Partial.docker_image := None; Partial.app_slug := None;
         Partial.enabled := None; Partial.skip_approval := Some v;
         Partial.allowed_tools := None; Partial.auth_config := None;
         Partial.required_env_vars := None; Partial.optional_env_vars := None |}
  end.

(** The credentials the form edits through [handleAuthUpdate(field, value)]. *)
Inductive AuthField : Type :=
| github_token_field (v : string)
| github_toolsets_field (v : string)
| github_read_only_field (v : bool)
| query_api_key_field (v : string)
| supabase_url_field (v : string)
| supabase_anon_key_field (v : string)
| supabase_service_role_key_field (v : string)
| pipedream_api_key_field (v : string).

(** [{ ...server.auth_config, [field]: value }] *)
Definition set_auth (f : AuthField) (auth : McpAuthConfig) : McpAuthConfig :=
  {| github_token :=
       match f with github_token_field v => Some v | _ => github_token auth end;
     github_toolsets :=
       match f with github_toolsets_field v => Some v | _ => github_toolsets auth end;
     github_read_only :=
       match f with github_read_only_field v => Some v | _ => github_read_only auth end;
     query_api_key :=
       match f with query_api_key_field v => Some v | _ => query_api_key auth end;
     supabase_url :=
       match f with supabase_url_field v => Some v | _ => supabase_url auth end;
     supabase_anon_key :=
       match f with supabase_anon_key_field v => Some v | _ => supabase_anon_key auth end;
     supabase_service_role_key :=
       match f with
       | supabase_service_role_key_field v => Some v
       | _ => supabase_service_role_key auth
       end;
     pipedream_api_key :=
       match f with pipedream_api_key_field v => Some v | _ => pipedream_api_key auth end;
     custom_headers := custom_headers auth |}.

(** [{ auth_config: { ...server.auth_config, [field]: value } }] *)
Definition auth_updates (f : AuthField) (server : McpServerConfig)
  : Partial.McpServerConfig :=
  {| Partial.id := None; Partial.name := None; Partial.description := None;
     Partial.type := None; Partial.server_url := None;
     Partial.docker_image := None; Partial.app_slug := None;
     Partial.enabled := None; Partial.skip_approval := None;
     Partial.allowed_tools := None;
     Partial.auth_config := Some (set_auth f (auth_config server));
     Partial.required_env_vars := None; Partial.optional_env_vars := None |}.

Module ServerConfig.

(** The state of one server form. *)
Record state : Type := {
  isExpanded : bool;
  errors : list string
}.

(** [handleUpdate]: the store is updated through [onUpdate], which is
    [updateMcpServer]; then the server as the form holds it, with the
    update applied, is validated and its errors are shown. *)
Definition handleUpdate (server : McpServerConfig) (f : ServerField)
  (form : state) (st : StoreState) : state * StoreState :=
  let updates := field_updates f in
  let st' := updateMcpServer (id server) updates st in
  let updatedServer := merge server updates in
  let 'Build_Validation _ validation_errors := validateServerConfig updatedServer in
  ({| isExpanded := isExpanded form; errors := validation_errors |}, st').

(** [handleAuthUpdate]: the store is updated; nothing is validated. *)
Definition handleAuthUpdate (server : McpServerConfig) (f : AuthField)
  (form : state) (st : StoreState) : state * StoreState :=
  (form, updateMcpServer (id server) (auth_updates f server) st).

End ServerConfig.

(** [mcpServers.filter(server => server.enabled).length] of the form's
    header. *)
Definition enabledCount (st : StoreState) : nat :=
  List.length (List.filter (fun server => enabled server) (mcpServers st)).

(* ------------------------------------------------------------------ *)
(** ** The list of active servers ([components/mcp-tools-list]) *)

Module McpToolsList.

(** [mcpEnabled && mcpConfig.server_url && mcpConfig.server_label], as a
    condition. *)
Definition hasLegacyServer (st : StoreState) : bool :=
  mcpEnabled st && str_truthy (McpConfig.server_url (mcpConfig st))
  && str_truthy (McpConfig.server_label (mcpConfig st)).

(** The component shows its empty state. *)
Definition showsNothing (st : StoreState) : bool :=
  (List.length (getEnabledServers (mcpServers st)) =? 0)%nat
  && negb (hasLegacyServer st).

(** The number in "Active MCP Servers (n)". *)
Definition activeCount (st : StoreState) : nat :=
  List.length (getEnabledServers (mcpServers st))
  + (if hasLegacyServer st then 1 else 0).

(** [getToolsInfo], on the [allowed_tools] string of a server. *)
Definition getToolsInfo (allowed : string) : list string :=
  let allowedTools := trim allowed in
  if str_truthy allowedTools then
    let tools :=
      List.filter str_truthy (List.map trim (split "," allowedTools)) in
    if (0 <? List.length tools)%nat then tools else ["All tools"]
  else ["All tools"].

End McpToolsList.

(* ------------------------------------------------------------------ *)
(** ** The server shown by the approval dialog *)

(** [mcpServers.find(server => server.name === item.server_label)] *)
Definition approvalServerConfig (item : McpApprovalRequestItem)
  (servers : list McpServerConfig) : option McpServerConfig :=
  find (fun server => String.eqb (name server) (item_server_label item)) servers.

Definition McpServerType_name (t : McpServerType) : string :=
  match t with
  | docker => "docker"
  | query_api => "query_api"
  | remote_pipedream => "remote_pipedream"
  end.

(** [serverConfig?.type || 'unknown'] *)
Definition approvalServerType (item : McpApprovalRequestItem)
  (servers : list McpServerConfig) : string :=
  match approvalServerConfig item servers with
  | Some server => McpServerType_name (type server)
  | None => "unknown"
  end.

(* ------------------------------------------------------------------ *)
(** ** What the routes do before they stream *)

(** [String(v)], as a template literal applies it. *)
Fixpoint ToString (v : value) : string :=
  match v with
  | Undefined => "undefined"
  | Null => "null"
  | Bool b => bool_toString b
  | Num n => string_of_Z n
  | Str s => s
  | Arr items =>
      let fix go (vs : list value) : list string :=
        match vs with
        | [] => []
        | x :: rest =>
            match x with
            | Undefined | Null => EmptyString
            | _ => ToString x
            end :: go rest
        end in
      join "," (go items)
  | Obj _ => "[object Object]"
  end.

(** [v === "s"] *)
Definition is_str (v : value) (s : string) : bool :=
  match v with
  | Str x => String.eqb x s
  | _ => false
  end.

(** [v.length] on a value that is neither [null] nor [undefined]: the
    number of items of an array, of code units of a string, and the own
    [length] property of an object. *)
Definition js_length (v : value) : value :=
  match v with
  | Arr items => Num (Z.of_nat (List.length items))
  | Str s => Num (Z.of_nat (String.length s))
  | Obj props => obj_get "length" props
  | _ => Undefined
  end.

(** [v === 0] *)
Definition is_zero (v : value) : bool :=
  match v with
  | Num n => (n =? 0)%Z
  | _ => false
  end.

(** [JSON.stringify(v, null, 2)], at the given indentation. *)
Fixpoint JSON_stringify_indented (indent : string) (v : value) : option string :=
  match v with
  | Undefined => None
  | Null => Some "null"
  | Bool b => Some (bool_toString b)
  | Num n => Some (string_of_Z n)
  | Str s => Some (quote s)
  | Arr items =>
      let inner := indent +:+ "  " in
      let fix go (vs : list value) : list string :=
        match vs with
        | [] => []
        | x :: rest =>
            (inner +:+ match JSON_stringify_indented inner x with
                       | Some s => s
                       | None => "null"
                       end) :: go rest
        end in
      match go items with
      | [] => Some "[]"
      | lines =>
          Some ("[" +:+ newline +:+ join ("," +:+ newline) lines
                +:+ newline +:+ indent +:+ "]")
      end
  | Obj props =>
      let inner := indent +:+ "  " in
      let fix go (ps : list (string * value)) : list string :=
        match ps with
        | [] => []
        | (k, x) :: rest =>
            match JSON_stringify_indented inner x with
            | Some s => (inner +:+ quote k +:+ ": " +:+ s) :: go rest
            | None => go rest
            end
        end in
      match go props with
      | [] => Some "{}"
      | lines =>
          Some ("{" +:+ newline +:+ join ("," +:+ newline) lines
                +:+ newline +:+ indent +:+ "}")
      end
  end.

Definition pretty (v : value) : value :=
  match JSON_stringify_indented EmptyString v with
  | Some s => Str s
  | None => Undefined
  end.

(** [getOriginalMcpConfiguration()] of [config/mcp-server-integration]. *)
Definition getOriginalMcpConfiguration : list object :=
  [ [ ("type", Str "mcp");
      ("server_label", Str "Context7");
      ("server_url", Str "https://mcp.context7.com/mcp");
      ("allowed_tools", Arr [ Str "resolve-library-id"; Str "get-library-docs" ]);
      ("require_approval", Str "always") ] ].

Module TurnRoute.

(** The parameters a configuration entry lacks, in the order they are
    checked. *)
Definition missingParams (config : object) : list string :=
  let missing := [] in
  let missing :=
    push_if (negb (truthy (obj_get "server_url" config))) "server_url" missing in
  let missing :=
    push_if (negb (truthy (obj_get "server_label" config))) "server_label" missing in
  let missing :=
    push_if (negb (truthy (obj_get "allowed_tools" config))
             || is_zero (js_length (obj_get "allowed_tools" config)))
            "allowed_tools" missing in
  push_if (negb (truthy (obj_get "require_approval" config)))
          "require_approval" missing.

(** The body of [mcpConfig.forEach((config, index) => ...)], on the tools
    and the console so far. *)
Definition addMcpTool (acc : list value * list LogEntry) (entry : nat * object)
  : list value * list LogEntry :=
  let (tools, logs) := acc in
  let (index, config) := entry in
  if is_str (obj_get "type" config) "mcp" && truthy (obj_get "allowed_tools" config)
  then
    let missing := missingParams config in
    if (0 <? List.length missing)%nat then
      (tools,
       logs ++ [ {| level := Error;
                    text := "MCP tool at index " +:+ string_of_Z (Z.of_nat index)
                            +:+ " missing required parameters:";
                    args := [Arr (List.map Str missing)] |};
                 {| level := Error; text := "Config:";
                    args := [pretty (Obj config)] |} ])
    else
      let mcpTool : object :=
        [ ("type", Str "mcp");
          ("server_label", obj_get "server_label" config);
          ("server_url", obj_get "server_url" config);
          ("allowed_tools", obj_get "allowed_tools" config);
          ("require_approval", obj_get "require_approval" config) ] in
      (tools ++ [Obj mcpTool],
       logs ++ [ {| level := Log;
                    text := "Adding MCP tool for "
                            +:+ ToString (obj_get "server_label" config) +:+ ":";
                    args := [pretty (Obj mcpTool)] |} ])
  else (tools, logs).

Fixpoint indexed {A : Type} (i : nat) (l : list A) : list (nat * A) :=
  match l with
  | [] => []
  | a :: rest => (i, a) :: indexed (S i) rest
  end.

(** [getMcpServerTools], on the configuration it reads. *)
Definition mcpServerToolsOf (mcpConfig : list object) : list value * list LogEntry :=
  fold_left addMcpTool (indexed 0 mcpConfig) ([], []).

Definition getMcpServerTools : list value * list LogEntry :=
  mcpServerToolsOf getOriginalMcpConfiguration.

(** The body of [messages.forEach] in [convertMessagesToInput]. *)
Definition appendMessage (combinedInput : string) (message : object) : string :=
  let role := obj_get "role" message in
  let content := ToString (obj_get "content" message) in
  if is_str role "system" then
    combinedInput +:+ "System: " +:+ content +:+ newline +:+ newline
  else if is_str role "user" then
    combinedInput +:+ "User: " +:+ content +:+ newline +:+ newline
  else if is_str role "assistant" then
    combinedInput +:+ "Assistant: " +:+ content +:+ newline +:+ newline
  else combinedInput.

Definition convertMessagesToInput (messages : list object) : string :=
  trim (fold_left appendMessage messages EmptyString).

(** The [input] of the upstream request: the developer prompt, a constant
    of [config/constants], goes first as a system message. *)
Definition requestInput (DEVELOPER_PROMPT : string) (messages : list object)
  : string :=
  let systemMessage : object :=
    [ ("role", Str "system"); ("content", Str DEVELOPER_PROMPT) ] in
  let allMessages := systemMessage :: messages in
  convertMessagesToInput allMessages.

(** [tools: allTools.length > 0 ? allTools : undefined] *)
Definition requestTools (tools : list value) : value :=
  let allTools := tools ++ fst getMcpServerTools in
  if (0 <? List.length allTools)%nat then Arr allTools else Undefined.

End TurnRoute.

Module LibraryRoute.

Definition resolve_library_id : value :=
  Obj [ ("type", Str "function");
        ("name", Str "resolve_library_id");
        ("description",
          Str "Resolves a package/product name to a Context7-compatible library ID");
        ("parameters",
          Obj [ ("type", Str "object");
                ("properties",
                  Obj [ ("libraryName",
                          Obj [ ("type", Str "string");
                                ("description",
                                  Str "Library name to search for and retrieve a Context7-compatible library ID") ]) ]);
                ("required", Arr [ Str "libraryName" ]) ]) ].

Definition get_library_docs : value :=
  Obj [ ("type", Str "function");
        ("name", Str "get_library_docs");
        ("description",
          Str "Fetches up-to-date documentation for a library using Context7-compatible library ID");
        ("parameters",
          Obj [ ("type", Str "object");
                ("properties",
                  Obj [ ("context7CompatibleLibraryID",
                          Obj [ ("type", Str "string");
                                ("description",
                                  Str "Exact Context7-compatible library ID (e.g., '/mongodb/docs', '/vercel/next.js')") ]);
                        ("topic",
                          Obj [ ("type", Str "string");
                                ("description",
                                  Str "Topic to focus documentation on (e.g., 'hooks', 'routing')") ]);
                        ("tokens",
                          Obj [ ("type", Str "number");
                                ("description",
                                  Str "Maximum number of tokens of documentation to retrieve (default: 10000)") ]) ]);
                ("required", Arr [ Str "context7CompatibleLibraryID" ]) ]) ].

(** The body of [config.allowed_tools.forEach(toolName => ...)]. *)
Definition addFunctionTool (tools : list value) (toolName : value) : list value :=
  if is_str toolName "resolve-library-id" then tools ++ [resolve_library_id]
  else if is_str toolName "get-library-docs" then tools ++ [get_library_docs]
  else tools.

(** The body of [mcpConfig.forEach(config => ...)].  [None]: the entry's
    [allowed_tools] is truthy and has no [forEach], which throws. *)
Definition addConfigTools (acc : option (list value)) (config : object)
  : option (list value) :=
  match acc with
  | None => None
  | Some tools =>
      if is_str (obj_get "type" config) "mcp"
         && truthy (obj_get "allowed_tools" config)
      then
        match obj_get "allowed_tools" config with
        | Arr names => Some (fold_left addFunctionTool names tools)
        | _ => None
        end
      else Some tools
  end.

Definition mcpServerToolsOf (mcpConfig : list object) : option (list value) :=
  fold_left addConfigTools mcpConfig (Some []).

Definition getMcpServerTools : option (list value) :=
  mcpServerToolsOf getOriginalMcpConfiguration.

End LibraryRoute.

Module ForwardingRoute.

(** How the check of the request's tools ends. *)
Inductive Checked : Type :=
| Passed
| Rejected (message : string)
| RaisedTypeError.

(** [id == null || id === ""] *)
Definition invalidId (i : value) : bool :=
  match i with
  | Undefined | Null => true
  | Str s => String.eqb s ""
  | _ => false
  end.

(** The callback of [tools.forEach((tool, index) => ...)] on one tool. *)
Definition checkTool (index : nat) (tool : value) : Checked :=
  match tool with
  | Undefined | Null => RaisedTypeError
  | _ =>
      if is_str (get "type" tool) "file_search"
         && truthy (get "vector_store_ids" tool)
      then
        match get "vector_store_ids" tool with
        | Arr ids =>
            let invalidIds := List.filter invalidId ids in
            if (0 <? List.length invalidIds)%nat then
              Rejected ("Invalid vector store IDs in tool["
                        +:+ string_of_Z (Z.of_nat index)
                        +:+ "]: expected strings, got null/undefined/empty values")
            else Passed
        | _ => RaisedTypeError
        end
      else Passed
  end.

Fixpoint checkTools (index : nat) (tools : list value) : Checked :=
  match tools with
  | [] => Passed
  | tool :: rest =>
      match checkTool index tool with
      | Passed => checkTools (S index) rest
      | stopped => stopped
      end
  end.

(** [if (tools && Array.isArray(tools)) { tools.forEach(...) }] *)
Definition validateTools (tools : value) : Checked :=
  match tools with
  | Arr items => checkTools 0 items
  | _ => Passed
  end.

(** What an awaited call gives: its value, or what it throws. *)
Inductive Awaited (A : Type) : Type :=
| Resolves (a : A)
| Throwing (err : Thrown).

Arguments Resolves {A} a.
Arguments Throwing {A} err.

(** [POST(request)].  [body] is what [await request.json()] gives, and
    [create input tools] what [await openai.responses.create({ input,
    tools, ... })] does: it throws, or yields the upstream stream.  A run
    raises at most one [TypeError]; [typeError] is its message.  Whatever
    is thrown before the response stream exists is caught by the outer
    [catch].  The console is left out. *)
Definition POST (typeError : string) (body : Awaited value)
  (create : value -> value -> Attempt) : Response :=
  match body with
  | Throwing err => Forwarding.POST (SetupThrows err)
  | Resolves Undefined | Resolves Null =>
      Forwarding.POST (SetupThrows (ErrorObject typeError))
  | Resolves json =>
      let messages := get "messages" json in
      let tools := get "tools" json in
      match validateTools tools with
      | Rejected message => Forwarding.POST (SetupThrows (ErrorObject message))
      | RaisedTypeError => Forwarding.POST (SetupThrows (ErrorObject typeError))
      | Passed => Forwarding.POST (create messages tools)
      end
  end.

End ForwardingRoute.

Module CompletionRoute.

(** [typeof content === "string" ? content : JSON.stringify(content)] *)
Definition textContent (content : value) : value :=
  match content with
  | Str s => Str s
  | v =>
      match JSON_stringify v with
      | Some s => Str s
      | None => Undefined
      end
  end.

Definition inputMessage (role : value) (text : value) : value :=
  Obj [ ("role", role);
        ("content", Arr [ Obj [ ("type", Str "input_text"); ("text", text) ] ]) ].

(** The body of [messages.forEach] in [convertMessagesToInput]. *)
Definition appendMessage (input : list value) (message : object) : list value :=
  let role := obj_get "role" message in
  if is_str role "user" || is_str role "assistant"
  then input ++ [ inputMessage role (textContent (obj_get "content" message)) ]
  else input.

Definition convertMessagesToInput (DEVELOPER_PROMPT : string)
  (messages : list object) : list value :=
  let input := [ inputMessage (Str "system") (Str DEVELOPER_PROMPT) ] in
  fold_left appendMessage messages input.

(** [getMcpServerTools] of this route hands the configuration over as it is. *)
Definition getMcpServerTools : list value :=
  List.map Obj getOriginalMcpConfiguration.

End CompletionRoute.

(* ================================================================== *)
(** * Vocabulary of the statements, and sample inputs *)
(* ================================================================== *)

(** ** Validation *)

(** The two requirements the [forEach] callback knows. *)
Definition env_var_missing (server : McpServerConfig) (envVar : string) : bool :=
  (McpServerType_eqb (type server) docker
   && String.eqb envVar "GITHUB_PERSONAL_ACCESS_TOKEN"
   && negb (opt_truthy (github_token (auth_config server))))
  || (McpServerType_eqb (type server) query_api
      && String.eqb envVar "QUERY_API_KEY"
      && negb (opt_truthy (query_api_key (auth_config server)))).

(** The environment variables the catalogue fills from [auth_config], and
    the value each one stands for; a name the code never fills has none. *)
Definition auth_value (envVar : string) (auth : McpAuthConfig) : value :=
  if String.eqb envVar "GITHUB_PERSONAL_ACCESS_TOKEN" then of_opt (github_token auth)
  else if String.eqb envVar "GITHUB_TOOLSETS" then of_opt (github_toolsets auth)
  else if String.eqb envVar "GITHUB_READ_ONLY" then
    match github_read_only auth with
    | Some b => Str (bool_toString b)
    | None => Undefined
    end
  else if String.eqb envVar "QUERY_API_KEY" then of_opt (query_api_key auth)
  else if String.eqb envVar "SUPABASE_URL" then of_opt (supabase_url auth)
  else if String.eqb envVar "SUPABASE_ANON_KEY" then of_opt (supabase_anon_key auth)
  else if String.eqb envVar "SUPABASE_SERVICE_ROLE_KEY" then
    of_opt (supabase_service_role_key auth)
  else if String.eqb envVar "PIPEDREAM_API_KEY" then of_opt (pipedream_api_key auth)
  else Undefined.

(** The structural defects of a server: a blank name, or the field its
    connection type needs is missing. *)
Definition structural_defect (server : McpServerConfig) : Prop :=
  trim (name server) = ""
  \/ (type server = docker /\ opt_truthy (docker_image server) = false)
  \/ (type server = query_api /\ opt_truthy (server_url server) = false)
  \/ (type server = remote_pipedream
      /\ (opt_truthy (server_url server) = false
          \/ opt_truthy (app_slug server) = false)).

(** Some listed required environment variable has no corresponding
    [auth_config] value. *)
Definition required_env_var_unset (server : McpServerConfig) : Prop :=
  exists envVar, In envVar (required_env_vars server)
                 /\ truthy (auth_value envVar (auth_config server)) = false.

(** A query-API server, complete for its type, that lists the GitHub token
    as required and has none. *)
Definition supabase_needing_github : McpServerConfig :=
  {| id := "supabase";
     name := "Supabase";
     description := "Query and manage Supabase databases with SQL operations";
     type := query_api;
     server_url := Some "supabase-mcp-server";
     docker_image := None;
     app_slug := None;
     enabled := true;
     skip_approval := false;
     allowed_tools := "";
     auth_config :=
       {| github_token := None; github_toolsets := None;
          github_read_only := None; query_api_key := Some "sk-1";
          supabase_url := None; supabase_anon_key := None;
          supabase_service_role_key := None; pipedream_api_key := None;
          custom_headers := None |};
     required_env_vars := ["GITHUB_PERSONAL_ACCESS_TOKEN"; "QUERY_API_KEY"];
     optional_env_vars := [] |}.

(** ** The catalogue as a list *)

(** What the file-search block adds to the list and to the console. *)
Definition fileSearchTools (st : StoreState) : list value :=
  if fileSearchEnabled st then
    if (0 <? List.length (validVectorStoreIds st))%nat
    then [ Obj [ ("type", Str "file_search");
                 ("vector_store_ids", Arr (validVectorStoreIds st)) ] ]
    else []
  else [].

Definition fileSearchLogs (st : StoreState) : list LogEntry :=
  if fileSearchEnabled st then
    if (0 <? List.length (validVectorStoreIds st))%nat
    then [ {| level := Log;
              text := "Added file search tool with vector store IDs:";
              args := [Arr (validVectorStoreIds st)] |} ]
    else [ {| level := Warn;
              text := "File search enabled but no valid vector store IDs found. Skipping file search tool.";
              args := [] |} ]
  else [].

(** The tools that do not come from [mcpServers]. *)
Definition otherTools (toolsList : list ToolSpec) (st : StoreState) : list value :=
  webSearchBlock st [] ++ fileSearchTools st ++ codeInterpreterBlock st []
  ++ functionsBlock toolsList st [] ++ legacyMcpBlock st [].

Definition catalogue (toolsList : list ToolSpec) (st : StoreState) : list value :=
  otherTools toolsList st
  ++ List.map (fun server => Obj (serverTool server))
              (getEnabledServers (mcpServers st)).

(** ** Sample configurations *)

(** The default GitHub server, enabled, with a token and a tool filter. *)
Definition github_official : McpServerConfig :=
  {| id := "github-official";
     name := "GitHub Official";
     description := "Official GitHub MCP server";
     type := docker;
     server_url := None;
     docker_image := Some "ghcr.io/github/github-mcp-server";
     app_slug := None;
     enabled := true;
     skip_approval := false;
     allowed_tools := "search_code, create_issue";
     auth_config :=
       {| github_token := Some "ghp_1"; github_toolsets := Some "";
          github_read_only := Some false; query_api_key := None;
          supabase_url := None; supabase_anon_key := None;
          supabase_service_role_key := None; pipedream_api_key := None;
          custom_headers := None |};
     required_env_vars := ["GITHUB_PERSONAL_ACCESS_TOKEN"];
     optional_env_vars := ["GITHUB_TOOLSETS"; "GITHUB_READ_ONLY"] |}.

(** The default Gmail server, left disabled. *)
Definition gmail : McpServerConfig :=
  {| id := "gmail";
     name := "Gmail";
     description := "Access and manage Gmail emails, labels, and threads";
     type := remote_pipedream;
     server_url := Some "https://remote.mcp.pipedream.net";
     docker_image := None;
     app_slug := Some "gmail";
     enabled := false;
     skip_approval := false;
     allowed_tools := "";
     auth_config :=
       {| github_token := None; github_toolsets := None;
          github_read_only := None; query_api_key := None;
          supabase_url := None; supabase_anon_key := None;
          supabase_service_role_key := None; pipedream_api_key := Some "";
          custom_headers := Some [ ("X-App-Slug", "gmail") ] |};
     required_env_vars := [];
     optional_env_vars := ["PIPEDREAM_API_KEY"] |}.

(** The initial state of the store, with file search switched on and the
    two servers above. *)
Definition example_store (vs : option VectorStore) : StoreState :=
  {| fileSearchEnabled := true;
     webSearchEnabled := false;
     functionsEnabled := true;
     codeInterpreterEnabled := false;
     vectorStore := vs;
     webSearchConfig :=
       {| user_location :=
            Some {| country := Some ""; city := Some ""; region := Some "" |} |};
     mcpEnabled := false;
     mcpConfig :=
       {| McpConfig.server_label := ""; McpConfig.server_url := "";
          McpConfig.allowed_tools := ""; McpConfig.skip_approval := true |};
     mcpServers := [github_official; gmail] |}.

(** An entry of the function registry. *)
Definition get_weather : ToolSpec :=
  {| tool_name := "get_weather";
     tool_description := "Get the weather for a given location";
     tool_parameters :=
       [ ("location", Obj [ ("type", Str "string") ]);
         ("unit", Obj [ ("type", Str "string") ]) ] |}.

(** The store has a vector store whose id is present and not empty. *)
Definition has_vector_store_id (st : StoreState) (i : string) : Prop :=
  exists vs, vectorStore st = Some vs /\ vs_id vs = Some i /\ i <> "".

Definition skipped_warning : LogEntry :=
  {| level := Warn;
     text := "File search enabled but no valid vector store IDs found. Skipping file search tool.";
     args := [] |}.

(** A world whose vector store is [null], and one with an id. *)
Definition world_without_vector_store : World :=
  {| store := example_store None; console := [] |}.

Definition world_with_vector_store : World :=
  {| store := example_store (Some {| vs_id := Some "vs_123"; vs_name := "Test Store" |});
     console := [ skipped_warning ] |}.

(** ** Sample events and streams *)

(** The event sent when a text part is complete. *)
Definition text_done : Event :=
  {| ev_type := "response.output_text.done";
     ev_rest := [ ("item_id", Str "msg_1"); ("output_index", Num 0);
                  ("content_index", Num 0); ("text", Str "Hello") ] |}.


Definition item_added : Event :=
  {| ev_type := "response.output_item.added";
     ev_rest := [ ("output_index", Num 0);
                  ("item", Obj [ ("id", Str "msg_1"); ("type", Str "message") ]) ] |}.

(** A stream that fails after its first event, and one that ends well. *)
Definition broken_stream : Upstream :=
  {| events := [item_added]; ending := Throws (ErrorObject "socket hang up") |}.

Definition complete_stream : Upstream :=
  {| events := [item_added; text_done]; ending := EndOfStream |}.



(** ** Failure events *)



(** ** A sample approval request *)

Definition list_repos_item : McpApprovalRequestItem :=
  {| item_id := "call_1"; item_name := "list_repos";
     item_server_label := "GitHub Official" |}.

Definition list_repos_request : ApprovalRequest :=
  {| call_id := "call_1";
     request_server_label := "GitHub Official";
     request_tool_name := "list_repos";
     request_arguments := Obj [];
     decision := pending |}.

(** A docker server with a blank name, no image and no token. *)
Definition incomplete_docker : McpServerConfig :=
  {| id := "custom";
     name := "   ";
     description := "";
     type := docker;
     server_url := None;
     docker_image := None;
     app_slug := None;
     enabled := true;
     skip_approval := true;
     allowed_tools := " , ";
     auth_config :=
       {| github_token := Some ""; github_toolsets := None;
          github_read_only := None; query_api_key := None;
          supabase_url := None; supabase_anon_key := None;
          supabase_service_role_key := None; pipedream_api_key := None;
          custom_headers := None |};
     required_env_vars := ["QUERY_API_KEY"; "GITHUB_PERSONAL_ACCESS_TOKEN"];
     optional_env_vars := [] |}.

(** ** More vocabulary *)

(** A function applied to the first, or to the last, item of a list. *)
Definition map_head {A : Type} (f : A -> A) (l : list A) : list A :=
  match l with
  | [] => []
  | a :: rest => f a :: rest
  end.

Fixpoint map_last {A : Type} (f : A -> A) (l : list A) : list A :=
  match l with
  | [] => []
  | [a] => [f a]
  | a :: rest => a :: map_last f rest
  end.

(** The function both store updates map over [mcpServers]. *)
Definition on_id (serverId : string) (f : McpServerConfig -> McpServerConfig)
  (server : McpServerConfig) : McpServerConfig :=
  if String.eqb (id server) serverId then f server else server.

(** The errors of [validateServerConfig] that do not depend on the
    credentials. *)
Definition structural_errors (server : McpServerConfig) : list string :=
  let errs :=
    push_if (negb (str_truthy (trim (name server))))
            "Server name is required" [] in
  let errs :=
    push_if (McpServerType_eqb (type server) docker
             && negb (opt_truthy (docker_image server)))
            "Docker image is required for Docker-based servers" errs in
  let errs :=
    push_if (McpServerType_eqb (type server) query_api
             && negb (opt_truthy (server_url server)))
            "Server URL is required for query API servers" errs in
  match type server with
  | remote_pipedream =>
      let errs :=
        push_if (negb (opt_truthy (server_url server)))
                "Server URL is required for Pipedream servers" errs in
      push_if (negb (opt_truthy (app_slug server)))
              "App slug is required for Pipedream servers" errs
  | _ => errs
  end.

(** A server with other credentials. *)
Definition with_auth (auth : McpAuthConfig) (server : McpServerConfig)
  : McpServerConfig :=
  {| id := id server;
     name := name server;
     description := description server;
     type := type server;
     server_url := server_url server;
     docker_image := docker_image server;
     app_slug := app_slug server;
     enabled := enabled server;
     skip_approval := skip_approval server;
     allowed_tools := allowed_tools server;
     auth_config := auth;
     required_env_vars := required_env_vars server;
     optional_env_vars := optional_env_vars server |}.

(** A descriptor of type "mcp". *)
Definition is_mcp (t : value) : bool := is_str (get "type" t) "mcp".

(** The names [getTools] puts in a descriptor's filter for an
    [allowed_tools] string. *)
Definition filter_names (allowed : string) : list string :=
  List.filter str_truthy (List.map trim (split "," allowed)).

(** A value that is a string, and not the empty one. *)
Definition nonempty_string (v : value) : Prop :=
  exists s, v = Str s /\ s <> "".

(** The names of the properties of an object. *)
Definition keys (o : object) : list string := List.map fst o.

(** An entry of the MCP configuration that the turn route considers: of
    type "mcp", with a truthy [allowed_tools]. *)
Definition mcp_candidate (config : object) : bool :=
  is_str (obj_get "type" config) "mcp" && truthy (obj_get "allowed_tools" config).

(** A value whose [length] is 0: the empty array, the empty string, or an
    object whose own [length] is 0. *)
Definition length_is_zero (v : value) : bool :=
  match v with
  | Arr [] => true
  | Str EmptyString => true
  | Obj props =>
      match obj_lookup "length" props with
      | Some (Num Z0) => true
      | _ => false
      end
  | _ => false
  end.

(** An entry the turn route sends: of type "mcp", with a server URL, a
    server label, a [require_approval], and an [allowed_tools] that is
    truthy and not of length 0. *)
Definition mcp_complete (config : object) : bool :=
  is_str (obj_get "type" config) "mcp"
  && truthy (obj_get "server_url" config)
  && truthy (obj_get "server_label" config)
  && truthy (obj_get "allowed_tools" config)
  && negb (length_is_zero (obj_get "allowed_tools" config))
  && truthy (obj_get "require_approval" config).

(** The console entries one entry of the configuration gives the turn
    route: one [console.log] when it is sent, two [console.error] when it
    is a candidate that is not, none otherwise. *)
Definition turn_route_levels (config : object) : list LogLevel :=
  if mcp_complete config then [Log]
  else if mcp_candidate config then [Error; Error]
  else [].

(** The five properties the turn route copies from an entry. *)
Definition mcp_tool_of (config : object) : value :=
  Obj [ ("type", Str "mcp");
        ("server_label", obj_get "server_label" config);
        ("server_url", obj_get "server_url" config);
        ("allowed_tools", obj_get "allowed_tools" config);
        ("require_approval", obj_get "require_approval" config) ].



(** The roles [convertMessagesToInput] of the turn route writes out. *)
Definition known_role (message : object) : bool :=
  is_str (obj_get "role" message) "system"
  || is_str (obj_get "role" message) "user"
  || is_str (obj_get "role" message) "assistant".

(** The roles [convertMessagesToInput] of the completion route keeps. *)
Definition user_or_assistant (message : object) : bool :=
  is_str (obj_get "role" message) "user"
  || is_str (obj_get "role" message) "assistant".

(** A tool the check of the forwarding route lets through: it is not
    [null] or [undefined], and if it is a file-search tool with a truthy
    [vector_store_ids], that is an array without [null], [undefined] or
    empty ids. *)
Definition tool_acceptable (tool : value) : Prop :=
  tool <> Undefined /\ tool <> Null
  /\ (is_str (get "type" tool) "file_search" = true ->
      truthy (get "vector_store_ids" tool) = true ->
      exists ids, get "vector_store_ids" tool = Arr ids
                  /\ List.filter ForwardingRoute.invalidId ids = []).

(** A file-search tool whose [vector_store_ids] is an array that holds a
    [null], [undefined] or empty id. *)
Definition has_invalid_id (tool : value) : Prop :=
  exists props ids i,
    tool = Obj props
    /\ obj_get "type" props = Str "file_search"
    /\ obj_get "vector_store_ids" props = Arr ids
    /\ In i ids
    /\ (i = Undefined \/ i = Null \/ i = Str "").

(** The message of the error the forwarding route throws for the tool at
    [index]. *)
Definition invalid_ids_message (index : nat) : string :=
  "Invalid vector store IDs in tool[" +:+ string_of_Z (Z.of_nat index)
  +:+ "]: expected strings, got null/undefined/empty values".

(** A text without line feed and carriage return. *)
Fixpoint one_line (s : string) : bool :=
  match s with
  | EmptyString => true
  | String c rest =>
      negb (nat_of_ascii c =? 10)%nat && negb (nat_of_ascii c =? 13)%nat
      && one_line rest
  end.

(** The tools panel and a descriptor agree on a filter: [sent] is the
    [allowed_tools] of the descriptor, [allowed] the configured string. *)
Definition panel_agrees (sent : value) (allowed : string) : Prop :=
  let shown := McpToolsList.getToolsInfo allowed in
  (sent = Undefined /\ shown = ["All tools"] /\ trim allowed = "")
  \/ (sent = Arr [] /\ shown = ["All tools"] /\ trim allowed <> "")
  \/ (shown <> [] /\ sent = Arr (List.map Str shown)
      /\ forall n, In n shown -> n <> "" /\ trim n = n).

(* ================================================================== *)
(** * The embedding on sample inputs *)
(* ================================================================== *)

Example trim_sample : trim "  search code  " = "search code".
Proof. reflexivity. Qed.

Example split_sample : split "," "a,,b," = ["a"; ""; "b"; ""].
Proof. reflexivity. Qed.

Example tool_names_sample :
  tool_names " search_code , ,create_issue," = Arr [Str "search_code"; Str "create_issue"].
Proof. reflexivity. Qed.

Example validate_incomplete_docker :
  validateServerConfig incomplete_docker
  = {| valid := false;
       errors := [ "Server name is required";
                   "Docker image is required for Docker-based servers";
                   "GITHUB_PERSONAL_ACCESS_TOKEN is required for GitHub server" ] |}.
Proof. reflexivity. Qed.

Example validate_github_official :
  validateServerConfig github_official = {| valid := true; errors := [] |}.
Proof. reflexivity. Qed.

Example serverTool_gmail :
  serverTool gmail
  = [ ("type", Str "mcp"); ("server_label", Str "Gmail");
      ("server_url", Str "https://remote.mcp.pipedream.net");
      ("headers", Obj [ ("X-App-Slug", Str "gmail") ]) ].
Proof. reflexivity. Qed.

Example serverTool_incomplete_docker :
  serverTool incomplete_docker
  = [ ("type", Str "mcp"); ("server_label", Str "   ");
      ("docker_image", Undefined); ("require_approval", Str "never");
      ("allowed_tools", Arr []) ].
Proof. reflexivity. Qed.

Example getTools_sample :
  fst (getTools [get_weather] world_with_vector_store)
  = [ Obj [ ("type", Str "file_search");
            ("vector_store_ids", Arr [Str "vs_123"]) ];
      functionTool get_weather;
      Obj [ ("type", Str "mcp"); ("server_label", Str "GitHub Official");
            ("docker_image", Str "ghcr.io/github/github-mcp-server");
            ("env", Obj [ ("GITHUB_PERSONAL_ACCESS_TOKEN", Str "ghp_1");
                          ("GITHUB_READ_ONLY", Str "false") ]);
            ("allowed_tools", Arr [Str "search_code"; Str "create_issue"]) ] ].
Proof. reflexivity. Qed.

Example toggle_sample :
  List.map enabled (mcpServers (toggleMcpServer "gmail" (example_store None)))
  = [true; true].
Proof. reflexivity. Qed.

Example stringify_sample :
  JSON_stringify (Obj [ ("a", Num (-1)); ("b", Undefined);
                        ("c", Arr [Undefined; Bool true; Null]) ])
  = Some ("{" +:+ quote "a" +:+ ":-1," +:+ quote "c" +:+ ":[null,true,null]}").
Proof. reflexivity. Qed.

Example translate_completed_sample :
  Translating.translate 0 {| ev_type := "response.completed"; ev_rest := [] |}
  = sse (Str "response.completed") (Obj [ ("usage", Obj []) ]).
Proof. reflexivity. Qed.

Example translating_broken_stream :
  Translating.POST (fun _ => 0%Z) (Opened broken_stream)
  = EventStream 200
      [ sse (Str "response.output_item.added") (event_value item_added);
        sse (Str "error")
            (Obj [ ("error", Str "Streaming failed");
                   ("details", Str "socket hang up") ]) ]
      Closed.
Proof. reflexivity. Qed.

Example forwarding_broken_stream :
  Forwarding.POST (Opened broken_stream)
  = EventStream 200
      [ sse (Str "response.output_item.added") (event_value item_added) ]
      (Errored (ErrorObject "socket hang up")).
Proof. reflexivity. Qed.

Example clicks_sample :
  clicks list_repos_item [false; true; true] mounted
  = ({| disabled := true |}, [onRespond false "call_1"]).
Proof. reflexivity. Qed.

(* ================================================================== *)
(** * Properties of the server configuration *)
(* ================================================================== *)

Section Validation.

Lemma push_if_nonempty c msg errs :
  push_if c msg errs <> [] <-> c = true \/ errs <> [].
Proof.
  unfold push_if. destruct c.
  - split; [intros _; now left | intros _ H; now apply app_eq_nil in H as [_ ?]].
  - split; [intros H; now right | intros [H | H]; [discriminate | exact H]].
Qed.

Lemma check_env_var_nonempty server errs envVar :
  check_env_var server errs envVar <> []
  <-> env_var_missing server envVar = true \/ errs <> [].
Proof.
  unfold check_env_var, env_var_missing.
  rewrite !push_if_nonempty, orb_true_iff. tauto.
Qed.

Lemma fold_check_env_var_nonempty server vars : forall errs,
  fold_left (check_env_var server) vars errs <> []
  <-> (exists envVar, In envVar vars /\ env_var_missing server envVar = true)
      \/ errs <> [].
Proof.
  induction vars as [|v vars IH]; intros errs; simpl.
  - split; [now right | intros [[? [[] _]] | H]; exact H].
  - rewrite IH, check_env_var_nonempty. split.
    + intros [[x [Hin Hx]] | [Hv | He]].
      * left. exists x. auto.
      * left. exists v. auto.
      * now right.
    + intros [[x [[<- | Hin] Hx]] | He].
      * right. now left.
      * left. exists x. auto.
      * right. now right.
Qed.

Lemma McpServerType_eqb_eq a b : McpServerType_eqb a b = true <-> a = b.
Proof. destruct a, b; simpl; split; congruence. Qed.

Lemma env_var_missing_iff server envVar :
  env_var_missing server envVar = true
  <-> (type server = docker /\ envVar = "GITHUB_PERSONAL_ACCESS_TOKEN"
       /\ opt_truthy (github_token (auth_config server)) = false)
      \/ (type server = query_api /\ envVar = "QUERY_API_KEY"
          /\ opt_truthy (query_api_key (auth_config server)) = false).
Proof.
  unfold env_var_missing.
  rewrite orb_true_iff, !andb_true_iff, !McpServerType_eqb_eq,
    !String.eqb_eq, !negb_true_iff. tauto.
Qed.

Lemma str_truthy_false s : str_truthy s = false <-> s = "".
Proof.
  unfold str_truthy. rewrite negb_false_iff. apply String.eqb_eq.
Qed.

End Validation.

(** C8, as stated, fails: the errors list is empty although a listed
    required environment variable (the GitHub token, on a server that is not
    a docker one) has no [auth_config] value. *)
Lemma validateServerConfig_required_env_counterexample :
  ~ (errors (validateServerConfig supabase_needing_github) <> []
     <-> structural_defect supabase_needing_github
         \/ required_env_var_unset supabase_needing_github).
Proof.
  intros [_ H]. apply H; [|reflexivity].
  right. exists "GITHUB_PERSONAL_ACCESS_TOKEN". split; [now left | reflexivity].
Qed.

(** C8 (amended): [validateServerConfig] returns [valid = true] exactly when
    its errors list is empty, and the errors list is non-empty precisely
    when the name is blank after trimming, or the field the connection type
    needs is missing, or the server is a docker one that lists
    GITHUB_PERSONAL_ACCESS_TOKEN as required and has no [github_token], or a
    query-API one that lists QUERY_API_KEY as required and has no
    [query_api_key].  The function is total: the defects are returned, none
    is thrown. *)
Theorem validateServerConfig_errors_iff (server : McpServerConfig) :
  (valid (validateServerConfig server) = true
   <-> errors (validateServerConfig server) = [])
  /\ (errors (validateServerConfig server) <> []
      <-> structural_defect server
          \/ (type server = docker
              /\ In "GITHUB_PERSONAL_ACCESS_TOKEN" (required_env_vars server)
              /\ opt_truthy (github_token (auth_config server)) = false)
          \/ (type server = query_api
              /\ In "QUERY_API_KEY" (required_env_vars server)
              /\ opt_truthy (query_api_key (auth_config server)) = false)).
Proof.
  split.
  - unfold validateServerConfig; simpl.
    rewrite Nat.eqb_eq. split; [apply nil_length_inv | intros ->; reflexivity].
  - unfold validateServerConfig, structural_defect; cbn [errors].
    rewrite fold_check_env_var_nonempty.
    assert (Hstruct :
      match type server with
      | remote_pipedream =>
          push_if (negb (opt_truthy (app_slug server)))
            "App slug is required for Pipedream servers"
            (push_if (negb (opt_truthy (server_url server)))
               "Server URL is required for Pipedream servers"
               (push_if (McpServerType_eqb (type server) query_api
                         && negb (opt_truthy (server_url server)))
                  "Server URL is required for query API servers"
                  (push_if (McpServerType_eqb (type server) docker
                            && negb (opt_truthy (docker_image server)))
                     "Docker image is required for Docker-based servers"
                     (push_if (negb (str_truthy (trim (name server))))
                        "Server name is required" []))))
      | _ =>
          push_if (McpServerType_eqb (type server) query_api
                   && negb (opt_truthy (server_url server)))
            "Server URL is required for query API servers"
            (push_if (McpServerType_eqb (type server) docker
                      && negb (opt_truthy (docker_image server)))
               "Docker image is required for Docker-based servers"
               (push_if (negb (str_truthy (trim (name server))))
                  "Server name is required" []))
      end <> []
      <-> trim (name server) = ""
          \/ (type server = docker /\ opt_truthy (docker_image server) = false)
          \/ (type server = query_api /\ opt_truthy (server_url server) = false)
          \/ (type server = remote_pipedream
              /\ (opt_truthy (server_url server) = false
                  \/ opt_truthy (app_slug server) = false))).
    { destruct (type server) eqn:Ht;
        rewrite ?push_if_nonempty, ?andb_true_iff, ?negb_true_iff,
          ?McpServerType_eqb_eq, ?str_truthy_false;
        intuition congruence. }
    rewrite Hstruct. clear Hstruct.
    split.
    + intros [[x [Hin Hx]] | H]; [|now left].
      apply env_var_missing_iff in Hx as [(Ht & -> & Hg) | (Ht & -> & Hq)]; auto 6.
    + intros [H | [(Ht & Hin & Hg) | (Ht & Hin & Hq)]]; [now right | |].
      * left. eexists. split; [exact Hin|]. apply env_var_missing_iff. auto.
      * left. eexists. split; [exact Hin|]. apply env_var_missing_iff. auto.
Qed.

(* ================================================================== *)
(** * Properties of the store updates *)
(* ================================================================== *)

Section StoreUpdates.

Lemma flip_enabled_involutive server : flip_enabled (flip_enabled server) = server.
Proof. destruct server; unfold flip_enabled; simpl. now rewrite negb_involutive. Qed.

Lemma flip_enabled_id server : id (flip_enabled server) = id server.
Proof. reflexivity. Qed.

Lemma setMcpServers_servers servers state :
  mcpServers (setMcpServers servers state) = servers.
Proof. reflexivity. Qed.

Lemma setMcpServers_same state : setMcpServers (mcpServers state) state = state.
Proof. now destruct state. Qed.

Lemma setMcpServers_twice l1 l2 state :
  setMcpServers l1 (setMcpServers l2 state) = setMcpServers l1 state.
Proof. reflexivity. Qed.

(** Mapping a function that leaves the id alone, conditionally on the id,
    twice. *)
Lemma toggle_map_twice serverId (servers : list McpServerConfig) :
  List.map (fun server =>
              if String.eqb (id server) serverId then flip_enabled server else server)
    (List.map (fun server =>
                 if String.eqb (id server) serverId then flip_enabled server else server)
       servers) = servers.
Proof.
  induction servers as [|s servers IH]; simpl; [reflexivity|].
  rewrite IH. f_equal.
  destruct (String.eqb (id s) serverId) eqn:E.
  - rewrite flip_enabled_id, E. apply flip_enabled_involutive.
  - now rewrite E.
Qed.

End StoreUpdates.

(** C10: [updateMcpServer] and [toggleMcpServer] keep the length of
    [mcpServers]; the entry at each position comes from the entry that was
    at that position (merged with the updates, or with [enabled] negated,
    when its id is [serverId], and itself otherwise), so the order is kept
    and every entry with another id is unchanged; [toggleMcpServer] keeps
    the sequence of ids, and applying it twice restores the state. *)
Theorem update_toggle_frame (serverId : string)
  (updates : Partial.McpServerConfig) (state : StoreState) :
  let updated := mcpServers (updateMcpServer serverId updates state) in
  let toggled := mcpServers (toggleMcpServer serverId state) in
  List.length updated = List.length (mcpServers state)
  /\ List.length toggled = List.length (mcpServers state)
  /\ (forall i,
        updated !! i
        = (fun server => if String.eqb (id server) serverId
                         then merge server updates else server)
            <$> mcpServers state !! i)
  /\ (forall i,
        toggled !! i
        = (fun server => if String.eqb (id server) serverId
                         then flip_enabled server else server)
            <$> mcpServers state !! i)
  /\ (forall i server,
        mcpServers state !! i = Some server -> id server <> serverId ->
        updated !! i = Some server /\ toggled !! i = Some server)
  /\ List.map id toggled = List.map id (mcpServers state)
  /\ toggleMcpServer serverId (toggleMcpServer serverId state) = state.
Proof.
  unfold updateMcpServer, toggleMcpServer.
  cbn zeta. rewrite !setMcpServers_servers.
  repeat split.
  - apply List.length_map.
  - apply List.length_map.
  - intros i. apply list_lookup_fmap.
  - intros i. apply list_lookup_fmap.
  - change (List.map ?f ?l) with (f <$> l). rewrite list_lookup_fmap, H. simpl.
    apply String.eqb_neq in H0. now rewrite H0.
  - change (List.map ?f ?l) with (f <$> l). rewrite list_lookup_fmap, H. simpl.
    apply String.eqb_neq in H0. now rewrite H0.
  - rewrite List.map_map. apply List.map_ext.
    intros s. now destruct (String.eqb (id s) serverId).
  - rewrite setMcpServers_twice, toggle_map_twice. apply setMcpServers_same.
Qed.

(* ================================================================== *)
(** * Properties of the tool catalogue *)
(* ================================================================== *)

Section Objects.

Lemma obj_lookup_set k k' v o :
  obj_lookup k (obj_set k' v o)
  = if String.eqb k k' then Some v else obj_lookup k o.
Proof.
  induction o as [|[k0 v0] o IH]; simpl.
  - now destruct (String.eqb k k').
  - destruct (String.eqb k' k0) eqn:E0; simpl.
    + apply String.eqb_eq in E0 as ->.
      now destruct (String.eqb k k0).
    + destruct (String.eqb k k0) eqn:E1; [|exact IH].
      apply String.eqb_eq in E1 as ->.
      destruct (String.eqb k0 k') eqn:E2; [|reflexivity].
      apply String.eqb_eq in E2 as ->. now rewrite String.eqb_refl in E0.
Qed.

Lemma obj_lookup_app k o1 o2 :
  obj_lookup k (o1 ++ o2)
  = match obj_lookup k o1 with
    | Some v => Some v
    | None => obj_lookup k o2
    end.
Proof.
  induction o1 as [|[k0 v0] o1 IH]; simpl; [reflexivity|].
  now destruct (String.eqb k k0).
Qed.

(** After a spread, a key reads the last value the source gives it, and
    the old value when the source has none. *)
Lemma obj_lookup_spread k src : forall dst,
  obj_lookup k (obj_spread src dst)
  = match obj_lookup k (rev src) with
    | Some v => Some v
    | None => obj_lookup k dst
    end.
Proof.
  unfold obj_spread.
  induction src as [|[k0 v0] src IH]; intros dst; simpl; [reflexivity|].
  rewrite IH, obj_lookup_app, obj_lookup_set. simpl.
  destruct (obj_lookup k (rev src)); [reflexivity|].
  now destruct (String.eqb k k0).
Qed.

End Objects.

Section Catalogue.

Variable toolsList : list ToolSpec.

Lemma bind_run {A B : Type} (f : A -> M B) (m : M A) (w : World) :
  (m ≫= f) w = let (a, w') := m w in f a w'.
Proof. reflexivity. Qed.

Lemma fileSearchBlock_run st tools w :
  fileSearchBlock st tools w
  = (tools ++ fileSearchTools st,
     {| store := store w; console := console w ++ fileSearchLogs st |}).
Proof.
  unfold fileSearchBlock, fileSearchTools, fileSearchLogs.
  destruct (fileSearchEnabled st).
  - destruct (0 <? List.length (validVectorStoreIds st))%nat; cbn.
    + reflexivity.
    + now rewrite app_nil_r.
  - cbn. rewrite !app_nil_r. now destruct w.
Qed.

Lemma webSearchBlock_app st tools :
  webSearchBlock st tools = tools ++ webSearchBlock st [].
Proof.
  unfold webSearchBlock. destruct (webSearchEnabled st); simpl; [reflexivity|].
  now rewrite app_nil_r.
Qed.

Lemma codeInterpreterBlock_app st tools :
  codeInterpreterBlock st tools = tools ++ codeInterpreterBlock st [].
Proof.
  unfold codeInterpreterBlock. destruct (codeInterpreterEnabled st); simpl;
    [reflexivity | now rewrite app_nil_r].
Qed.

Lemma functionsBlock_app st tools :
  functionsBlock toolsList st tools = tools ++ functionsBlock toolsList st [].
Proof.
  unfold functionsBlock. destruct (functionsEnabled st); simpl;
    [reflexivity | now rewrite app_nil_r].
Qed.

Lemma legacyMcpBlock_app st tools :
  legacyMcpBlock st tools = tools ++ legacyMcpBlock st [].
Proof.
  unfold legacyMcpBlock.
  destruct (mcpEnabled st && str_truthy (McpConfig.server_url (mcpConfig st))
            && str_truthy (McpConfig.server_label (mcpConfig st))); simpl;
    [reflexivity | now rewrite app_nil_r].
Qed.

Lemma push_each {A B : Type} (f : A -> B) (l : list A) : forall acc,
  fold_left (fun acc a => acc ++ [f a]) l acc = acc ++ List.map f l.
Proof.
  induction l as [|a l IH]; intros acc; simpl.
  - now rewrite app_nil_r.
  - now rewrite IH, <- app_assoc.
Qed.

Lemma serversBlock_app st tools :
  serversBlock st tools
  = tools ++ List.map (fun server => Obj (serverTool server))
                      (getEnabledServers (mcpServers st)).
Proof. unfold serversBlock. apply push_each. Qed.

(** One run of [getTools]: the list it returns, and the world it leaves. *)
Lemma getTools_run w :
  getTools toolsList w
  = (catalogue toolsList (store w),
     {| store := store w;
        console :=
          console w ++ fileSearchLogs (store w)
          ++ [ {| level := Log; text := "Generated tools:";
                  args := [Arr (catalogue toolsList (store w))] |};
               {| level := Log; text := "Total tools count:";
                  args := [Num (Z.of_nat (List.length (catalogue toolsList (store w))))] |} ] |}).
Proof.
  unfold getTools, getState.
  rewrite bind_run, bind_run, fileSearchBlock_run.
  assert (Hcat :
    serversBlock (store w)
      (legacyMcpBlock (store w)
         (functionsBlock toolsList (store w)
            (codeInterpreterBlock (store w)
               (webSearchBlock (store w) [] ++ fileSearchTools (store w)))))
    = catalogue toolsList (store w)).
  { rewrite serversBlock_app, legacyMcpBlock_app, functionsBlock_app,
      codeInterpreterBlock_app.
    unfold catalogue, otherTools. now rewrite <- !app_assoc. }
  rewrite Hcat, bind_run. unfold console_log at 1, console_write at 1.
  rewrite bind_run. unfold console_log, console_write, mret, M_ret.
  cbn [store console]. now rewrite <- !app_assoc.
Qed.

Lemma otherTools_setMcpServers servers st :
  otherTools toolsList (setMcpServers servers st) = otherTools toolsList st.
Proof. reflexivity. Qed.

End Catalogue.

Section ServerDescriptors.

Lemma serverTool_type server : obj_get "type" (serverTool server) = Str "mcp".
Proof.
  unfold serverTool, commonSettings.
  destruct (type server), (skip_approval server),
    (str_truthy (trim (allowed_tools server))),
    (opt_truthy (github_token (auth_config server))),
    (opt_truthy (query_api_key (auth_config server))); reflexivity.
Qed.

Lemma docker_env_token auth :
  obj_get "GITHUB_PERSONAL_ACCESS_TOKEN" (docker_env auth)
  = of_opt (github_token auth).
Proof.
  unfold docker_env, spread_if.
  destruct (opt_truthy (github_toolsets auth)), (github_read_only auth);
    reflexivity.
Qed.

Lemma pipedream_headers_slug server :
  obj_get "X-App-Slug" (pipedream_headers server)
  = match obj_lookup "X-App-Slug" (rev (custom_headers_props (auth_config server))) with
    | Some v => v
    | None => of_opt (app_slug server)
    end.
Proof.
  unfold pipedream_headers, obj_get. rewrite obj_lookup_spread.
  destruct (obj_lookup "X-App-Slug" (rev (custom_headers_props (auth_config server))));
    [reflexivity|].
  destruct (pipedream_api_key (auth_config server)) as [key|]; [|reflexivity].
  unfold spread_if. destruct (str_truthy key); reflexivity.
Qed.

End ServerDescriptors.

(** C4: the list [getTools] returns is the list it returns when
    [mcpServers] is empty, followed by one descriptor per enabled server, in
    order; a disabled server adds nothing.  The descriptor of a server has
    type "mcp" and the server's name as [server_label]; a docker server
    carries [docker_image], and an [env] map holding the token exactly when
    a github token is set; a query-API server carries [server_url]; a
    Pipedream server carries [server_url] and a [headers] map whose
    X-App-Slug is the server's app slug unless the custom headers give
    another.  The connection fields of the other types are not set. *)
Theorem getTools_server_descriptors (toolsList : list ToolSpec) (w : World) :
  fst (getTools toolsList w)
  = fst (getTools toolsList
           {| store := setMcpServers [] (store w); console := console w |})
    ++ List.map (fun server => Obj (serverTool server))
                (List.filter enabled (mcpServers (store w)))
  /\ (forall before server after,
        mcpServers (store w) = before ++ server :: after ->
        enabled server = false ->
        fst (getTools toolsList w)
        = fst (getTools toolsList
                 {| store := setMcpServers (before ++ after) (store w);
                    console := console w |}))
  /\ (forall server : McpServerConfig,
        let d := serverTool server in
        obj_get "type" d = Str "mcp"
        /\ obj_get "server_label" d = Str (name server)
        /\ match type server with
           | docker =>
               obj_get "docker_image" d = of_opt (docker_image server)
               /\ obj_get "env" d
                  = (if opt_truthy (github_token (auth_config server))
                     then Obj (docker_env (auth_config server)) else Undefined)
               /\ obj_get "GITHUB_PERSONAL_ACCESS_TOKEN"
                    (docker_env (auth_config server))
                  = of_opt (github_token (auth_config server))
               /\ obj_get "server_url" d = Undefined
               /\ obj_get "headers" d = Undefined
           | query_api =>
               obj_get "server_url" d = of_opt (server_url server)
               /\ obj_get "docker_image" d = Undefined
               /\ obj_get "headers" d = Undefined
           | remote_pipedream =>
               obj_get "server_url" d = of_opt (server_url server)
               /\ obj_get "headers" d = Obj (pipedream_headers server)
               /\ obj_get "X-App-Slug" (pipedream_headers server)
                  = match obj_lookup "X-App-Slug"
                            (rev (custom_headers_props (auth_config server))) with
                    | Some v => v
                    | None => of_opt (app_slug server)
                    end
               /\ obj_get "docker_image" d = Undefined
               /\ obj_get "env" d = Undefined
           end).
Proof.
  rewrite !getTools_run. cbn [fst store].
  split; [|split].
  - unfold catalogue. rewrite otherTools_setMcpServers.
    cbn [mcpServers setMcpServers getEnabledServers List.filter List.map].
    now rewrite app_nil_r.
  - intros before server after Hs He.
    rewrite getTools_run. cbn [fst store].
    unfold catalogue. rewrite otherTools_setMcpServers. f_equal.
    rewrite Hs. cbn [mcpServers setMcpServers]. unfold getEnabledServers.
    rewrite !List.filter_app. cbn [List.filter]. now rewrite He.
  - intros server. split; [apply serverTool_type|].
    split.
    + unfold serverTool, commonSettings.
      destruct (type server), (skip_approval server),
        (str_truthy (trim (allowed_tools server))),
        (opt_truthy (github_token (auth_config server))),
        (opt_truthy (query_api_key (auth_config server))); reflexivity.
    + pose proof (docker_env_token (auth_config server)) as Htok.
      pose proof (pipedream_headers_slug server) as Hslug.
      unfold serverTool, commonSettings.
      destruct (type server), (skip_approval server),
        (str_truthy (trim (allowed_tools server))),
        (opt_truthy (github_token (auth_config server))),
        (opt_truthy (query_api_key (auth_config server)));
        repeat split; solve [reflexivity | exact Htok | exact Hslug].
Qed.

Section CommonSettings.

Lemma commonSettings_allowed skip allowed o :
  obj_lookup "allowed_tools" o = None ->
  obj_get "allowed_tools" (commonSettings skip allowed o)
  = if str_truthy (trim allowed) then tool_names allowed else Undefined.
Proof.
  intros Ho. unfold commonSettings, obj_get.
  destruct (str_truthy (trim allowed)), skip;
    rewrite ?obj_lookup_set; cbn; rewrite ?Ho; reflexivity.
Qed.

Lemma commonSettings_approval skip allowed o :
  obj_lookup "require_approval" o = None ->
  obj_get "require_approval" (commonSettings skip allowed o)
  = if skip then Str "never" else Undefined.
Proof.
  intros Ho. unfold commonSettings, obj_get.
  destruct (str_truthy (trim allowed)), skip;
    rewrite ?obj_lookup_set; cbn; rewrite ?obj_lookup_set; cbn;
    rewrite ?Ho; reflexivity.
Qed.

(** The names of a filter: the pieces between commas, trimmed, that are not
    empty. *)
Lemma tool_names_spec s :
  exists names,
    tool_names s = Arr (List.map Str names)
    /\ forall n, In n names
                 <-> n <> "" /\ exists piece, In piece (split "," s) /\ trim piece = n.
Proof.
  eexists. split; [reflexivity|]. intros n.
  rewrite List.filter_In, List.in_map_iff. unfold str_truthy.
  rewrite negb_true_iff, String.eqb_neq.
  split.
  - intros [(piece & Ht & Hin) Hne]. eauto.
  - intros [Hne (piece & Hin & Ht)]. eauto.
Qed.

End CommonSettings.

(** C5, as stated, fails: the filter of the descriptor is not the
    configured string but the list of the names in it. *)
Lemma allowed_tools_not_verbatim :
  enabled github_official = true
  /\ allowed_tools github_official = "search_code, create_issue"
  /\ obj_get "allowed_tools" (serverTool github_official)
     = Arr [Str "search_code"; Str "create_issue"]
  /\ obj_get "allowed_tools" (serverTool github_official)
     <> Str (allowed_tools github_official).
Proof. repeat split; try reflexivity. discriminate. Qed.

(** C5 (amended): in the descriptor of a server, and in that of the legacy
    single server, [allowed_tools] is the list of the comma-separated names
    of the configured string, each trimmed, the empty ones dropped, and is
    not set when the configured string is blank; [require_approval] is
    "never" when [skip_approval] is set and is not set otherwise. *)
Theorem descriptor_common_settings :
  (forall server : McpServerConfig,
     obj_get "allowed_tools" (serverTool server)
     = (if str_truthy (trim (allowed_tools server))
        then tool_names (allowed_tools server) else Undefined)
     /\ obj_get "require_approval" (serverTool server)
        = (if skip_approval server then Str "never" else Undefined))
  /\ (forall st : StoreState,
        legacyMcpBlock st [] = []
        \/ exists d,
            legacyMcpBlock st [] = [Obj d]
            /\ obj_get "allowed_tools" d
               = (if str_truthy (trim (McpConfig.allowed_tools (mcpConfig st)))
                  then tool_names (McpConfig.allowed_tools (mcpConfig st))
                  else Undefined)
            /\ obj_get "require_approval" d
               = (if McpConfig.skip_approval (mcpConfig st)
                  then Str "never" else Undefined))
  /\ (forall s : string,
        exists names,
          tool_names s = Arr (List.map Str names)
          /\ forall n, In n names
                       <-> n <> ""
                           /\ exists piece, In piece (split "," s) /\ trim piece = n).
Proof.
  split; [|split].
  - intros server. unfold serverTool.
    split; [apply commonSettings_allowed | apply commonSettings_approval];
      destruct (type server),
        (opt_truthy (github_token (auth_config server))),
        (opt_truthy (query_api_key (auth_config server))); reflexivity.
  - intros st. unfold legacyMcpBlock.
    destruct (mcpEnabled st && str_truthy (McpConfig.server_url (mcpConfig st))
              && str_truthy (McpConfig.server_label (mcpConfig st)));
      [right | now left].
    eexists. split; [reflexivity|].
    split; [apply commonSettings_allowed | apply commonSettings_approval];
      reflexivity.
  - apply tool_names_spec.
Qed.

Section FileSearch.

Variable toolsList : list ToolSpec.

Lemma validVectorStoreIds_cases st :
  (exists i, has_vector_store_id st i /\ validVectorStoreIds st = [Str i])
  \/ ((forall i, ~ has_vector_store_id st i) /\ validVectorStoreIds st = []).
Proof.
  unfold validVectorStoreIds, has_vector_store_id.
  destruct (vectorStore st) as [vs|] eqn:Evs.
  - destruct (vs_id vs) as [i|] eqn:Ei; cbn.
    + destruct (String.eqb i "") eqn:E; cbn.
      * right. split; [|reflexivity].
        intros j (vs' & Hvs & Hj & Hne). injection Hvs as <-.
        rewrite Ei in Hj. injection Hj as <-.
        apply String.eqb_eq in E. contradiction.
      * left. exists i. split; [|reflexivity].
        exists vs. apply String.eqb_neq in E. auto.
    + right. split; [|reflexivity].
      intros j (vs' & Hvs & Hj & _). injection Hvs as <-. congruence.
  - right. split; [|reflexivity]. intros j (vs' & Hvs & _). discriminate.
Qed.

Lemma otherTools_type st t :
  In t (otherTools toolsList st) ->
  get "type" t = Str "file_search" ->
  In t (fileSearchTools st).
Proof.
  unfold otherTools. rewrite !in_app_iff.
  intros [H | [H | [H | [H | H]]]] Ht; [exfalso | exact H | exfalso ..].
  - unfold webSearchBlock in H.
    destruct (webSearchEnabled st); [|destruct H].
    destruct H as [<- | []].
    destruct (user_location (webSearchConfig st)) as [loc|]; [|discriminate].
    destruct (neq_empty (country loc) || neq_empty (region loc)
              || neq_empty (city loc)); discriminate.
  - unfold codeInterpreterBlock in H.
    destruct (codeInterpreterEnabled st); [|destruct H].
    destruct H as [<- | []]. discriminate.
  - unfold functionsBlock in H.
    destruct (functionsEnabled st); [|destruct H].
    cbn in H. apply List.in_map_iff in H as (tool & <- & _). discriminate.
  - unfold legacyMcpBlock in H.
    destruct (mcpEnabled st && str_truthy (McpConfig.server_url (mcpConfig st))
              && str_truthy (McpConfig.server_label (mcpConfig st)));
      [|destruct H].
    destruct H as [<- | []]. unfold commonSettings in Ht.
    destruct (McpConfig.skip_approval (mcpConfig st)),
      (str_truthy (trim (McpConfig.allowed_tools (mcpConfig st))));
      discriminate.
Qed.

Lemma catalogue_file_search st t :
  In t (catalogue toolsList st) ->
  get "type" t = Str "file_search" ->
  In t (fileSearchTools st).
Proof.
  unfold catalogue. rewrite in_app_iff. intros [H | H] Ht.
  - now apply otherTools_type.
  - apply List.in_map_iff in H as (server & <- & _).
    cbn in Ht. rewrite serverTool_type in Ht. discriminate.
Qed.

Lemma fileSearchTools_in_catalogue st t :
  In t (fileSearchTools st) -> In t (catalogue toolsList st).
Proof.
  intros H. unfold catalogue, otherTools. rewrite !in_app_iff. auto.
Qed.

End FileSearch.

(** C6: with the file-search flag set, the list [getTools] returns holds a
    descriptor of type "file_search" if and only if the vector store has an
    id that is present and not empty; every such descriptor is the
    well-formed one, carrying that id; and when there is no such id the list
    holds no "file_search" descriptor at all and the warning is on the
    console. *)
Theorem getTools_file_search (toolsList : list ToolSpec) (w : World) :
  fileSearchEnabled (store w) = true ->
  let tools := fst (getTools toolsList w) in
  let w' := snd (getTools toolsList w) in
  ((exists t, In t tools /\ get "type" t = Str "file_search")
   <-> exists i, has_vector_store_id (store w) i)
  /\ (forall t, In t tools -> get "type" t = Str "file_search" ->
        exists i, has_vector_store_id (store w) i
                  /\ t = Obj [ ("type", Str "file_search");
                               ("vector_store_ids", Arr [Str i]) ])
  /\ ((forall i, ~ has_vector_store_id (store w) i) ->
        (forall t, In t tools -> get "type" t <> Str "file_search")
        /\ In skipped_warning (console w')
        /\ exists before after,
             console w' = console w ++ before ++ skipped_warning :: after).
Proof.
  intros Hon. rewrite getTools_run. cbn [fst snd console].
  assert (Hwf : forall t, In t (catalogue toolsList (store w)) ->
                  get "type" t = Str "file_search" ->
                  exists i, has_vector_store_id (store w) i
                            /\ t = Obj [ ("type", Str "file_search");
                                         ("vector_store_ids", Arr [Str i]) ]).
  { intros t Hin Ht. apply catalogue_file_search in Hin; [|exact Ht].
    unfold fileSearchTools in Hin. rewrite Hon in Hin.
    destruct (validVectorStoreIds_cases (store w)) as [(i & Hi & E) | (_ & E)];
      rewrite E in Hin; cbn in Hin; [|destruct Hin].
    destruct Hin as [<- | []]. eauto. }
  split; [|split].
  - split.
    + intros (t & Hin & Ht). destruct (Hwf t Hin Ht) as (i & Hi & _). eauto.
    + intros (i & Hi).
      destruct (validVectorStoreIds_cases (store w)) as [(j & Hj & E) | (Hno & _)];
        [|now apply Hno in Hi].
      exists (Obj [ ("type", Str "file_search");
                    ("vector_store_ids", Arr [Str j]) ]).
      split; [|reflexivity].
      apply fileSearchTools_in_catalogue. unfold fileSearchTools.
      rewrite Hon, E. cbn. left. reflexivity.
  - exact Hwf.
  - intros Hno. split; [|split].
    + intros t Hin Ht. destruct (Hwf t Hin Ht) as (i & Hi & _). now apply Hno in Hi.
    + unfold fileSearchLogs. rewrite Hon.
      destruct (validVectorStoreIds_cases (store w)) as [(j & Hj & _) | (_ & E)];
        [now apply Hno in Hj|].
      rewrite E. cbn. rewrite in_app_iff. right. left. reflexivity.
    + unfold fileSearchLogs. rewrite Hon.
      destruct (validVectorStoreIds_cases (store w)) as [(j & Hj & _) | (_ & E)];
        [now apply Hno in Hj|].
      rewrite E. cbn. exists []. eexists. reflexivity.
Qed.

Lemma getTools_file_search_witness :
  let tools := fst (getTools [get_weather] world_without_vector_store) in
  let w' := snd (getTools [get_weather] world_without_vector_store) in
  ((exists t, In t tools /\ get "type" t = Str "file_search")
   <-> exists i, has_vector_store_id (store world_without_vector_store) i)
  /\ (forall t, In t tools -> get "type" t = Str "file_search" ->
        exists i, has_vector_store_id (store world_without_vector_store) i
                  /\ t = Obj [ ("type", Str "file_search");
                               ("vector_store_ids", Arr [Str i]) ])
  /\ ((forall i, ~ has_vector_store_id (store world_without_vector_store) i) ->
        (forall t, In t tools -> get "type" t <> Str "file_search")
        /\ In skipped_warning (console w')
        /\ exists before after,
             console w' = console world_without_vector_store
                          ++ before ++ skipped_warning :: after).
Proof.
  apply (getTools_file_search [get_weather] world_without_vector_store).
  reflexivity.
Defined.

(** C9: [getTools] leaves the store as it found it, and two runs from
    equal stores return equal lists, whatever the console held. *)
Theorem getTools_pure (toolsList : list ToolSpec) (w1 w2 : World) :
  store w1 = store w2 ->
  store (snd (getTools toolsList w1)) = store w1
  /\ store (snd (getTools toolsList w2)) = store w2
  /\ fst (getTools toolsList w1) = fst (getTools toolsList w2).
Proof.
  intros Heq. rewrite !getTools_run. cbn [fst snd store].
  now rewrite Heq.
Qed.

Lemma getTools_pure_witness :
  store (snd (getTools [get_weather] world_with_vector_store))
  = store world_with_vector_store
  /\ store (snd (getTools [get_weather]
                   {| store := store world_with_vector_store; console := [] |}))
     = store world_with_vector_store
  /\ fst (getTools [get_weather] world_with_vector_store)
     = fst (getTools [get_weather]
              {| store := store world_with_vector_store; console := [] |}).
Proof.
  apply (getTools_pure [get_weather] world_with_vector_store
           {| store := store world_with_vector_store; console := [] |}).
  reflexivity.
Defined.

(* ================================================================== *)
(** * Properties of the event stream *)
(* ================================================================== *)

Section Streams.



Lemma translate_is_sse now e :
  exists event_name data, Translating.translate now e = sse event_name data.
Proof.
  unfold Translating.translate.
  repeat match goal with
         | |- context [if ?c then _ else _] => destruct c
         end; eauto.
Qed.

Lemma pump_all_sse clock evs : forall i f,
  In f (Translating.pump clock i evs) -> exists event_name data, f = sse event_name data.
Proof.
  induction evs as [|e evs IH]; intros i f; simpl; [intros []|].
  intros [<- | H]; [apply translate_is_sse | eauto].
Qed.

(** On the wire a data frame of a route is never the sentinel: its JSON
    text starts with a brace. *)
Lemma render_sse_not_sentinel event_name data :
  render (sse event_name data) <> sentinel.
Proof.
  unfold render, sse, sentinel. cbn [JSON_stringify default].
  intros H. cbn in H. discriminate H.
Qed.


Lemma last_snoc_render fs f : last (List.map render (fs ++ [f])) = Some (render f).
Proof. rewrite List.map_app. cbn. apply last_snoc. Qed.

End Streams.



(** C2, as stated, fails twice: when the upstream stream throws, the
    translating route ends with the error frame and no sentinel; and the
    forwarding route sends no sentinel even when the stream ends well. *)
Lemma sentinel_missing :
  last (List.map render (frames_of (Translating.POST (fun _ => 0%Z) (Opened broken_stream))))
  <> Some sentinel
  /\ last (frames_of (Translating.POST (fun _ => 0%Z) (Opened broken_stream)))
     = Some (sse (Str "error")
                 (Obj [ ("error", Str "Streaming failed");
                        ("details", Str "socket hang up") ]))
  /\ last (List.map render (frames_of (Forwarding.POST (Opened complete_stream))))
     <> Some sentinel
  /\ ~ In Done (frames_of (Forwarding.POST (Opened complete_stream))).
Proof.
  split; [|split; [|split]].
  - vm_compute. discriminate.
  - reflexivity.
  - vm_compute. discriminate.
  - cbn. intros [H | [H | []]]; discriminate H.
Qed.

(** C2 (amended): on the translating route the response ends with the
    sentinel frame, after all event frames, when the upstream stream ends
    without throwing, and when opening the stream fails (then after the one
    error frame); no earlier frame is the sentinel.  The forwarding route
    never sends the sentinel: it ends by closing the stream. *)
Theorem sentinel_last :
  (forall clock evs,
     let fs := frames_of (Translating.POST clock
                            (Opened {| events := evs; ending := EndOfStream |})) in
     fs = Translating.pump clock 0 evs ++ [Done]
     /\ last (List.map render fs) = Some sentinel
     /\ (forall f, In f (Translating.pump clock 0 evs) -> render f <> sentinel))
  /\ (forall clock err,
        let fs := frames_of (Translating.POST clock (SetupThrows err)) in
        fs = [ Translating.errorFrame "Internal server error" err; Done ]
        /\ last (List.map render fs) = Some sentinel
        /\ render (Translating.errorFrame "Internal server error" err) <> sentinel)
  /\ (forall a f, In f (frames_of (Forwarding.POST a)) -> render f <> sentinel).
Proof.
  split; [|split].
  - intros clock evs. cbn zeta. cbn [Translating.POST frames_of].
    unfold Translating.start. cbn [events ending].
    split; [reflexivity|]. split.
    + apply last_snoc_render.
    + intros f Hf. apply pump_all_sse in Hf as (n & d & ->).
      apply render_sse_not_sentinel.
  - intros clock err. cbn zeta. cbn [Translating.POST frames_of].
    split; [reflexivity|]. split.
    + reflexivity.
    + apply render_sse_not_sentinel.
  - intros [err | up] f; cbn; [intros []|].
    intros Hf. apply List.in_map_iff in Hf as (e & <- & _).
    apply render_sse_not_sentinel.
Qed.

Section FailureEvents.





End FailureEvents.



(* ================================================================== *)
(** * Properties of approval *)
(* ================================================================== *)

Section ApprovalGate.

Lemma clicks_disabled item cs : forall st,
  disabled st = true -> clicks item cs st = (st, []).
Proof.
  induction cs as [|c cs IH]; intros st Hd; simpl; [reflexivity|].
  unfold click. rewrite Hd. now rewrite (IH st Hd).
Qed.

(** However many clicks follow, the first one is the only one that reaches
    [onRespond]. *)
Lemma clicks_first item c cs :
  clicks item (c :: cs) mounted
  = ({| disabled := true |}, [onRespond c (item_id item)]).
Proof.
  simpl. unfold click, handle. simpl.
  now rewrite (clicks_disabled item cs {| disabled := true |} eq_refl).
Qed.

Lemma resolveApproval_pending gate callId approve r :
  gate !! callId = Some r -> decision r = pending ->
  resolveApproval callId approve gate
  = (<[callId := decide_request (if approve then approved else declined) r]> gate,
     [Resolved (decide_request (if approve then approved else declined) r)]).
Proof. intros Hr Hd. unfold resolveApproval. now rewrite Hr, Hd. Qed.

Lemma resolveApproval_resolved gate callId approve r :
  gate !! callId = Some r -> decision r <> pending ->
  resolveApproval callId approve gate
  = (gate, [Diagnostic "approval request already resolved"]).
Proof.
  intros Hr Hd. unfold resolveApproval. rewrite Hr.
  destruct (decision r); [contradiction | reflexivity | reflexivity].
Qed.

Lemma resolveApproval_absent gate callId approve :
  gate !! callId = None -> resolveApproval callId approve gate = (gate, []).
Proof. intros Hr. unfold resolveApproval. now rewrite Hr. Qed.

(** A decision on a gate that has just taken one for the same id changes
    nothing and resolves nothing. *)
Lemma resolveApproval_again gate callId a b :
  let g1 := fst (resolveApproval callId a gate) in
  fst (resolveApproval callId b g1) = g1
  /\ transitions (snd (resolveApproval callId b g1)) = []
  /\ dispatches (snd (resolveApproval callId b g1)) = [].
Proof.
  cbn zeta.
  destruct (gate !! callId) as [r|] eqn:Hr.
  - destruct (decision r) eqn:Hd.
    + rewrite (resolveApproval_pending gate callId a r Hr Hd). cbn [fst].
      rewrite (resolveApproval_resolved _ callId b
                 (decide_request (if a then approved else declined) r)).
      * auto.
      * apply lookup_insert_eq.
      * destruct a; discriminate.
    + rewrite (resolveApproval_resolved gate callId a r Hr) by congruence.
      cbn [fst].
      rewrite (resolveApproval_resolved gate callId b r Hr) by congruence.
      auto.
    + rewrite (resolveApproval_resolved gate callId a r Hr) by congruence.
      cbn [fst].
      rewrite (resolveApproval_resolved gate callId b r Hr) by congruence.
      auto.
  - rewrite (resolveApproval_absent gate callId a Hr). cbn [fst].
    rewrite (resolveApproval_absent gate callId b Hr). auto.
Qed.

End ApprovalGate.

(** C7: on a pending request, [resolveApproval(id, true)] called twice makes
    the transition to approved, and the dispatch that follows it, once: the
    second call leaves the gate as it is, resolves nothing and only reports
    a diagnostic.  In general a second decision for an id, whatever the
    gate held, is a no-op.  The component itself calls [onRespond] once,
    however often its buttons are clicked, so driving the gate from the
    component gives the same single dispatch. *)
Theorem approval_resolution_idempotent (gate : gmap string ApprovalRequest)
  (item : McpApprovalRequestItem) (r : ApprovalRequest) (cs : list bool) :
  gate !! item_id item = Some r ->
  decision r = pending ->
  let callId := item_id item in
  let first := resolveApproval callId true gate in
  let second := resolveApproval callId true (fst first) in
  transitions (snd first) = [decide_request approved r]
  /\ dispatches (snd first) = [decide_request approved r]
  /\ fst first !! callId = Some (decide_request approved r)
  /\ fst second = fst first
  /\ snd second = [Diagnostic "approval request already resolved"]
  /\ transitions (snd first ++ snd second) = [decide_request approved r]
  /\ dispatches (snd first ++ snd second) = [decide_request approved r]
  /\ (forall g i a b,
        let g1 := fst (resolveApproval i a g) in
        fst (resolveApproval i b g1) = g1
        /\ transitions (snd (resolveApproval i b g1)) = []
        /\ dispatches (snd (resolveApproval i b g1)) = [])
  /\ snd (clicks item (true :: true :: cs) mounted) = [onRespond true callId]
  /\ respond_all (snd (clicks item (true :: true :: cs) mounted)) gate = first.
Proof.
  intros Hr Hd. cbn zeta.
  rewrite (resolveApproval_pending gate (item_id item) true r Hr Hd).
  cbn [fst snd].
  assert (Hsecond :
    resolveApproval (item_id item) true
      (<[item_id item := decide_request approved r]> gate)
    = (<[item_id item := decide_request approved r]> gate,
       [Diagnostic "approval request already resolved"])).
  { unfold resolveApproval. now rewrite lookup_insert_eq. }
  rewrite Hsecond. cbn [fst snd].
  repeat split.
  - apply lookup_insert_eq.
  - apply (resolveApproval_again g i a b).
  - apply (resolveApproval_again g i a b).
  - apply (resolveApproval_again g i a b).
  - now rewrite clicks_first.
  - rewrite clicks_first. cbn [snd respond_all].
    rewrite (resolveApproval_pending gate (item_id item) true r Hr Hd).
    now rewrite app_nil_r.
Qed.

Lemma approval_resolution_idempotent_witness :
  let gate := enqueue list_repos_request ∅ in
  let first := resolveApproval "call_1" true gate in
  let second := resolveApproval "call_1" true (fst first) in
  transitions (snd first) = [decide_request approved list_repos_request]
  /\ dispatches (snd first) = [decide_request approved list_repos_request]
  /\ fst first !! "call_1" = Some (decide_request approved list_repos_request)
  /\ fst second = fst first
  /\ snd second = [Diagnostic "approval request already resolved"]
  /\ transitions (snd first ++ snd second)
     = [decide_request approved list_repos_request]
  /\ dispatches (snd first ++ snd second)
     = [decide_request approved list_repos_request]
  /\ (forall g i a b,
        let g1 := fst (resolveApproval i a g) in
        fst (resolveApproval i b g1) = g1
        /\ transitions (snd (resolveApproval i b g1)) = []
        /\ dispatches (snd (resolveApproval i b g1)) = [])
  /\ snd (clicks list_repos_item [true; true; false] mounted)
     = [onRespond true "call_1"]
  /\ respond_all (snd (clicks list_repos_item [true; true; false] mounted)) gate
     = first.
Proof.
  apply (approval_resolution_idempotent
           (enqueue list_repos_request ∅) list_repos_item
           list_repos_request [false]).
  - apply lookup_insert_eq.
  - reflexivity.
Defined.

(* ================================================================== *)
(** * Facts about the string methods *)
(* ================================================================== *)

Section StringFacts.

Lemma sapp_cons (x : ascii) (a b : string) :
  String x a +:+ b = String x (a +:+ b).
Proof. reflexivity. Qed.

Lemma sapp_nil_l (b : string) : "" +:+ b = b.
Proof. reflexivity. Qed.

Lemma sapp_assoc (a b c : string) : (a +:+ b) +:+ c = a +:+ (b +:+ c).
Proof.
  induction a as [|x a IH]; [reflexivity|].
  rewrite !sapp_cons. f_equal. exact IH.
Qed.

Lemma sapp_nil_r (a : string) : a +:+ "" = a.
Proof.
  induction a as [|x a IH]; [reflexivity|].
  rewrite sapp_cons. f_equal. exact IH.
Qed.

Lemma sapp_snoc_nonempty (a : string) (c : ascii) : a +:+ String c "" <> "".
Proof. destruct a; discriminate. Qed.

Lemma string_rev_onto_app s : forall acc,
  string_rev_onto s acc = string_rev s +:+ acc.
Proof.
  unfold string_rev.
  induction s as [|c s IH]; intros acc; simpl; [reflexivity|].
  rewrite (IH (String c acc)), (IH (String c "")). rewrite sapp_assoc. reflexivity.
Qed.

Lemma string_rev_cons c s : string_rev (String c s) = string_rev s +:+ String c "".
Proof. unfold string_rev at 1. simpl. apply string_rev_onto_app. Qed.

Lemma string_rev_app a b : string_rev (a +:+ b) = string_rev b +:+ string_rev a.
Proof.
  induction a as [|c a IH].
  - rewrite sapp_nil_l. change (string_rev "") with "". now rewrite sapp_nil_r.
  - now rewrite sapp_cons, !string_rev_cons, IH, sapp_assoc.
Qed.

Lemma trimStart_app a b :
  trimStart (a +:+ b)
  = match trimStart a with
    | EmptyString => trimStart b
    | t => t +:+ b
    end.
Proof.
  induction a as [|c a IH]; [reflexivity|].
  rewrite sapp_cons. simpl trimStart.
  destruct (is_white c); [exact IH | reflexivity].
Qed.

(** [trimEnd], read from the front of the string. *)
Lemma trimEnd_cons c s :
  trimEnd (String c s)
  = match trimEnd s with
    | EmptyString => if is_white c then EmptyString else String c EmptyString
    | t => String c t
    end.
Proof.
  unfold trimEnd. rewrite string_rev_cons, trimStart_app.
  destruct (trimStart (string_rev s)) as [|d u] eqn:E.
  - simpl trimStart. destruct (is_white c); reflexivity.
  - rewrite string_rev_app. change (string_rev (String c "")) with (String c "").
    rewrite sapp_cons, sapp_nil_l, string_rev_cons.
    destruct (string_rev u +:+ String d "") eqn:E'; [|reflexivity].
    now apply sapp_snoc_nonempty in E'.
Qed.

Lemma trimEnd_nil : trimEnd "" = "".
Proof. reflexivity. Qed.

Lemma trimEnd_black c s : is_white c = false -> trimEnd (String c s) = String c (trimEnd s).
Proof.
  intros Hc. rewrite trimEnd_cons, Hc. now destruct (trimEnd s).
Qed.

Lemma trimStart_black c s : is_white c = false -> trimStart (String c s) = String c s.
Proof. intros Hc. simpl. now rewrite Hc. Qed.

Lemma trimStart_idem s : trimStart (trimStart s) = trimStart s.
Proof.
  induction s as [|c s IH]; simpl; [reflexivity|].
  destruct (is_white c) eqn:E; [exact IH | simpl; now rewrite E].
Qed.

Lemma trimEnd_idem s : trimEnd (trimEnd s) = trimEnd s.
Proof.
  induction s as [|c s IH]; [reflexivity|].
  rewrite trimEnd_cons.
  destruct (trimEnd s) as [|d t] eqn:E.
  - destruct (is_white c) eqn:Ec; [reflexivity|].
    rewrite trimEnd_cons, Ec. reflexivity.
  - rewrite trimEnd_cons, IH. reflexivity.
Qed.

Lemma trimStart_trimEnd s : trimStart (trimEnd s) = trimEnd (trimStart s).
Proof.
  induction s as [|c s IH]; [reflexivity|].
  simpl trimStart at 2. destruct (is_white c) eqn:Ec.
  - rewrite trimEnd_cons, Ec.
    destruct (trimEnd s) as [|d t] eqn:E.
    + rewrite <- IH. reflexivity.
    + rewrite <- IH. simpl. now rewrite Ec.
  - rewrite trimEnd_black by exact Ec. simpl. now rewrite Ec.
Qed.

Lemma trim_trimStart s : trim (trimStart s) = trim s.
Proof. unfold trim. now rewrite trimStart_idem. Qed.

Lemma trim_trimEnd s : trim (trimEnd s) = trim s.
Proof. unfold trim. now rewrite trimStart_trimEnd, trimEnd_idem. Qed.

(** The result of [trim] has no white space at either end. *)
Lemma trim_trimmed s : trimStart (trim s) = trim s /\ trimEnd (trim s) = trim s.
Proof.
  unfold trim. split.
  - now rewrite trimStart_trimEnd, trimStart_idem.
  - apply trimEnd_idem.
Qed.

Lemma trim_idem s : trim (trim s) = trim s.
Proof.
  destruct (trim_trimmed s) as [H1 H2]. unfold trim at 1. now rewrite H1, H2.
Qed.

Lemma split_nonempty sep s : split sep s <> [].
Proof.
  destruct s as [|c s]; simpl; [discriminate|].
  destruct (Ascii.eqb c sep); [discriminate|].
  destruct (split sep s); discriminate.
Qed.

Lemma split_single sep s : forall p, split sep s = [p] -> p = s.
Proof.
  induction s as [|c s IH]; intros p Hp; simpl in Hp.
  - now injection Hp.
  - destruct (Ascii.eqb c sep).
    + injection Hp as _ Hs. now apply split_nonempty in Hs.
    + destruct (split sep s) as [|q qs] eqn:Es; [now apply split_nonempty in Es|].
      injection Hp as <- ->. now rewrite (IH q eq_refl).
Qed.

(** A string that [trimEnd] empties holds white space only: it is one
    piece. *)
Lemma split_white sep s :
  is_white sep = false -> trimEnd s = "" -> split sep s = [s].
Proof.
  intros Hsep. induction s as [|c s IH]; [reflexivity|].
  rewrite trimEnd_cons. destruct (trimEnd s) eqn:E; [|discriminate].
  destruct (is_white c) eqn:Ec; [|discriminate].
  intros _. simpl.
  destruct (Ascii.eqb c sep) eqn:Ecs.
  - apply Ascii.eqb_eq in Ecs. congruence.
  - now rewrite IH.
Qed.

Lemma map_last_cons {A : Type} (f : A -> A) a (l : list A) :
  l <> [] -> map_last f (a :: l) = a :: map_last f l.
Proof. destruct l; [contradiction | reflexivity]. Qed.

Lemma split_trimStart sep s :
  is_white sep = false ->
  split sep (trimStart s) = map_head trimStart (split sep s).
Proof.
  intros Hsep. induction s as [|c s IH]; [reflexivity|].
  simpl trimStart. destruct (is_white c) eqn:Ec.
  - rewrite IH. simpl.
    destruct (Ascii.eqb c sep) eqn:Ecs.
    + apply Ascii.eqb_eq in Ecs. congruence.
    + destruct (split sep s) as [|p ps] eqn:Es.
      * now apply split_nonempty in Es.
      * simpl. now rewrite Ec.
  - simpl. destruct (Ascii.eqb c sep); [reflexivity|].
    destruct (split sep s) as [|p ps]; simpl; now rewrite Ec.
Qed.

Lemma split_trimEnd sep s :
  is_white sep = false ->
  split sep (trimEnd s) = map_last trimEnd (split sep s).
Proof.
  intros Hsep. induction s as [|c s IH]; [reflexivity|].
  rewrite trimEnd_cons.
  destruct (trimEnd s) as [|d t] eqn:E.
  - pose proof (split_white sep s Hsep E) as Hs.
    destruct (is_white c) eqn:Ec.
    + simpl. destruct (Ascii.eqb c sep) eqn:Ecs.
      * apply Ascii.eqb_eq in Ecs. congruence.
      * rewrite Hs. simpl. rewrite trimEnd_cons, E, Ec. reflexivity.
    + simpl. destruct (Ascii.eqb c sep) eqn:Ecs.
      * rewrite Hs. simpl. now rewrite E.
      * rewrite Hs. simpl. rewrite trimEnd_cons, E, Ec. reflexivity.
  - change (split sep (String c (String d t)))
      with (if Ascii.eqb c sep then EmptyString :: split sep (String d t)
            else match split sep (String d t) with
                 | piece :: pieces => String c piece :: pieces
                 | [] => [String c EmptyString]
                 end).
    rewrite IH. simpl split.
    destruct (Ascii.eqb c sep) eqn:Ecs.
    + rewrite map_last_cons by apply split_nonempty. reflexivity.
    + destruct (split sep s) as [|p ps] eqn:Es.
      * now apply split_nonempty in Es.
      * destruct ps as [|p2 ps].
        -- simpl. rewrite (trimEnd_cons c p).
           assert (Hp : trimEnd p = String d t).
           { apply split_single in Es. now subst p. }
           rewrite Hp. reflexivity.
        -- reflexivity.
Qed.

Lemma map_trim_map_head l :
  List.map trim (map_head trimStart l) = List.map trim l.
Proof. destruct l; simpl; [reflexivity | now rewrite trim_trimStart]. Qed.

Lemma map_trim_map_last l :
  List.map trim (map_last trimEnd l) = List.map trim l.
Proof.
  induction l as [|a l IH]; [reflexivity|].
  destruct l as [|b l].
  - simpl. now rewrite trim_trimEnd.
  - rewrite map_last_cons by discriminate.
    rewrite !(List.map_cons trim a). f_equal. exact IH.
Qed.

(** Trimming the whole string first does not change the trimmed pieces. *)
Lemma pieces_of_trimmed sep s :
  is_white sep = false ->
  List.map trim (split sep (trim s)) = List.map trim (split sep s).
Proof.
  intros Hsep. unfold trim at 2.
  rewrite split_trimEnd, map_trim_map_last by exact Hsep.
  rewrite split_trimStart, map_trim_map_head by exact Hsep.
  reflexivity.
Qed.

End StringFacts.

(* ================================================================== *)
(** * More properties of the store and of the server forms *)
(* ================================================================== *)

Section StoreLookups.

Lemma map_on_id_absent serverId f (servers : list McpServerConfig) :
  (forall s, In s servers -> String.eqb (id s) serverId = false) ->
  List.map (on_id serverId f) servers = servers.
Proof.
  induction servers as [|s servers IH]; intros H; [reflexivity|].
  rewrite List.map_cons. unfold on_id at 1.
  rewrite (H s) by now left.
  f_equal. apply IH. intros x Hx. apply H. now right.
Qed.

Lemma getServerById_none i (servers : list McpServerConfig) :
  getServerById i servers = None ->
  forall s, In s servers -> String.eqb (id s) i = false.
Proof.
  unfold getServerById. intros H s Hs.
  exact (List.find_none _ _ H s Hs).
Qed.



Lemma updateMcpServer_servers serverId updates st :
  mcpServers (updateMcpServer serverId updates st)
  = List.map (on_id serverId (fun s => merge s updates)) (mcpServers st).
Proof. reflexivity. Qed.

Lemma toggleMcpServer_servers serverId st :
  mcpServers (toggleMcpServer serverId st)
  = List.map (on_id serverId flip_enabled) (mcpServers st).
Proof. reflexivity. Qed.

Lemma override_idem {A : Type} (a : A) (n : option A) :
  override (override a n) n = override a n.
Proof. now destruct n. Qed.

Lemma merge_idem s u : merge (merge s u) u = merge s u.
Proof. unfold merge. cbn. now rewrite !override_idem. Qed.

Lemma on_id_merge_idem k u s :
  on_id k (fun x => merge x u) (on_id k (fun x => merge x u) s)
  = on_id k (fun x => merge x u) s.
Proof.
  unfold on_id. destruct (String.eqb (id s) k) eqn:E.
  - destruct (String.eqb (id (merge s u)) k); [apply merge_idem | reflexivity].
  - now rewrite E.
Qed.

End StoreLookups.


(** X2: an id that no server has: [updateMcpServer] and [toggleMcpServer]
    leave the state as it is. *)
Theorem update_unknown_id (serverId : string) (updates : Partial.McpServerConfig)
  (st : StoreState) :
  getServerById serverId (mcpServers st) = None ->
  updateMcpServer serverId updates st = st
  /\ toggleMcpServer serverId st = st.
Proof.
  intros Hnone. pose proof (getServerById_none _ _ Hnone) as Hall.
  unfold updateMcpServer, toggleMcpServer.
  change (fun server : McpServerConfig =>
            if String.eqb (id server) serverId then merge server updates else server)
    with (on_id serverId (fun s => merge s updates)).
  change (fun server : McpServerConfig =>
            if String.eqb (id server) serverId then flip_enabled server else server)
    with (on_id serverId flip_enabled).
  rewrite !map_on_id_absent by exact Hall.
  split; apply setMcpServers_same.
Qed.

Lemma update_unknown_id_witness :
  updateMcpServer "slack" (field_updates (skip_approval_field true))
    (example_store None) = example_store None
  /\ toggleMcpServer "slack" (example_store None) = example_store None.
Proof.
  apply (update_unknown_id "slack" (field_updates (skip_approval_field true))
           (example_store None)).
  reflexivity.
Defined.

(** X3: [updateMcpServer] is idempotent: the same update applied twice
    gives what it gives once, also when the update changes the id. *)
Theorem updateMcpServer_idempotent (serverId : string)
  (updates : Partial.McpServerConfig) (st : StoreState) :
  updateMcpServer serverId updates (updateMcpServer serverId updates st)
  = updateMcpServer serverId updates st.
Proof.
  unfold updateMcpServer.
  rewrite setMcpServers_servers, setMcpServers_twice. f_equal.
  change (fun server : McpServerConfig =>
            if String.eqb (id server) serverId then merge server updates else server)
    with (on_id serverId (fun s => merge s updates)).
  rewrite List.map_map. apply List.map_ext. intros s. apply on_id_merge_idem.
Qed.

Section EnabledCount.

Lemma count_toggled serverId (servers : list McpServerConfig) : forall server,
  List.NoDup (List.map id servers) ->
  In server servers ->
  id server = serverId ->
  List.length (List.filter (fun s => enabled s)
                 (List.map (on_id serverId flip_enabled) servers))
  + (if enabled server then 1 else 0)
  = List.length (List.filter (fun s => enabled s) servers)
    + (if enabled server then 0 else 1).
Proof.
  induction servers as [|s servers IH]; intros server Hnd Hin Hid; [destruct Hin|].
  rewrite List.map_cons in Hnd. apply List.NoDup_cons_iff in Hnd as [Hnotin Hnd].
  rewrite List.map_cons. cbn [List.filter].
  destruct Hin as [-> | Hin].
  - rewrite map_on_id_absent.
    + unfold on_id. apply String.eqb_eq in Hid. rewrite Hid. cbn.
      destruct (enabled server); cbn; lia.
    + intros x Hx. apply String.eqb_neq. intros Hxid.
      apply Hnotin. apply List.in_map_iff. exists x. split; [congruence | exact Hx].
  - assert (Hne : String.eqb (id s) serverId = false).
    { apply String.eqb_neq. intros Hsid. apply Hnotin.
      apply List.in_map_iff. exists server. split; [congruence | exact Hin]. }
    unfold on_id at 1. rewrite Hne.
    specialize (IH server Hnd Hin Hid).
    destruct (enabled s); cbn [List.length]; lia.
Qed.

End EnabledCount.

(** X4: when the ids are distinct, toggling a server that is in the list
    changes the number of enabled servers by exactly one: one more if it
    was disabled, one less if it was enabled. *)
Theorem toggle_changes_enabledCount (st : StoreState) (server : McpServerConfig) :
  List.NoDup (List.map id (mcpServers st)) ->
  In server (mcpServers st) ->
  enabledCount (toggleMcpServer (id server) st) + (if enabled server then 1 else 0)
  = enabledCount st + (if enabled server then 0 else 1).
Proof.
  intros Hnd Hin. unfold enabledCount. rewrite toggleMcpServer_servers.
  now apply count_toggled.
Qed.

Lemma toggle_changes_enabledCount_witness :
  enabledCount (toggleMcpServer "gmail" (example_store None)) + 0
  = enabledCount (example_store None) + 1.
Proof.
  apply (toggle_changes_enabledCount (example_store None) gmail).
  - repeat constructor; cbn; intros H; intuition discriminate.
  - right. left. reflexivity.
Defined.

Section ValidationParts.

Lemma check_env_var_app server errs v :
  check_env_var server errs v = errs ++ check_env_var server [] v.
Proof.
  unfold check_env_var, push_if.
  destruct (McpServerType_eqb (type server) docker
            && String.eqb v "GITHUB_PERSONAL_ACCESS_TOKEN"
            && negb (opt_truthy (github_token (auth_config server))));
    destruct (McpServerType_eqb (type server) query_api
              && String.eqb v "QUERY_API_KEY"
              && negb (opt_truthy (query_api_key (auth_config server))));
    cbn [app]; rewrite <- ?app_assoc, ?app_nil_r; reflexivity.
Qed.

Lemma fold_check_env_var_app server vars : forall errs,
  fold_left (check_env_var server) vars errs
  = errs ++ fold_left (check_env_var server) vars [].
Proof.
  induction vars as [|v vars IH]; intros errs; cbn [fold_left].
  - now rewrite app_nil_r.
  - rewrite IH, (IH (check_env_var server [] v)), app_assoc. f_equal.
    apply check_env_var_app.
Qed.

Lemma validate_errors_split server :
  errors (validateServerConfig server)
  = structural_errors server
    ++ fold_left (check_env_var server) (required_env_vars server) [].
Proof.
  unfold validateServerConfig. cbn [errors].
  rewrite fold_check_env_var_app. reflexivity.
Qed.

Lemma fold_check_env_var_none server vars :
  (forall v, env_var_missing server v = false) ->
  fold_left (check_env_var server) vars [] = [].
Proof.
  intros H. induction vars as [|v vars IH]; [reflexivity|].
  cbn [fold_left]. rewrite fold_check_env_var_app.
  specialize (H v). unfold env_var_missing in H.
  apply orb_false_iff in H as [H1 H2].
  unfold check_env_var, push_if. rewrite H1, H2. exact IH.
Qed.

End ValidationParts.

(** X5: the validation of a server does not look at [enabled],
    [skip_approval] or [allowed_tools]: toggling a server, or editing one
    of the two fields of the form, never changes its validation.  So [handleUpdate] shows exactly the errors the
    server had, and stores at the server's place the very server it
    validated. *)
Theorem handleUpdate_shows_server_errors (server : McpServerConfig)
  (f : ServerField) (form : ServerConfig.state) (st : StoreState) :
  validateServerConfig (merge server (field_updates f)) = validateServerConfig server
  /\ validateServerConfig (flip_enabled server) = validateServerConfig server
  /\ ServerConfig.errors (fst (ServerConfig.handleUpdate server f form st))
     = errors (validateServerConfig server)
  /\ ServerConfig.isExpanded (fst (ServerConfig.handleUpdate server f form st))
     = ServerConfig.isExpanded form
  /\ (forall i,
        mcpServers st !! i = Some server ->
        mcpServers (snd (ServerConfig.handleUpdate server f form st)) !! i
        = Some (merge server (field_updates f))).
Proof.
  assert (H1 : validateServerConfig (merge server (field_updates f))
               = validateServerConfig server) by (destruct f; reflexivity).
  split; [exact H1|]. split; [reflexivity|].
  unfold ServerConfig.handleUpdate. rewrite H1.
  destruct (validateServerConfig server) as [v es]. cbn.
  split; [reflexivity|]. split; [reflexivity|].
  intros i Hi.
  change (List.map ?g ?l) with (g <$> l). rewrite list_lookup_fmap, Hi. cbn.
  now rewrite String.eqb_refl.
Qed.

(** X6: [handleAuthUpdate] stores the new credential and leaves the
    form's errors as they were.  Once a non-empty GitHub token is stored
    for a docker server, or a non-empty query API key for a query-API
    server, the stored server has no errors but the structural ones:
    the credential errors the form may still show are stale. *)
Theorem handleAuthUpdate_leaves_errors (server : McpServerConfig)
  (f : AuthField) (form : ServerConfig.state) (st : StoreState) :
  fst (ServerConfig.handleAuthUpdate server f form st) = form
  /\ (forall i,
        mcpServers st !! i = Some server ->
        mcpServers (snd (ServerConfig.handleAuthUpdate server f form st)) !! i
        = Some (with_auth (set_auth f (auth_config server)) server))
  /\ (forall v, v <> "" -> type server = docker ->
        errors (validateServerConfig
                  (with_auth (set_auth (github_token_field v) (auth_config server))
                             server))
        = structural_errors server)
  /\ (forall v, v <> "" -> type server = query_api ->
        errors (validateServerConfig
                  (with_auth (set_auth (query_api_key_field v) (auth_config server))
                             server))
        = structural_errors server).
Proof.
  split; [reflexivity|]. split; [|split].
  - intros i Hi. unfold ServerConfig.handleAuthUpdate. cbn [snd].
    rewrite updateMcpServer_servers.
    change (List.map ?g ?l) with (g <$> l). rewrite list_lookup_fmap, Hi. cbn.
    unfold on_id. now rewrite String.eqb_refl.
  - intros v Hv Ht. rewrite validate_errors_split.
    rewrite fold_check_env_var_none.
    + rewrite app_nil_r. unfold structural_errors. cbn. reflexivity.
    + intros x. unfold env_var_missing. cbn. rewrite Ht. cbn.
      apply String.eqb_neq in Hv. unfold opt_truthy. cbn. rewrite Hv.
      now rewrite andb_false_r.
  - intros v Hv Ht. rewrite validate_errors_split.
    rewrite fold_check_env_var_none.
    + rewrite app_nil_r. unfold structural_errors. cbn. reflexivity.
    + intros x. unfold env_var_missing. cbn. rewrite Ht. cbn.
      apply String.eqb_neq in Hv. unfold opt_truthy. cbn. rewrite Hv.
      now rewrite andb_false_r.
Qed.

(* ================================================================== *)
(** * More properties of the descriptors, and of what the panels show *)
(* ================================================================== *)

Section Panels.

Variable toolsList : list ToolSpec.

Lemma filter_map_none {A B : Type} (p : B -> bool) (f : A -> B) (l : list A) :
  (forall a, p (f a) = false) -> List.filter p (List.map f l) = [].
Proof.
  intros H. induction l as [|a l IH]; [reflexivity|].
  cbn. now rewrite H.
Qed.

Lemma filter_map_all {A B : Type} (p : B -> bool) (f : A -> B) (l : list A) :
  (forall a, p (f a) = true) -> List.filter p (List.map f l) = List.map f l.
Proof.
  intros H. induction l as [|a l IH]; [reflexivity|].
  cbn. rewrite H. now f_equal.
Qed.

Lemma is_mcp_serverTool server : is_mcp (Obj (serverTool server)) = true.
Proof. unfold is_mcp. cbn [get]. now rewrite serverTool_type. Qed.

Lemma webSearchBlock_no_mcp st : List.filter is_mcp (webSearchBlock st []) = [].
Proof.
  unfold webSearchBlock. destruct (webSearchEnabled st); [|reflexivity].
  destruct (user_location (webSearchConfig st)) as [loc|]; [|reflexivity].
  destruct (neq_empty (country loc) || neq_empty (region loc)
            || neq_empty (city loc)); reflexivity.
Qed.

Lemma fileSearchTools_no_mcp st : List.filter is_mcp (fileSearchTools st) = [].
Proof.
  unfold fileSearchTools. destruct (fileSearchEnabled st); [|reflexivity].
  destruct (0 <? List.length (validVectorStoreIds st))%nat; reflexivity.
Qed.

Lemma codeInterpreterBlock_no_mcp st :
  List.filter is_mcp (codeInterpreterBlock st []) = [].
Proof. unfold codeInterpreterBlock. destruct (codeInterpreterEnabled st); reflexivity. Qed.

Lemma functionsBlock_no_mcp st :
  List.filter is_mcp (functionsBlock toolsList st []) = [].
Proof.
  unfold functionsBlock. destruct (functionsEnabled st); [|reflexivity].
  cbn [app]. now apply filter_map_none.
Qed.

Lemma legacyMcpBlock_mcp st :
  List.length (List.filter is_mcp (legacyMcpBlock st []))
  = if McpToolsList.hasLegacyServer st then 1 else 0.
Proof.
  unfold legacyMcpBlock, McpToolsList.hasLegacyServer.
  destruct (mcpEnabled st && str_truthy (McpConfig.server_url (mcpConfig st))
            && str_truthy (McpConfig.server_label (mcpConfig st)));
    [|reflexivity].
  unfold commonSettings.
  destruct (McpConfig.skip_approval (mcpConfig st)),
    (str_truthy (trim (McpConfig.allowed_tools (mcpConfig st)))); reflexivity.
Qed.

Lemma catalogue_mcp_count st :
  List.length (List.filter is_mcp (catalogue toolsList st))
  = McpToolsList.activeCount st.
Proof.
  unfold catalogue, otherTools, McpToolsList.activeCount.
  rewrite !List.filter_app, !List.length_app.
  rewrite webSearchBlock_no_mcp, fileSearchTools_no_mcp,
    codeInterpreterBlock_no_mcp, functionsBlock_no_mcp, legacyMcpBlock_mcp.
  rewrite (filter_map_all is_mcp _ _ is_mcp_serverTool), List.length_map.
  cbn [List.length]. lia.
Qed.

End Panels.

(** X7: the number the tools panel shows in "Active MCP Servers (n)" is
    the number of descriptors of type "mcp" in the list [getTools] returns,
    and the panel shows its empty state exactly when that list holds no
    such descriptor. *)
Theorem active_servers_count (toolsList : list ToolSpec) (w : World) :
  let tools := fst (getTools toolsList w) in
  McpToolsList.activeCount (store w) = List.length (List.filter is_mcp tools)
  /\ (McpToolsList.showsNothing (store w) = true
      <-> forall t, In t tools -> is_mcp t = false).
Proof.
  cbn zeta. rewrite getTools_run. cbn [fst].
  pose proof (catalogue_mcp_count toolsList (store w)) as Hc.
  split; [now rewrite Hc|].
  assert (Hshow : McpToolsList.showsNothing (store w) = true
                  <-> McpToolsList.activeCount (store w) = 0%nat).
  { unfold McpToolsList.showsNothing, McpToolsList.activeCount.
    rewrite andb_true_iff, Nat.eqb_eq, negb_true_iff.
    destruct (McpToolsList.hasLegacyServer (store w)); split; intros H;
      try lia; try (split; [lia | reflexivity]);
      try (destruct H; discriminate). }
  rewrite Hshow, <- Hc. split.
  - intros Hlen t Hin. destruct (is_mcp t) eqn:E; [|reflexivity].
    apply nil_length_inv in Hlen.
    assert (Hf : In t (List.filter is_mcp (catalogue toolsList (store w))))
      by (apply List.filter_In; auto).
    rewrite Hlen in Hf. destruct Hf.
  - intros Hall.
    destruct (List.filter is_mcp (catalogue toolsList (store w))) as [|t l] eqn:E;
      [reflexivity|].
    assert (Hf : In t (List.filter is_mcp (catalogue toolsList (store w))))
      by (rewrite E; now left).
    apply List.filter_In in Hf as [Hin Ht]. rewrite (Hall t Hin) in Ht.
    discriminate.
Qed.

Section ToolNames.

Lemma comma_not_white : is_white "," = false.
Proof. reflexivity. Qed.

Lemma getToolsInfo_names allowed :
  McpToolsList.getToolsInfo allowed
  = if str_truthy (trim allowed)
    then match filter_names allowed with
         | [] => ["All tools"]
         | names => names
         end
    else ["All tools"].
Proof.
  unfold McpToolsList.getToolsInfo, filter_names.
  destruct (str_truthy (trim allowed)); [|reflexivity].
  rewrite (pieces_of_trimmed "," allowed comma_not_white).
  destruct (List.filter str_truthy (List.map trim (split "," allowed)));
    reflexivity.
Qed.

Lemma filter_names_trimmed allowed n :
  In n (filter_names allowed) -> n <> "" /\ trim n = n.
Proof.
  unfold filter_names. rewrite List.filter_In, List.in_map_iff.
  intros [(piece & <- & _) Hne]. split.
  - now apply negb_true_iff, String.eqb_neq in Hne.
  - apply trim_idem.
Qed.

End ToolNames.

Lemma commonSettings_panel_agrees allowed skip (o : object) :
  obj_lookup "allowed_tools" o = None ->
  panel_agrees (obj_get "allowed_tools" (commonSettings skip allowed o)) allowed.
Proof.
  intros Ho. unfold panel_agrees. cbn zeta.
  rewrite (commonSettings_allowed skip allowed o Ho).
  rewrite getToolsInfo_names. unfold tool_names.
  fold (filter_names allowed).
  destruct (str_truthy (trim allowed)) eqn:Et.
  - destruct (filter_names allowed) as [|n names] eqn:En.
    + right. left. repeat split.
      apply negb_true_iff, String.eqb_neq in Et. exact Et.
    + right. right. split; [discriminate|]. split; [reflexivity|].
      intros x Hx. apply (filter_names_trimmed allowed). now rewrite En.
  - left. repeat split. now apply str_truthy_false.
Qed.

(** X8: the tools panel and the catalogue agree on the filter of a
    server, and of the legacy server.  When the descriptor carries a filter
    that is not empty, the panel lists exactly its names, in order, each of
    them non-empty and trimmed; when the descriptor carries no filter the
    panel shows "All tools".  It also shows "All tools" in the one
    remaining case: a string of commas and white space, for which the
    descriptor carries an empty filter. *)
Theorem tools_panel_shows_filter :
  (forall server : McpServerConfig,
     panel_agrees (obj_get "allowed_tools" (serverTool server))
                  (allowed_tools server))
  /\ (forall (st : StoreState) (d : object),
        legacyMcpBlock st [] = [Obj d] ->
        panel_agrees (obj_get "allowed_tools" d)
                     (McpConfig.allowed_tools (mcpConfig st)))
  /\ panel_agrees (Arr []) " , ".
Proof.
  split; [|split].
  - intros server. unfold serverTool.
    apply commonSettings_panel_agrees.
    destruct (type server),
      (opt_truthy (github_token (auth_config server))),
      (opt_truthy (query_api_key (auth_config server))); reflexivity.
  - intros st d. unfold legacyMcpBlock.
    destruct (mcpEnabled st && str_truthy (McpConfig.server_url (mcpConfig st))
              && str_truthy (McpConfig.server_label (mcpConfig st)));
      [|discriminate].
    cbn [app]. intros H. injection H as <-.
    now apply commonSettings_panel_agrees.
  - right. left. repeat split. discriminate.
Qed.

Section ApprovalDialog.

Lemma find_by_name_unique label (servers : list McpServerConfig) : forall server,
  List.NoDup (List.map name servers) ->
  In server servers ->
  name server = label ->
  find (fun s => String.eqb (name s) label) servers = Some server.
Proof.
  induction servers as [|s servers IH]; intros server Hnd Hin Hn; [destruct Hin|].
  rewrite List.map_cons in Hnd. apply List.NoDup_cons_iff in Hnd as [Hnotin Hnd].
  cbn [find]. destruct Hin as [-> | Hin].
  - apply String.eqb_eq in Hn. now rewrite Hn.
  - destruct (String.eqb (name s) label) eqn:E.
    + exfalso. apply Hnotin. apply String.eqb_eq in E.
      apply List.in_map_iff. exists server. split; [congruence | exact Hin].
    + now apply IH.
Qed.

End ApprovalDialog.

(** X9: the approval dialog looks the server up by the label of the
    request, which is the [server_label] the catalogue gave the server's
    descriptor, that is its name.  For a server of the list it always finds
    a server of that name; when the names are distinct it finds that very
    server and shows its type. *)
Theorem approval_dialog_finds_server (servers : list McpServerConfig)
  (server : McpServerConfig) (item : McpApprovalRequestItem) :
  In server servers ->
  Str (item_server_label item) = obj_get "server_label" (serverTool server) ->
  (exists found,
     approvalServerConfig item servers = Some found
     /\ In found servers
     /\ name found = name server)
  /\ approvalServerType item servers <> "unknown"
  /\ (List.NoDup (List.map name servers) ->
      approvalServerConfig item servers = Some server
      /\ approvalServerType item servers = McpServerType_name (type server)).
Proof.
  intros Hin Hlabel.
  assert (Hl : item_server_label item = name server).
  { assert (Hs : obj_get "server_label" (serverTool server) = Str (name server)).
    { unfold serverTool, commonSettings.
      destruct (type server), (skip_approval server),
        (str_truthy (trim (allowed_tools server))),
        (opt_truthy (github_token (auth_config server))),
        (opt_truthy (query_api_key (auth_config server))); reflexivity. }
    rewrite Hs in Hlabel. now injection Hlabel. }
  unfold approvalServerType, approvalServerConfig. rewrite Hl.
  split; [|split].
  - destruct (find (fun s => String.eqb (name s) (name server)) servers)
      as [found|] eqn:E.
    + apply List.find_some in E as [Hf Hn]. apply String.eqb_eq in Hn. eauto.
    + pose proof (List.find_none _ _ E server Hin) as Hn. cbn in Hn.
      now rewrite String.eqb_refl in Hn.
  - destruct (find (fun s => String.eqb (name s) (name server)) servers)
      as [found|] eqn:E.
    + destruct (type found); discriminate.
    + pose proof (List.find_none _ _ E server Hin) as Hn. cbn in Hn.
      now rewrite String.eqb_refl in Hn.
  - intros Hnd.
    rewrite (find_by_name_unique (name server) servers server Hnd Hin eq_refl).
    split; reflexivity.
Qed.

Lemma approval_dialog_finds_server_witness :
  (exists found,
     approvalServerConfig list_repos_item [github_official; gmail] = Some found
     /\ In found [github_official; gmail]
     /\ name found = name github_official)
  /\ approvalServerType list_repos_item [github_official; gmail] <> "unknown"
  /\ (List.NoDup (List.map name [github_official; gmail]) ->
      approvalServerConfig list_repos_item [github_official; gmail]
      = Some github_official
      /\ approvalServerType list_repos_item [github_official; gmail]
         = McpServerType_name (type github_official)).
Proof.
  apply (approval_dialog_finds_server [github_official; gmail] github_official
           list_repos_item).
  - left. reflexivity.
  - reflexivity.
Defined.

Section DescriptorMaps.

Lemma serverTool_env server :
  obj_get "env" (serverTool server)
  = match type server with
    | docker =>
        if opt_truthy (github_token (auth_config server))
        then Obj (docker_env (auth_config server)) else Undefined
    | query_api =>
        if opt_truthy (query_api_key (auth_config server))
        then Obj (query_api_env (auth_config server)) else Undefined
    | remote_pipedream => Undefined
    end.
Proof.
  unfold serverTool, commonSettings.
  destruct (type server), (skip_approval server),
    (str_truthy (trim (allowed_tools server))),
    (opt_truthy (github_token (auth_config server))),
    (opt_truthy (query_api_key (auth_config server))); reflexivity.
Qed.

Lemma opt_truthy_nonempty o :
  opt_truthy o = true -> nonempty_string (of_opt o).
Proof.
  destruct o as [s|]; [|discriminate]. cbn.
  intros H. exists s. split; [reflexivity|].
  now apply negb_true_iff, String.eqb_neq in H.
Qed.

Lemma bool_toString_nonempty b : nonempty_string (Str (bool_toString b)).
Proof. exists (bool_toString b). split; [reflexivity | destruct b; discriminate]. Qed.

Lemma docker_env_values auth :
  opt_truthy (github_token auth) = true ->
  Forall (fun kv => nonempty_string (snd kv)) (docker_env auth)
  /\ incl (keys (docker_env auth))
          ["GITHUB_PERSONAL_ACCESS_TOKEN"; "GITHUB_TOOLSETS"; "GITHUB_READ_ONLY"].
Proof.
  intros Htok. apply opt_truthy_nonempty in Htok.
  unfold docker_env, spread_if.
  destruct (opt_truthy (github_toolsets auth)) eqn:Ets.
  - apply opt_truthy_nonempty in Ets.
    destruct (github_read_only auth) as [b|]; cbn;
      (split; [repeat constructor; cbn; auto using bool_toString_nonempty
              | intros k Hk; cbn in Hk; cbn; tauto]).
  - destruct (github_read_only auth) as [b|]; cbn;
      (split; [repeat constructor; cbn; auto using bool_toString_nonempty
              | intros k Hk; cbn in Hk; cbn; tauto]).
Qed.

Lemma query_api_env_values auth :
  opt_truthy (query_api_key auth) = true ->
  Forall (fun kv => nonempty_string (snd kv)) (query_api_env auth)
  /\ incl (keys (query_api_env auth))
          ["QUERY_API_KEY"; "SUPABASE_URL"; "SUPABASE_ANON_KEY";
           "SUPABASE_SERVICE_ROLE_KEY"].
Proof.
  intros Hkey. apply opt_truthy_nonempty in Hkey.
  unfold query_api_env, spread_if.
  destruct (opt_truthy (supabase_url auth)) eqn:E1;
    [apply opt_truthy_nonempty in E1|];
    (destruct (opt_truthy (supabase_anon_key auth)) eqn:E2;
     [apply opt_truthy_nonempty in E2|]);
    (destruct (opt_truthy (supabase_service_role_key auth)) eqn:E3;
     [apply opt_truthy_nonempty in E3|]);
    cbn;
    (split; [repeat constructor; cbn; auto
            | intros k Hk; cbn in Hk; cbn; tauto]).
Qed.

End DescriptorMaps.

(** X10: when the descriptor of a server carries an [env] map, every
    value in it is a string that is not empty, and its keys are among the
    variables of the server's type; a Pipedream server never carries one,
    and a docker or query-API server carries one exactly when its token or
    key is set and not empty. *)
Theorem descriptor_env_values (server : McpServerConfig) :
  (forall env,
     obj_get "env" (serverTool server) = Obj env ->
     Forall (fun kv => nonempty_string (snd kv)) env
     /\ incl (keys env)
             ["GITHUB_PERSONAL_ACCESS_TOKEN"; "GITHUB_TOOLSETS"; "GITHUB_READ_ONLY";
              "QUERY_API_KEY"; "SUPABASE_URL"; "SUPABASE_ANON_KEY";
              "SUPABASE_SERVICE_ROLE_KEY"])
  /\ ((exists env, obj_get "env" (serverTool server) = Obj env)
      <-> (type server = docker
           /\ opt_truthy (github_token (auth_config server)) = true)
          \/ (type server = query_api
              /\ opt_truthy (query_api_key (auth_config server)) = true)).
Proof.
  rewrite serverTool_env. split.
  - intros env Henv. destruct (type server).
    + destruct (opt_truthy (github_token (auth_config server))) eqn:E;
        [|discriminate].
      injection Henv as <-.
      destruct (docker_env_values _ E) as [Hv Hk]. split; [exact Hv|].
      intros k Hin. apply Hk in Hin. cbn in Hin |- *. tauto.
    + destruct (opt_truthy (query_api_key (auth_config server))) eqn:E;
        [|discriminate].
      injection Henv as <-.
      destruct (query_api_env_values _ E) as [Hv Hk]. split; [exact Hv|].
      intros k Hin. apply Hk in Hin. cbn in Hin |- *. tauto.
    + discriminate.
  - destruct (type server).
    + destruct (opt_truthy (github_token (auth_config server))); split.
      * intros _. left. auto.
      * intros _. eauto.
      * intros [env H]. discriminate.
      * intros [[_ H] | [H _]]; discriminate.
    + destruct (opt_truthy (query_api_key (auth_config server))); split.
      * intros _. right. auto.
      * intros _. eauto.
      * intros [env H]. discriminate.
      * intros [[H _] | [_ H]]; discriminate.
    + split.
      * intros [env H]. discriminate.
      * intros [[H _] | [H _]]; discriminate.
Qed.

Section Headers.

Lemma obj_lookup_keys k (o : object) :
  obj_lookup k o <> None <-> In k (keys o).
Proof.
  induction o as [|[k0 v0] o IH]; cbn.
  - split; [congruence | intros []].
  - destruct (String.eqb k k0) eqn:E.
    + apply String.eqb_eq in E. split; [auto | discriminate].
    + apply String.eqb_neq in E. rewrite IH. split; [auto|].
      intros [H | H]; [congruence | exact H].
Qed.

Lemma keys_rev (o : object) k : In k (keys (rev o)) <-> In k (keys o).
Proof. unfold keys. rewrite List.map_rev. symmetry. apply List.in_rev. Qed.

End Headers.

(** X11: in the [headers] of a Pipedream server the custom headers win:
    a name they carry reads the value they give it, also for X-App-Slug and
    Authorization.  When they do not carry Authorization, that header is
    "Bearer " and the API key if the key is set and not empty, and is
    absent otherwise.  The map has no other names than X-App-Slug,
    Authorization and the custom ones. *)
Theorem pipedream_headers_precedence (server : McpServerConfig) :
  let custom := custom_headers_props (auth_config server) in
  let headers := pipedream_headers server in
  (forall k v, obj_lookup k (rev custom) = Some v -> obj_get k headers = v)
  /\ (obj_lookup "Authorization" (rev custom) = None ->
      obj_get "Authorization" headers
      = match pipedream_api_key (auth_config server) with
        | Some key => if str_truthy key then Str ("Bearer " +:+ key) else Undefined
        | None => Undefined
        end)
  /\ (forall k, In k (keys headers) ->
        k = "X-App-Slug" \/ k = "Authorization" \/ In k (keys custom)).
Proof.
  cbn zeta. unfold pipedream_headers, obj_get.
  split; [|split].
  - intros k v Hk. now rewrite obj_lookup_spread, Hk.
  - intros Hk. rewrite obj_lookup_spread, Hk.
    destruct (pipedream_api_key (auth_config server)) as [key|]; [|reflexivity].
    unfold spread_if. destruct (str_truthy key); reflexivity.
  - intros k Hin. apply obj_lookup_keys in Hin.
    rewrite obj_lookup_spread in Hin.
    destruct (obj_lookup k (rev (custom_headers_props (auth_config server))))
      eqn:E.
    + right. right. apply keys_rev, obj_lookup_keys. congruence.
    + apply obj_lookup_keys in Hin.
      destruct (pipedream_api_key (auth_config server)) as [key|];
        [unfold spread_if in Hin; destruct (str_truthy key)|];
        cbn in Hin; intuition (subst; auto).
Qed.

Section FunctionTools.

Lemma obj_set_fresh k v (o : object) :
  ~ In k (keys o) -> obj_set k v o = o ++ [(k, v)].
Proof.
  induction o as [|[k0 v0] o IH]; intros Hk; [reflexivity|].
  cbn in Hk. cbn [obj_set].
  destruct (String.eqb k k0) eqn:E.
  - apply String.eqb_eq in E. exfalso. apply Hk. left. congruence.
  - rewrite IH by tauto. reflexivity.
Qed.

Lemma obj_spread_fresh (src : object) : forall dst,
  List.NoDup (keys src) ->
  (forall k, In k (keys src) -> ~ In k (keys dst)) ->
  obj_spread src dst = dst ++ src.
Proof.
  unfold obj_spread.
  induction src as [|[k v] src IH]; intros dst Hnd Hdis; cbn [fold_left].
  - now rewrite app_nil_r.
  - cbn in Hnd. apply List.NoDup_cons_iff in Hnd as [Hk Hnd].
    cbn [fst snd]. rewrite obj_set_fresh by (apply Hdis; now left).
    rewrite IH.
    + now rewrite <- app_assoc.
    + exact Hnd.
    + intros x Hx. unfold keys. rewrite List.map_app, in_app_iff. cbn.
      intros [H | [H | []]].
      * apply (Hdis x); [now right | exact H].
      * subst x. contradiction.
Qed.

End FunctionTools.

(** X12: a function descriptor requires all its parameters and only
    them: the names in [required] are exactly the names of [properties];
    when the registry entry names each parameter once, [properties] is the
    entry's parameter object as it is and [required] lists its names in
    order. *)
Theorem functionTool_requires_all (tool : ToolSpec) :
  exists properties required,
    get "properties" (get "parameters" (functionTool tool)) = Obj properties
    /\ get "required" (get "parameters" (functionTool tool))
       = Arr (List.map Str required)
    /\ (forall k, In k required <-> In k (keys properties))
    /\ (List.NoDup (keys (tool_parameters tool)) ->
        properties = tool_parameters tool /\ required = keys properties).
Proof.
  exists (obj_spread (tool_parameters tool) []), (keys (tool_parameters tool)).
  split; [reflexivity|]. split.
  - cbn. unfold keys. now rewrite List.map_map.
  - split.
    + intros k. rewrite <- (obj_lookup_keys k (obj_spread _ _)).
      rewrite obj_lookup_spread. cbn [obj_lookup].
      rewrite <- (keys_rev (tool_parameters tool) k), <- obj_lookup_keys.
      destruct (obj_lookup k (rev (tool_parameters tool))); split; congruence.
    + intros Hnd. rewrite (obj_spread_fresh _ [] Hnd) by (intros k _ []).
      split; reflexivity.
Qed.

(* ================================================================== *)
(** * Properties of what the routes do before they stream *)
(* ================================================================== *)

Section McpConfiguration.

Lemma obj_get_defined k (o : object) : obj_get k o <> Undefined -> In k (keys o).
Proof.
  unfold obj_get. intros H. apply obj_lookup_keys.
  destruct (obj_lookup k o); congruence.
Qed.

Lemma is_zero_js_length v : is_zero (js_length v) = length_is_zero v.
Proof.
  destruct v as [| |b|n|s|items|props]; try reflexivity.
  - now destruct s.
  - now destruct items.
  - cbn [js_length length_is_zero]. unfold obj_get.
    destruct (obj_lookup "length" props) as [[| |b|n|s|items|props']|];
      reflexivity.
Qed.

Lemma mcp_complete_missingParams config :
  mcp_complete config
  = mcp_candidate config
    && (List.length (TurnRoute.missingParams config) =? 0)%nat.
Proof.
  unfold mcp_complete, mcp_candidate, TurnRoute.missingParams.
  rewrite is_zero_js_length.
  destruct (is_str (obj_get "type" config) "mcp"),
    (truthy (obj_get "server_url" config)),
    (truthy (obj_get "server_label" config)),
    (truthy (obj_get "allowed_tools" config)),
    (length_is_zero (obj_get "allowed_tools" config)),
    (truthy (obj_get "require_approval" config)); reflexivity.
Qed.

Lemma addMcpTool_tools tools logs index config :
  fst (TurnRoute.addMcpTool (tools, logs) (index, config))
  = tools ++ (if mcp_complete config then [mcp_tool_of config] else []).
Proof.
  rewrite mcp_complete_missingParams.
  unfold TurnRoute.addMcpTool, mcp_candidate.
  destruct (is_str (obj_get "type" config) "mcp"
            && truthy (obj_get "allowed_tools" config)); cbn [andb fst].
  - destruct (TurnRoute.missingParams config); cbn; [reflexivity|].
    now rewrite app_nil_r.
  - now rewrite app_nil_r.
Qed.

Lemma addMcpTool_logs tools logs index config :
  List.map level (snd (TurnRoute.addMcpTool (tools, logs) (index, config)))
  = List.map level logs ++ turn_route_levels config.
Proof.
  unfold turn_route_levels. rewrite mcp_complete_missingParams.
  unfold TurnRoute.addMcpTool, mcp_candidate.
  destruct (is_str (obj_get "type" config) "mcp"
            && truthy (obj_get "allowed_tools" config)); cbn [andb snd].
  - destruct (TurnRoute.missingParams config); cbn;
      rewrite List.map_app; reflexivity.
  - now rewrite app_nil_r.
Qed.

Lemma fold_addMcpTool entries : forall i tools logs,
  fst (fold_left TurnRoute.addMcpTool (TurnRoute.indexed i entries) (tools, logs))
  = tools ++ List.map mcp_tool_of (List.filter mcp_complete entries)
  /\ List.map level
       (snd (fold_left TurnRoute.addMcpTool (TurnRoute.indexed i entries)
               (tools, logs)))
     = List.map level logs ++ List.flat_map turn_route_levels entries.
Proof.
  induction entries as [|config entries IH]; intros i tools logs.
  - cbn. rewrite !app_nil_r. split; reflexivity.
  - cbn [TurnRoute.indexed fold_left].
    pose proof (addMcpTool_tools tools logs i config) as Ht.
    pose proof (addMcpTool_logs tools logs i config) as Hl.
    destruct (TurnRoute.addMcpTool (tools, logs) (i, config)) as [tools' logs'].
    cbn [fst snd] in Ht, Hl. subst tools'.
    destruct (IH (S i) (tools ++ (if mcp_complete config
                                   then [mcp_tool_of config] else [])) logs')
      as [IHt IHl].
    rewrite IHt, IHl, Hl. cbn [List.filter List.flat_map].
    rewrite <- !app_assoc. split; [|reflexivity].
    destruct (mcp_complete config); reflexivity.
Qed.






End McpConfiguration.

(** X13: of the MCP configuration, the turn route sends the entries of
    type "mcp" that have a server URL, a server label, a [require_approval]
    and an [allowed_tools] that is truthy and not of length 0, in order; of
    each it copies these five properties and nothing else, so never its
    [headers].  Every tool it sends has the five, none of them falsy, and
    an [allowed_tools] that is not empty.  The console gets one
    [console.log] for a tool that is sent, two [console.error] for an entry
    of type "mcp" with a truthy [allowed_tools] that is not sent, and
    nothing for any other entry. *)
Theorem turn_route_mcp_tools (mcpConfig : list object) :
  fst (TurnRoute.mcpServerToolsOf mcpConfig)
  = List.map mcp_tool_of (List.filter mcp_complete mcpConfig)
  /\ List.map level (snd (TurnRoute.mcpServerToolsOf mcpConfig))
     = List.flat_map turn_route_levels mcpConfig
  /\ (forall tool,
        In tool (fst (TurnRoute.mcpServerToolsOf mcpConfig)) ->
        get "type" tool = Str "mcp"
        /\ truthy (get "server_url" tool) = true
        /\ truthy (get "server_label" tool) = true
        /\ truthy (get "allowed_tools" tool) = true
        /\ length_is_zero (get "allowed_tools" tool) = false
        /\ get "allowed_tools" tool <> Arr []
        /\ truthy (get "require_approval" tool) = true)
  /\ (forall config k,
        get k (mcp_tool_of config) <> Undefined ->
        In k ["type"; "server_label"; "server_url"; "allowed_tools";
              "require_approval"]).
Proof.
  unfold TurnRoute.mcpServerToolsOf.
  destruct (fold_addMcpTool mcpConfig 0 [] []) as [Ht Hl].
  split; [exact Ht|]. split; [exact Hl|]. split.
  - intros tool. rewrite Ht. cbn [app]. rewrite List.in_map_iff.
    intros (config & <- & Hin). apply List.filter_In in Hin as [_ Hc].
    unfold mcp_complete in Hc.
    rewrite !andb_true_iff, negb_true_iff in Hc.
    destruct Hc as [[[[[_ Hu] Hlab] Hal] Hz] Hr].
    change (get "server_url" (mcp_tool_of config))
      with (obj_get "server_url" config).
    change (get "server_label" (mcp_tool_of config))
      with (obj_get "server_label" config).
    change (get "allowed_tools" (mcp_tool_of config))
      with (obj_get "allowed_tools" config).
    change (get "require_approval" (mcp_tool_of config))
      with (obj_get "require_approval" config).
    split; [reflexivity|]. split; [exact Hu|]. split; [exact Hlab|].
    split; [exact Hal|]. split; [exact Hz|]. split; [|exact Hr].
    intros E. rewrite E in Hz. discriminate.
  - intros config k Hk. unfold mcp_tool_of in Hk. cbn [get] in Hk.
    apply obj_get_defined in Hk. cbn [keys List.map fst] in Hk.
    cbn in Hk |- *. intuition (subst; auto).
Qed.


Section Messages.

Lemma turn_appendMessage_app combinedInput message :
  TurnRoute.appendMessage combinedInput message
  = combinedInput +:+ TurnRoute.appendMessage EmptyString message.
Proof.
  unfold TurnRoute.appendMessage.
  destruct (is_str (obj_get "role" message) "system"); [now rewrite sapp_nil_l|].
  destruct (is_str (obj_get "role" message) "user"); [now rewrite sapp_nil_l|].
  destruct (is_str (obj_get "role" message) "assistant"); [now rewrite sapp_nil_l|].
  now rewrite sapp_nil_r.
Qed.

Lemma turn_appendMessage_system prompt :
  TurnRoute.appendMessage EmptyString
    [ ("role", Str "system"); ("content", Str prompt) ]
  = "System: " +:+ prompt +:+ newline +:+ newline.
Proof. reflexivity. Qed.

Lemma turn_fold_app messages : forall combinedInput,
  fold_left TurnRoute.appendMessage messages combinedInput
  = combinedInput +:+ fold_left TurnRoute.appendMessage messages EmptyString.
Proof.
  induction messages as [|m messages IH]; intros acc; cbn [fold_left].
  - now rewrite sapp_nil_r.
  - rewrite IH, (IH (TurnRoute.appendMessage EmptyString m)).
    now rewrite turn_appendMessage_app, sapp_assoc.
Qed.

Lemma turn_appendMessage_unknown combinedInput message :
  known_role message = false ->
  TurnRoute.appendMessage combinedInput message = combinedInput.
Proof.
  unfold known_role, TurnRoute.appendMessage.
  intros H. apply orb_false_iff in H as [H H3]. apply orb_false_iff in H as [H1 H2].
  now rewrite H1, H2, H3.
Qed.

Lemma turn_fold_known messages : forall combinedInput,
  fold_left TurnRoute.appendMessage (List.filter known_role messages) combinedInput
  = fold_left TurnRoute.appendMessage messages combinedInput.
Proof.
  induction messages as [|m messages IH]; intros acc; [reflexivity|].
  cbn [List.filter fold_left].
  destruct (known_role m) eqn:E.
  - cbn [fold_left]. apply IH.
  - rewrite (turn_appendMessage_unknown acc m E). apply IH.
Qed.

Lemma completion_fold messages : forall input,
  fold_left CompletionRoute.appendMessage messages input
  = input
    ++ List.map (fun m => CompletionRoute.inputMessage (obj_get "role" m)
                            (CompletionRoute.textContent (obj_get "content" m)))
         (List.filter user_or_assistant messages).
Proof.
  induction messages as [|m messages IH]; intros input; cbn [fold_left List.filter].
  - now rewrite app_nil_r.
  - rewrite IH. unfold CompletionRoute.appendMessage at 1, user_or_assistant at 2.
    destruct (is_str (obj_get "role" m) "user"
              || is_str (obj_get "role" m) "assistant").
    + rewrite <- app_assoc. reflexivity.
    + reflexivity.
Qed.

End Messages.

(** X15: the input text of the turn route.  Messages whose role is not
    "system", "user" or "assistant" leave no trace in it; it has no white
    space at either end; no messages give the empty text; and the text the
    route sends upstream, which starts with the developer prompt as a
    system message, always begins with "System:" and so is never empty. *)
Theorem turn_route_input (DEVELOPER_PROMPT : string) (messages : list object) :
  TurnRoute.convertMessagesToInput (List.filter known_role messages)
  = TurnRoute.convertMessagesToInput messages
  /\ trimStart (TurnRoute.convertMessagesToInput messages)
     = TurnRoute.convertMessagesToInput messages
  /\ trimEnd (TurnRoute.convertMessagesToInput messages)
     = TurnRoute.convertMessagesToInput messages
  /\ TurnRoute.convertMessagesToInput [] = ""
  /\ exists rest,
       TurnRoute.requestInput DEVELOPER_PROMPT messages = "System:" +:+ rest.
Proof.
  unfold TurnRoute.convertMessagesToInput.
  split; [now rewrite turn_fold_known|].
  split; [apply trim_trimmed|]. split; [apply trim_trimmed|].
  split; [reflexivity|].
  unfold TurnRoute.requestInput, TurnRoute.convertMessagesToInput.
  cbn [fold_left]. rewrite turn_fold_app, turn_appendMessage_system.
  set (tail := fold_left TurnRoute.appendMessage messages EmptyString).
  rewrite !sapp_assoc.
  change ("System: " +:+ ?x)
    with (String "S" (String "y" (String "s" (String "t" (String "e"
           (String "m" (String ":" (String " " x)))))))).
  unfold trim. rewrite trimStart_black by reflexivity.
  rewrite !trimEnd_black by reflexivity.
  eexists. reflexivity.
Qed.

(** X16: the input list of the completion route starts with the developer
    prompt as the one system message; after it come the user and assistant
    messages, in order, one item each; a message with any other role, a
    system message of the caller included, is left out. *)
Theorem completion_route_input (DEVELOPER_PROMPT : string) (messages : list object) :
  exists rest,
    CompletionRoute.convertMessagesToInput DEVELOPER_PROMPT messages
    = CompletionRoute.inputMessage (Str "system") (Str DEVELOPER_PROMPT) :: rest
    /\ List.length rest = List.length (List.filter user_or_assistant messages)
    /\ List.map (get "role") rest
       = List.map (obj_get "role") (List.filter user_or_assistant messages)
    /\ (forall m, In m rest ->
          get "role" m = Str "user" \/ get "role" m = Str "assistant").
Proof.
  unfold CompletionRoute.convertMessagesToInput. rewrite completion_fold.
  eexists. split; [reflexivity|]. split; [apply List.length_map|]. split.
  - rewrite List.map_map. reflexivity.
  - intros m Hm. apply List.in_map_iff in Hm as (msg & <- & Hmsg).
    apply List.filter_In in Hmsg as [_ Hr]. unfold user_or_assistant in Hr.
    cbn. unfold is_str in Hr.
    destruct (obj_get "role" msg); try discriminate.
    apply orb_true_iff in Hr as [Hr | Hr]; apply String.eqb_eq in Hr; subst; auto.
Qed.

(* ================================================================== *)
(** * The check of the request's tools, and the catalogue *)
(* ================================================================== *)

Section ToolsCheck.

Lemma is_str_true v s : is_str v s = true <-> v = Str s.
Proof.
  destruct v; cbn; try (split; [discriminate | congruence]).
  rewrite String.eqb_eq. split; congruence.
Qed.

Lemma filter_nil_length {A : Type} (p : A -> bool) (l : list A) :
  (0 <? List.length (List.filter p l))%nat = false <-> List.filter p l = [].
Proof.
  destruct (List.filter p l); cbn; split; congruence.
Qed.

(** What [checkTool] answers does not depend on the index, but for the
    text of the rejection. *)
Lemma checkTool_passed index tool :
  ForwardingRoute.checkTool index tool = ForwardingRoute.Passed
  <-> tool_acceptable tool.
Proof.
  unfold ForwardingRoute.checkTool, tool_acceptable.
  destruct tool as [| |b|n|s|items|props];
    try (split; [discriminate | intros (H1 & H2 & _); congruence]).
  all: destruct (is_str (get "type" _) "file_search"
                 && truthy (get "vector_store_ids" _)) eqn:E.
  all: try (apply andb_true_iff in E as [E1 E2]).
  all: try (apply andb_false_iff in E).
  all: try (split; [intros _ | reflexivity];
            split; [discriminate|]; split; [discriminate|];
            intros H1 H2; destruct E; congruence).
  all: destruct (get "vector_store_ids" _) as [| |b'|n'|s'|ids|props'] eqn:Ev;
    try (split; [discriminate
                | intros (_ & _ & H); destruct (H E1 E2) as (ids & Hids & _);
                  discriminate]).
  all: destruct (0 <? List.length (List.filter ForwardingRoute.invalidId ids))%nat
         eqn:El.
  all: try (split; [discriminate|];
            intros (_ & _ & H); destruct (H E1 E2) as (ids' & Hids & Hnone);
            injection Hids as <-; rewrite Hnone in El; discriminate).
  all: split; [intros _ | reflexivity];
    split; [discriminate|]; split; [discriminate|];
    intros _ _; eexists; split; [reflexivity|];
    now apply filter_nil_length.
Qed.

Lemma checkTools_passed tools : forall index,
  ForwardingRoute.checkTools index tools = ForwardingRoute.Passed
  <-> Forall tool_acceptable tools.
Proof.
  induction tools as [|tool tools IH]; intros index; cbn [ForwardingRoute.checkTools].
  - split; [constructor | reflexivity].
  - destruct (ForwardingRoute.checkTool index tool) eqn:E.
    + apply checkTool_passed in E. rewrite IH. split.
      * intros H. now constructor.
      * intros H. now inversion H.
    + split; [discriminate|]. intros H. inversion H as [|? ? Ha _]; subst.
      apply (checkTool_passed index) in Ha. congruence.
    + split; [discriminate|]. intros H. inversion H as [|? ? Ha _]; subst.
      apply (checkTool_passed index) in Ha. congruence.
Qed.

(** A rejection names the place of the first tool that is not let
    through. *)
Lemma checkTools_rejected tools : forall index message,
  ForwardingRoute.checkTools index tools = ForwardingRoute.Rejected message ->
  exists n tool,
    tools !! n = Some tool
    /\ Forall tool_acceptable (take n tools)
    /\ ~ tool_acceptable tool
    /\ message = "Invalid vector store IDs in tool["
                 +:+ string_of_Z (Z.of_nat (index + n))
                 +:+ "]: expected strings, got null/undefined/empty values".
Proof.
  induction tools as [|tool tools IH]; intros index message;
    cbn [ForwardingRoute.checkTools]; [discriminate|].
  destruct (ForwardingRoute.checkTool index tool) eqn:E.
  - intros H. apply IH in H as (n & t & Hn & Hbefore & Hbad & ->).
    exists (S n), t. split; [exact Hn|]. split.
    + cbn [take]. constructor; [now apply (checkTool_passed index) | exact Hbefore].
    + split; [exact Hbad|]. now rewrite Nat.add_succ_r.
  - intros H. injection H as <-. exists 0%nat, tool.
    split; [reflexivity|]. split; [constructor|]. split.
    + intros Ha. apply (checkTool_passed index) in Ha. congruence.
    + rewrite Nat.add_0_r. unfold ForwardingRoute.checkTool in E.
      destruct tool; try discriminate;
        destruct (is_str (get "type" _) "file_search"
                  && truthy (get "vector_store_ids" _)); try discriminate;
        destruct (get "vector_store_ids" _); try discriminate;
        destruct (0 <? List.length (List.filter ForwardingRoute.invalidId items))%nat;
        try discriminate; now injection E.
  - discriminate.
Qed.

Lemma checkTool_invalid_id index tool :
  has_invalid_id tool ->
  ForwardingRoute.checkTool index tool
  = ForwardingRoute.Rejected (invalid_ids_message index).
Proof.
  intros (props & ids & i & -> & Hty & Hids & Hin & Hi).
  unfold ForwardingRoute.checkTool. cbn [get]. rewrite Hty, Hids.
  cbn [is_str truthy andb]. rewrite String.eqb_refl.
  assert (Hf : In i (List.filter ForwardingRoute.invalidId ids)).
  { apply List.filter_In. split; [exact Hin|].
    destruct Hi as [-> | [-> | ->]]; reflexivity. }
  destruct (List.filter ForwardingRoute.invalidId ids); [destruct Hf|].
  reflexivity.
Qed.

(** The check stops at the first tool it does not let through. *)
Lemma checkTools_first tools : forall index n tool,
  tools !! n = Some tool ->
  Forall tool_acceptable (take n tools) ->
  ForwardingRoute.checkTool (index + n) tool <> ForwardingRoute.Passed ->
  ForwardingRoute.checkTools index tools
  = ForwardingRoute.checkTool (index + n) tool.
Proof.
  induction tools as [|t tools IH]; intros index n tool Hn Hbefore Hstop;
    [discriminate|].
  destruct n as [|n]; cbn [ForwardingRoute.checkTools].
  - injection Hn as ->. rewrite Nat.add_0_r in *.
    destruct (ForwardingRoute.checkTool index tool); congruence.
  - cbn [take] in Hbefore. inversion Hbefore as [|? ? Ha Hrest]; subst.
    apply (checkTool_passed index) in Ha. rewrite Ha.
    replace (index + S n)%nat with (S index + n)%nat in * by lia.
    now apply IH.
Qed.

Lemma checkTools_stopped tools : forall index,
  ~ Forall tool_acceptable tools ->
  exists n,
    ForwardingRoute.checkTools index tools = ForwardingRoute.RaisedTypeError
    \/ ForwardingRoute.checkTools index tools
       = ForwardingRoute.Rejected (invalid_ids_message n).
Proof.
  intros index Hno.
  destruct (ForwardingRoute.checkTools index tools) eqn:E.
  - now apply checkTools_passed in E.
  - apply checkTools_rejected in E as (n & _ & _ & _ & _ & ->).
    exists (index + n)%nat. now right.
  - exists 0%nat. now left.
Qed.

Variable toolsList : list ToolSpec.

Lemma catalogue_objects st t :
  In t (catalogue toolsList st) -> exists o, t = Obj o.
Proof.
  unfold catalogue, otherTools. rewrite !in_app_iff.
  intros [[H | [H | [H | [H | H]]]] | H].
  - unfold webSearchBlock in H.
    destruct (webSearchEnabled st); [|destruct H].
    destruct H as [<- | []]. eauto.
  - unfold fileSearchTools in H.
    destruct (fileSearchEnabled st); [|destruct H].
    destruct (0 <? List.length (validVectorStoreIds st))%nat; [|destruct H].
    destruct H as [<- | []]. eauto.
  - unfold codeInterpreterBlock in H.
    destruct (codeInterpreterEnabled st); [|destruct H].
    destruct H as [<- | []]. eauto.
  - unfold functionsBlock in H.
    destruct (functionsEnabled st); [|destruct H].
    cbn in H. apply List.in_map_iff in H as (tool & <- & _).
    unfold functionTool. eauto.
  - unfold legacyMcpBlock in H.
    destruct (mcpEnabled st && str_truthy (McpConfig.server_url (mcpConfig st))
              && str_truthy (McpConfig.server_label (mcpConfig st)));
      [|destruct H].
    destruct H as [<- | []]. eauto.
  - apply List.in_map_iff in H as (server & <- & _). eauto.
Qed.

Lemma catalogue_acceptable st t :
  In t (catalogue toolsList st) -> tool_acceptable t.
Proof.
  intros Hin. destruct (catalogue_objects st t Hin) as [o ->].
  split; [discriminate|]. split; [discriminate|].
  intros Hty _. apply is_str_true in Hty.
  pose proof (catalogue_file_search toolsList st (Obj o) Hin Hty) as Hfs.
  unfold fileSearchTools in Hfs.
  destruct (fileSearchEnabled st); [|destruct Hfs].
  destruct (validVectorStoreIds_cases st) as [(i & (vs & _ & _ & Hi) & E) | (_ & E)];
    rewrite E in Hfs; cbn in Hfs; [|destruct Hfs].
  destruct Hfs as [Ho | []]. injection Ho as <-.
  exists [Str i]. split; [reflexivity|].
  cbn. apply String.eqb_neq in Hi. now rewrite Hi.
Qed.

End ToolsCheck.

(** X17: whatever the store holds, the list [getTools] returns passes
    the check the forwarding route makes of the tools of a request: the
    catalogue never sends a file-search tool with a missing or empty vector
    store id. *)
Theorem getTools_passes_validation (toolsList : list ToolSpec) (w : World) :
  ForwardingRoute.validateTools (Arr (fst (getTools toolsList w)))
  = ForwardingRoute.Passed.
Proof.
  rewrite getTools_run. cbn [fst ForwardingRoute.validateTools].
  apply checkTools_passed. apply List.Forall_forall.
  intros t Ht. now apply (catalogue_acceptable toolsList (store w)).
Qed.

(** X18: the check of the forwarding route lets a tools array through
    exactly when no item is [null] or [undefined] and every file-search
    item with a truthy [vector_store_ids] has an array of ids none of which
    is [null], [undefined] or empty; anything that is not an array passes
    unchecked.  When it rejects, the message names the index of the first
    item that is not let through.  The handler, on a request body that is
    an object whose [tools] is an array: when every tool is acceptable it
    answers what the upstream call for the body's messages and these tools
    gives; when the first tool that is not acceptable is a file-search tool
    holding a missing or empty id, it answers with status 500 and the
    message that names that tool's index; and whenever some tool is not
    acceptable it answers with status 500 and a JSON error, whatever the
    upstream call would have done. *)
Theorem validateTools_spec (tools : list value) :
  (ForwardingRoute.validateTools (Arr tools) = ForwardingRoute.Passed
   <-> Forall tool_acceptable tools)
  /\ (forall message,
        ForwardingRoute.validateTools (Arr tools)
        = ForwardingRoute.Rejected message ->
        exists n tool,
          tools !! n = Some tool
          /\ Forall tool_acceptable (take n tools)
          /\ ~ tool_acceptable tool
          /\ message = "Invalid vector store IDs in tool["
                       +:+ string_of_Z (Z.of_nat n)
                       +:+ "]: expected strings, got null/undefined/empty values")
  /\ (forall v, (forall items, v <> Arr items) ->
        ForwardingRoute.validateTools v = ForwardingRoute.Passed)
  /\ (forall (typeError : string) (body : object)
             (create : value -> value -> Attempt),
        obj_get "tools" body = Arr tools ->
        (Forall tool_acceptable tools ->
         ForwardingRoute.POST typeError (ForwardingRoute.Resolves (Obj body)) create
         = Forwarding.POST (create (obj_get "messages" body) (Arr tools)))
        /\ (forall n tool,
              tools !! n = Some tool ->
              Forall tool_acceptable (take n tools) ->
              has_invalid_id tool ->
              ForwardingRoute.POST typeError (ForwardingRoute.Resolves (Obj body))
                create
              = JsonBody 500
                  (Obj [ ("error",
                           Str (invalid_ids_message n)) ]))
        /\ (~ Forall tool_acceptable tools ->
            exists message,
              ForwardingRoute.POST typeError (ForwardingRoute.Resolves (Obj body))
                create
              = JsonBody 500 (Obj [ ("error", Str message) ]))).
Proof.
  split; [apply checkTools_passed|]. split; [|split].
  - intros message H. cbn [ForwardingRoute.validateTools] in H.
    apply checkTools_rejected in H as (n & tool & H1 & H2 & H3 & H4).
    exists n, tool. auto.
  - intros v Hv. destruct v; try reflexivity. now specialize (Hv items).
  - intros typeError body create Htools.
    unfold ForwardingRoute.POST. cbn [get]. rewrite Htools.
    cbn [ForwardingRoute.validateTools]. split; [|split].
    + intros Hall. apply (checkTools_passed tools 0) in Hall. now rewrite Hall.
    + intros n tool Hn Hbefore Hbad.
      pose proof (checkTool_invalid_id (0 + n) tool Hbad) as Hc.
      rewrite (checkTools_first tools 0 n tool Hn Hbefore) by (rewrite Hc; discriminate).
      rewrite Hc. reflexivity.
    + intros Hno.
      destruct (checkTools_stopped tools 0 Hno) as [n [E | E]]; rewrite E;
        eexists; reflexivity.
Qed.

(* ================================================================== *)
(** * Frames on the wire *)
(* ================================================================== *)

Section Wire.

(** Induction on values, through the items of arrays and the properties
    of objects. *)
Lemma value_nested_ind (P : value -> Prop) :
  P Undefined -> P Null -> (forall b, P (Bool b)) -> (forall n, P (Num n)) ->
  (forall s, P (Str s)) ->
  (forall items, Forall P items -> P (Arr items)) ->
  (forall props, Forall (fun kv => P (snd kv)) props -> P (Obj props)) ->
  forall v, P v.
Proof.
  intros HU HN HB HZ HS HA HO.
  fix IH 1. intros v. destruct v as [| |b|n|s|items|props].
  - exact HU.
  - exact HN.
  - apply HB.
  - apply HZ.
  - apply HS.
  - apply HA. revert items. fix IHl 1. intros items.
    destruct items as [|x items]; constructor; [apply IH | apply IHl].
  - apply HO. revert props. fix IHl 1. intros props.
    destruct props as [|[k x] props]; constructor; [apply IH | apply IHl].
Qed.

Lemma one_line_app a b : one_line (a +:+ b) = one_line a && one_line b.
Proof.
  induction a as [|c a IH]; [reflexivity|].
  rewrite sapp_cons. cbn [one_line]. rewrite IH. now rewrite andb_assoc.
Qed.

Lemma one_line_escape_char c : one_line (escape_char c) = true.
Proof. destruct c as [[] [] [] [] [] [] [] []]; reflexivity. Qed.

Lemma one_line_escape s : one_line (escape s) = true.
Proof.
  induction s as [|c s IH]; [reflexivity|].
  cbn [escape]. now rewrite one_line_app, one_line_escape_char, IH.
Qed.

Lemma one_line_quote s : one_line (quote s) = true.
Proof.
  unfold quote. cbn [one_line].
  now rewrite one_line_app, one_line_escape.
Qed.

Lemma one_line_uint d : one_line (NilEmpty.string_of_uint d) = true.
Proof. induction d; cbn; auto. Qed.

Lemma one_line_string_of_Z n : one_line (string_of_Z n) = true.
Proof.
  unfold string_of_Z, NilZero.string_of_int, NilZero.string_of_uint.
  destruct (Z.to_int n) as [d | d]; destruct d; cbn;
    try reflexivity; apply one_line_uint.
Qed.

Lemma one_line_join sep parts :
  one_line sep = true ->
  Forall (fun p => one_line p = true) parts ->
  one_line (join sep parts) = true.
Proof.
  intros Hsep H. induction H as [|p parts Hp Hparts IH]; [reflexivity|].
  cbn [join]. destruct parts as [|q parts]; [exact Hp|].
  now rewrite !one_line_app, Hp, Hsep, IH.
Qed.

Lemma one_line_stringify v : forall s,
  JSON_stringify v = Some s -> one_line s = true.
Proof.
  induction v as [| |b|n|t|items IH|props IH] using value_nested_ind;
    intros s Hs; cbn [JSON_stringify] in Hs.
  - discriminate.
  - now injection Hs as <-.
  - injection Hs as <-. now destruct b.
  - injection Hs as <-. apply one_line_string_of_Z.
  - injection Hs as <-. apply one_line_quote.
  - injection Hs as <-.
    match goal with
    | |- context [join "," (?go items)] =>
        assert (Hparts : Forall (fun p => one_line p = true) (go items))
    end.
    { induction IH as [|x items Hx _ IHitems]; [constructor|].
      constructor; [|exact IHitems].
      destruct (JSON_stringify x) as [sx|] eqn:Ex; [now apply Hx | reflexivity]. }
    rewrite !one_line_app, (one_line_join "," _ eq_refl Hparts). reflexivity.
  - injection Hs as <-.
    match goal with
    | |- context [join "," (?go props)] =>
        assert (Hparts : Forall (fun p => one_line p = true) (go props))
    end.
    { induction IH as [|[k x] props Hx _ IHprops]; [constructor|].
      cbn [snd] in Hx.
      destruct (JSON_stringify x) as [sx|] eqn:Ex; [|exact IHprops].
      constructor; [|exact IHprops].
      now rewrite !one_line_app, one_line_quote, (Hx sx eq_refl). }
    rewrite !one_line_app, (one_line_join "," _ eq_refl Hparts). reflexivity.
Qed.

End Wire.

(** X19: the JSON text of a value holds no line feed and no carriage
    return, whatever strings the value holds.  So a data frame on the wire
    is "data: ", one line of JSON, and the blank line that ends it: what an
    upstream event contains cannot end the frame early or start another. *)
Theorem frame_is_one_line (event_name data : value) :
  (forall v s, JSON_stringify v = Some s -> one_line s = true)
  /\ exists body,
       JSON_stringify (Obj [ ("event", event_name); ("data", data) ]) = Some body
       /\ render (sse event_name data)
          = "data: " +:+ body +:+ newline +:+ newline
       /\ one_line body = true.
Proof.
  split; [intros v s; apply one_line_stringify|].
  destruct (JSON_stringify (Obj [ ("event", event_name); ("data", data) ]))
    as [body|] eqn:E.
  - exists body. split; [reflexivity|]. split.
    + unfold render, sse. now rewrite E.
    + now apply (one_line_stringify _ body E).
  - cbn [JSON_stringify] in E.
    destruct (JSON_stringify event_name), (JSON_stringify data); discriminate.
Qed.

(* ================================================================== *)
(** * Reset, and the further functions on sample inputs *)
(* ================================================================== *)

(** X20: "Reset All".  Whatever the store held, after [resetMcpServers]
    it holds the default servers, none of which is enabled: the header
    counts no server, and [getTools] returns what it returns without any
    server.  The ids of the defaults are distinct, and so are their names;
    resetting twice is resetting once. *)
Theorem reset_disables_all (toolsList : list ToolSpec) (w : World) :
  let st := resetMcpServers (store w) in
  mcpServers st = defaultMcpServers
  /\ getEnabledServers (mcpServers st) = []
  /\ enabledCount st = 0%nat
  /\ fst (getTools toolsList {| store := st; console := console w |})
     = fst (getTools toolsList
              {| store := setMcpServers [] (store w); console := console w |})
  /\ List.NoDup (List.map id defaultMcpServers)
  /\ List.NoDup (List.map name defaultMcpServers)
  /\ resetMcpServers st = st.
Proof.
  cbn zeta. rewrite !getTools_run. cbn [fst store].
  split; [reflexivity|]. split; [reflexivity|]. split; [reflexivity|].
  split; [|split; [|split]].
  - unfold catalogue, resetMcpServers.
    now rewrite !otherTools_setMcpServers.
  - cbn. repeat constructor; cbn; intuition discriminate.
  - cbn. repeat constructor; cbn; intuition discriminate.
  - reflexivity.
Qed.

Example defaults_validation :
  List.map (fun s => errors (validateServerConfig s)) defaultMcpServers
  = [ ["GITHUB_PERSONAL_ACCESS_TOKEN is required for GitHub server"];
      ["QUERY_API_KEY is required for Supabase server"]; []; []; [] ].
Proof. reflexivity. Qed.

Example getToolsInfo_samples :
  McpToolsList.getToolsInfo "  search_code , create_issue,, " = ["search_code"; "create_issue"]
  /\ McpToolsList.getToolsInfo " , " = ["All tools"]
  /\ McpToolsList.getToolsInfo "" = ["All tools"]
  /\ obj_get "allowed_tools" (commonSettings false " , " []) = Arr [].
Proof. repeat split. Qed.

Example turn_route_tools_sample :
  fst TurnRoute.getMcpServerTools
  = [ Obj [ ("type", Str "mcp");
            ("server_label", Str "Context7");
            ("server_url", Str "https://mcp.context7.com/mcp");
            ("allowed_tools",
              Arr [ Str "resolve-library-id"; Str "get-library-docs" ]);
            ("require_approval", Str "always") ] ]
  /\ List.map text (snd TurnRoute.getMcpServerTools)
     = [ "Adding MCP tool for Context7:" ].
Proof. split; reflexivity. Qed.

Example turn_route_incomplete_sample :
  TurnRoute.mcpServerToolsOf
    [ [ ("type", Str "mcp"); ("allowed_tools", Arr []);
        ("server_label", Str "x") ];
      [ ("type", Str "mcp"); ("server_label", Str "y") ] ]
  = ([],
     [ {| level := Error;
          text := "MCP tool at index 0 missing required parameters:";
          args := [ Arr [ Str "server_url"; Str "allowed_tools";
                          Str "require_approval" ] ] |};
       {| level := Error; text := "Config:";
          args := [ pretty (Obj [ ("type", Str "mcp"); ("allowed_tools", Arr []);
                                  ("server_label", Str "x") ]) ] |} ]).
Proof. reflexivity. Qed.

(** An [allowed_tools] that is an object of length 0 counts as missing. *)
Example turn_route_length_zero_sample :
  let config : object :=
    [ ("type", Str "mcp"); ("server_label", Str "x");
      ("server_url", Str "https://example.com/mcp");
      ("allowed_tools", Obj [ ("length", Num 0) ]);
      ("require_approval", Str "never") ] in
  TurnRoute.missingParams config = ["allowed_tools"]
  /\ fst (TurnRoute.mcpServerToolsOf [config]) = []
  /\ List.map level (snd (TurnRoute.mcpServerToolsOf [config])) = [Error; Error].
Proof. repeat split. Qed.

Example library_route_tools_sample :
  LibraryRoute.getMcpServerTools
  = Some [ LibraryRoute.resolve_library_id; LibraryRoute.get_library_docs ].
Proof. reflexivity. Qed.

Example request_input_sample :
  TurnRoute.requestInput "You are helpful.  "
    [ [ ("role", Str "user"); ("content", Str "hi") ];
      [ ("role", Str "tool"); ("content", Str "ignored") ];
      [ ("role", Str "assistant"); ("content", Arr [ Num 1; Null; Str "a" ]) ] ]
  = "System: You are helpful.  " +:+ newline +:+ newline
    +:+ "User: hi" +:+ newline +:+ newline +:+ "Assistant: 1,,a".
Proof. reflexivity. Qed.

Example completion_input_sample :
  CompletionRoute.convertMessagesToInput "P"
    [ [ ("role", Str "system"); ("content", Str "override") ];
      [ ("role", Str "user"); ("content", Obj [ ("a", Num 1) ]) ] ]
  = [ CompletionRoute.inputMessage (Str "system") (Str "P");
      CompletionRoute.inputMessage (Str "user")
        (Str ("{" +:+ quote "a" +:+ ":1}")) ].
Proof. reflexivity. Qed.

Example validateTools_sample :
  ForwardingRoute.validateTools
    (Arr [ Obj [ ("type", Str "function") ];
           Obj [ ("type", Str "file_search");
                 ("vector_store_ids", Arr [ Str "vs_1"; Str "" ]) ] ])
  = ForwardingRoute.Rejected
      "Invalid vector store IDs in tool[1]: expected strings, got null/undefined/empty values"
  /\ ForwardingRoute.validateTools
       (Arr [ Obj [ ("type", Str "file_search");
                    ("vector_store_ids", Str "vs_1") ] ])
     = ForwardingRoute.RaisedTypeError.
Proof. split; reflexivity. Qed.

(** A request whose second tool holds an empty vector store id is answered
    without the upstream being called. *)
Example forwarding_rejects_sample :
  ForwardingRoute.POST "tool is null"
    (ForwardingRoute.Resolves
       (Obj [ ("messages", Arr []);
              ("tools", Arr [ Obj [ ("type", Str "web_search") ];
                              Obj [ ("type", Str "file_search");
                                    ("vector_store_ids", Arr [ Str "" ]) ] ]) ]))
    (fun _ _ => Opened complete_stream)
  = JsonBody 500
      (Obj [ ("error",
               Str ("Invalid vector store IDs in tool[1]: "
                    +:+ "expected strings, got null/undefined/empty values")) ]).
Proof. reflexivity. Qed.

Example pretty_sample :
  pretty (Obj [ ("a", Arr [ Num 1; Obj [] ]); ("b", Undefined); ("c", Arr []) ])
  = Str ("{" +:+ newline
         +:+ "  " +:+ quote "a" +:+ ": [" +:+ newline
         +:+ "    1," +:+ newline
         +:+ "    {}" +:+ newline
         +:+ "  ]," +:+ newline
         +:+ "  " +:+ quote "c" +:+ ": []" +:+ newline
         +:+ "}").
Proof. reflexivity. Qed.

Example handleUpdate_sample :
  ServerConfig.errors
    (fst (ServerConfig.handleUpdate incomplete_docker
            (allowed_tools_field "search_code")
            {| ServerConfig.isExpanded := true; ServerConfig.errors := [] |}
            (example_store None)))
  = [ "Server name is required";
      "Docker image is required for Docker-based servers";
      "GITHUB_PERSONAL_ACCESS_TOKEN is required for GitHub server" ].
Proof. reflexivity. Qed.
